(** * subtle-vision-gui: the data hook and the API client

    A shallow embedding of [useRealTimeData] (the two transforms, the
    fetch/optimise/resolve/train-action callbacks and the auto-refresh
    timer) and of [APIService] (the [request] method and the endpoint
    wrappers), with the properties the dashboard relies on.

    Conventions of the embedding.
    - A JavaScript [number] is an integer or [NaN] ([JS.number]); the wire
      format carries whole seconds and minutes, and [NaN] is what an
      unreadable date yields. Sums, products, [Math.floor(x / d)] and the
      conversion to text are those of the integers, which is what the
      doubles of the program compute as long as the numbers involved are
      safe integers ([JS.safeInteger]); a statement that needs this says so.
      Fractions of a second are outside [JS.number]: for them the
      backend-to-UI transform is embedded a second time, over IEEE 754
      doubles as the kernel computes them ([Double]).
    - A thrown value is an [Error] object (name and message) or some other
      value; a computation that may throw returns a [Completion].
    - The [useState] setters are recorded as a sequence of effects, in
      program order, together with the HTTP exchanges; replaying the
      sequence over a state gives the state React renders next.
    - [toISOString] is written out: the ISO text of a time value, and a
      [RangeError] for a date that holds none; [Date.parse] is a parameter.
    - An asynchronous callback is run to completion: the answers of the
      network and the readings of the clock are part of its input
      ([World]). [run] replays its calls with nothing in between; [runAmid]
      lets the calls of other callbacks in at each [await]. *)

From Stdlib Require Import ZArith Lia Ascii String.
From Stdlib Require Import PrimFloat SpecFloat FloatOps.
From stdpp Require Import base option list strings pretty gmap.

Local Open Scope Z_scope.

(** ** JavaScript values *)

Module JS.

(** The numbers of the embedding: the integers and [NaN]. *)
Inductive number := Num (z : Z) | NaN.

(** [Number.MAX_SAFE_INTEGER]. Up to it every integer is a double, and a
    sum, difference or product of two such integers is computed without
    rounding when the exact result is again such an integer. *)
Definition MAX_SAFE_INTEGER : Z := 9007199254740991.

Definition safeInteger (z : Z) : Prop := Z.abs z ≤ MAX_SAFE_INTEGER.

(** A number whose text is that of [String(x)]: [NaN] or a safe integer. *)
Definition safe (x : number) : Prop :=
  match x with
  | Num z => safeInteger z
  | NaN => True
  end.

#[global] Instance number_eq_dec : EqDecision number.
Proof. solve_decision. Defined.

(** [ToBoolean] on numbers: [0] and [NaN] are falsy. *)
Definition truthy (x : number) : bool :=
  match x with
  | Num z => negb (z =? 0)
  | NaN => false
  end.

(** [ToBoolean] on strings: only the empty string is falsy. *)
Definition truthy_string (s : string) : bool :=
  match s with
  | EmptyString => false
  | String _ _ => true
  end.

(** [x > y] *)
Definition gt (x y : number) : bool :=
  match x, y with
  | Num a, Num b => b <? a
  | _, _ => false
  end.

(** [x < y] *)
Definition lt (x y : number) : bool := gt y x.

Definition lift2 (f : Z → Z → Z) (x y : number) : number :=
  match x, y with
  | Num a, Num b => Num (f a b)
  | _, _ => NaN
  end.

Definition add := lift2 Z.add.
Definition sub := lift2 Z.sub.
Definition mul := lift2 Z.mul.

(** [Math.max(x, y)]: [NaN] as soon as one argument is. *)
Definition Math_max := lift2 Z.max.

(** [Math.floor(x / d)] for a positive integer constant [d]: the integer
    quotient. The program divides in doubles and rounds the quotient before
    [Math.floor]; for a safe integer [x] and the divisors used here (60 and
    1000) the rounded quotient stays below the next integer, so the result
    is the same, which it is not for every larger [x]. *)
Definition floor_div (x : number) (d : Z) : number :=
  match x with
  | Num a => Num (a / d)
  | NaN => NaN
  end.

(** [a || b] where [a] is an optional number (absent is [undefined]). *)
Definition or_number (a : option number) (b : number) : number :=
  match a with
  | Some x => if truthy x then x else b
  | None => b
  end.

(** [a || b] on values that are a string or [undefined], the result
    again being one. *)
Definition or_undef (a b : option string) : option string :=
  match a with
  | Some s => if truthy_string s then Some s else b
  | None => b
  end.

(** [a || 'literal'] *)
Definition or_string (a : option string) (b : string) : string :=
  match a with
  | Some s => if truthy_string s then s else b
  | None => b
  end.

(** [Array.prototype.join] on an array of strings. *)
Fixpoint join (sep : string) (l : list string) : string :=
  match l with
  | [] => ""
  | [x] => x
  | x :: rest => x +:+ sep +:+ join sep rest
  end.

(** *** Thrown values and completions *)

Record Error := mkError { name : string; message : string }.

Inductive value := ErrorObject (e : Error) | OtherValue (shown : string).

#[global] Instance Error_eq_dec : EqDecision Error.
Proof. solve_decision. Defined.
#[global] Instance value_eq_dec : EqDecision value.
Proof. solve_decision. Defined.

Inductive Completion (A : Type) := Normal (a : A) | Throw (v : value).
Arguments Normal {A} a.
Arguments Throw {A} v.

#[global] Instance Completion_ret : MRet Completion := @Normal.
#[global] Instance Completion_bind : MBind Completion := λ A B f m,
  match m with
  | Normal a => f a
  | Throw v => Throw v
  end.

(** [Array.prototype.map] with a callback that may throw: the elements
    are visited from left to right, each with its index, and the first
    throw ends the loop. *)
Fixpoint Array_map {A B} (f : nat → A → Completion B) (i : nat) (l : list A)
  : Completion (list B) :=
  match l with
  | [] => Normal []
  | x :: rest =>
      y ← f i x;
      ys ← Array_map f (S i) rest;
      mret (y :: ys)
  end.

(** *** Dates

    A [Date] holds a time value: milliseconds since the epoch, or [NaN]
    for an invalid date. *)

Definition maxTimeValue : Z := 8640000000000000.

Definition TimeClip (v : number) : number :=
  match v with
  | Num t => if Z.abs t <=? maxTimeValue then Num t else NaN
  | NaN => NaN
  end.

Record Date := mkDate { getTime : number }.

(** [new Date(v)] for a number [v]. *)
Definition newDate (v : number) : Date := mkDate (TimeClip v).

Definition msPerDay : Z := 86400000.

(** Year, month and day of the month of a day number (days since
    1970-01-01) in the proleptic Gregorian calendar, computed over
    400-year eras with the year starting in March. *)
Definition civilFromDays (day : Z) : Z * Z * Z :=
  let z := day + 719468 in
  let era := z / 146097 in
  let doe := z mod 146097 in
  let yoe := (doe - doe / 1460 + doe / 36524 - doe / 146096) / 365 in
  let doy := doe - (365 * yoe + yoe / 4 - yoe / 100) in
  let mp := (5 * doy + 2) / 153 in
  let d := doy - (153 * mp + 2) / 5 + 1 in
  let m := if mp <? 10 then mp + 3 else mp - 9 in
  (if m <=? 2 then yoe + era * 400 + 1 else yoe + era * 400, m, d).

Definition digit (n : Z) : ascii := Ascii.ascii_of_N (48 + Z.to_N n).

(** The last [width] decimal digits of [n], followed by [rest]. *)
Fixpoint padded (width : nat) (n : Z) (rest : string) : string :=
  match width with
  | O => rest
  | S w => String (digit ((n / 10 ^ Z.of_nat w) mod 10)) (padded w n rest)
  end.

(** Four digits for the years 0 to 9999, a sign and six digits otherwise. *)
Definition yearText (y : Z) (rest : string) : string :=
  if (0 <=? y) && (y <=? 9999) then padded 4 y rest
  else String (if y <? 0 then "-"%char else "+"%char) (padded 6 (Z.abs y) rest).

(** The text [YYYY-MM-DDTHH:mm:ss.sssZ] of a time value. *)
Definition isoText (t : Z) : string :=
  let '(y, m, d) := civilFromDays (t / msPerDay) in
  let ms := t mod msPerDay in
  let hour := ms / 3600000 in
  let minute := (ms / 60000) mod 60 in
  let second := (ms / 1000) mod 60 in
  let milli := ms mod 1000 in
  yearText y (String "-"%char (padded 2 m (String "-"%char (padded 2 d
    (String "T"%char (padded 2 hour (String ":"%char (padded 2 minute
    (String ":"%char (padded 2 second (String "."%char (padded 3 milli "Z")))))))))))).

(** [d.toISOString()] throws a [RangeError] on an invalid date. *)
Definition toISOString (d : Date) : Completion string :=
  match getTime d with
  | Num t => Normal (isoText t)
  | NaN => Throw (ErrorObject (mkError "RangeError" "Invalid time value"))
  end.

Section Parse.
(** [Date.parse]: the time value a text is read as, [NaN] when it is not
    read as a date; which texts are read, beyond the ISO format, is left
    to the implementation. *)
Variable Date_parse : string → number.

(** [new Date(s)] for a string [s]. *)
Definition parseDate (s : string) : Date := mkDate (TimeClip (Date_parse s)).
End Parse.

End JS.

Import JS.

(** ** Wire and display records ([lib/api] and the dashboard) *)

Module BackendTrain.
Record t := mk {
  id : string;
  priority : number;
  planned_departure : number;
  route_sections : list string;
  due_time : option number;
  current_delay_minutes : option number;
}.
#[global] Instance BackendTrain_eq_dec : EqDecision t.
Proof. solve_decision. Defined.
End BackendTrain.

Module BackendSection.
Record t := mk {
  id : string;
  platform_capacity : option number;
  conflicts_with : option (gmap string number);
  conflict_groups : option (gmap string number);
}.
#[global] Instance BackendSection_eq_dec : EqDecision t.
Proof. solve_decision. Defined.
End BackendSection.

Module BackendState.
Record t := mk {
  trains : list BackendTrain.t;
  sections : list BackendSection.t;
}.
#[global] Instance BackendState_eq_dec : EqDecision t.
Proof. solve_decision. Defined.
End BackendState.

Module PredictedConflict.
Record t := mk {
  train_ids : list string;
  section_id : string;
  predicted_conflict_time : number;
}.
End PredictedConflict.

Module PredictionResponse.
Record t := mk {
  predicted_delay_minutes : gmap string number;
  predicted_conflicts : list PredictedConflict.t;
}.
End PredictionResponse.

(** The display record of a train; at run time the hook keeps these in an
    [any[]], so [status] is whatever string was last written. *)
Module Train.
Record t := mk {
  id : string;
  name : string;
  status : string;
  currentLocation : string;
  delay : number;
  nextStation : string;
  eta : string;
}.
#[global] Instance Train_eq_dec : EqDecision t.
Proof. solve_decision. Defined.
End Train.

Module Conflict.
Record t := mk {
  id : string;
  trains : list string;
  location : string;
  severity : string;
  timeToConflict : number;
  aiResolution : string;
}.
End Conflict.

(** ** The transforms *)

(** The callback of [backendState.trains.map] in
    [transformBackendToFrontend]; [now] is what [Date.now()] reads when the
    callback runs. *)
Definition toFrontendTrain (now : Z) (train : BackendTrain.t) : Completion Train.t :=
  let delayed :=
    match BackendTrain.current_delay_minutes train with
    | Some d => truthy d && gt d (Num 0)
    | None => false
    end in
  eta ← toISOString
          (newDate (add (Num now)
                        (mul (or_number (BackendTrain.due_time train) (Num 0)) (Num 1000))));
  mret {|
    Train.id := BackendTrain.id train;
    Train.name := "Train " +:+ BackendTrain.id train;
    Train.status := if delayed then "delayed" else "on-time";
    Train.currentLocation :=
      or_string (BackendTrain.route_sections train !! 0%nat) "Unknown";
    Train.delay := or_number (BackendTrain.current_delay_minutes train) (Num 0);
    Train.nextStation :=
      or_string (or_undef (BackendTrain.route_sections train !! 1%nat)
                          (BackendTrain.route_sections train !! 0%nat))
                "Terminal";
    Train.eta := eta;
  |}.

Module FrontendState.
Record t := mk {
  trains : list Train.t;
  sections : list BackendSection.t;
}.
End FrontendState.

(** A clock gives the reading of [Date.now()] for each element of the array
    being mapped: the callback reads the clock anew for every train. *)
Definition Clock := nat → Z.

Definition transformBackendToFrontend (clock : Clock) (backendState : BackendState.t)
  : Completion FrontendState.t :=
  trains ← Array_map (λ index train, toFrontendTrain (clock index) train) 0
             (BackendState.trains backendState);
  mret {| FrontendState.trains := trains;
          FrontendState.sections := BackendState.sections backendState |}.

Section FrontendToBackend.
Variable Date_parse : string → number.

(** The callback of [trains.map] in [transformFrontendToBackend]. *)
Definition toBackendTrain (now : Z) (train : Train.t) : BackendTrain.t :=
  {|
    BackendTrain.id := Train.id train;
    BackendTrain.priority := Num 1;
    BackendTrain.planned_departure := Num 0;
    BackendTrain.route_sections := [Train.currentLocation train; Train.nextStation train];
    BackendTrain.due_time :=
      Some (floor_div (sub (getTime (parseDate Date_parse (Train.eta train))) (Num now)) 1000);
    BackendTrain.current_delay_minutes := Some (Train.delay train);
  |}.

Definition transformFrontendToBackend (clock : Clock) (trains : list Train.t)
  : BackendState.t :=
  {|
    BackendState.trains := imap (λ index train, toBackendTrain (clock index) train) trains;
    BackendState.sections := [
      {| BackendSection.id := "S1"; BackendSection.platform_capacity := Some (Num 1);
         BackendSection.conflicts_with := None; BackendSection.conflict_groups := None |};
      {| BackendSection.id := "S2"; BackendSection.platform_capacity := Some (Num 1);
         BackendSection.conflicts_with := None; BackendSection.conflict_groups := None |};
      {| BackendSection.id := "S3"; BackendSection.platform_capacity := Some (Num 1);
         BackendSection.conflicts_with := None; BackendSection.conflict_groups := None |}
    ];
  |}.
End FrontendToBackend.

(** ** The backend-to-UI transform over doubles

    The same function, with the numbers of the wire format as the IEEE 754
    doubles they are at run time, so that a fraction of a second can be
    carried. The arithmetic is the kernel's binary64 arithmetic. *)

Module Double.

(** [ToBoolean]: [0], [-0] and [NaN] are falsy. *)
Definition truthy (x : float) : bool := negb (x =? 0)%float && negb (is_nan x).

(** [a || b] where [a] is an optional number. *)
Definition or_number (a : option float) (b : float) : float :=
  match a with
  | Some x => if truthy x then x else b
  | None => b
  end.

(** [ToIntegerOrInfinity] on a finite double: the fraction is dropped, so
    that the result is the nearest integer towards zero. *)
Definition truncate (x : float) : option Z :=
  match Prim2SF x with
  | S754_zero _ => Some 0
  | S754_finite negative m e =>
      let magnitude := if 0 <=? e then Z.pos m * 2 ^ e else Z.pos m / 2 ^ (- e) in
      Some (if negative then - magnitude else magnitude)
  | S754_infinity _ | S754_nan => None
  end.

(** [Math.floor] on a finite double. *)
Definition floor (x : float) : option Z :=
  match Prim2SF x with
  | S754_zero _ => Some 0
  | S754_finite negative m e =>
      if 0 <=? e then Some (if negative then - (Z.pos m * 2 ^ e) else Z.pos m * 2 ^ e)
      else if negative then Some (- ((Z.pos m + 2 ^ (- e) - 1) / 2 ^ (- e)))
      else Some (Z.pos m / 2 ^ (- e))
  | S754_infinity _ | S754_nan => None
  end.

(** [TimeClip]: no time value for a double that is not finite or beyond
    8.64e15 in absolute value, and the integer part otherwise. *)
Definition TimeClip (time : float) : number :=
  if negb (is_finite time) then NaN
  else if (8640000000000000 <? abs time)%float then NaN
  else match truncate time with
       | Some t => Num t
       | None => NaN
       end.

(** [new Date(v)] for a number [v]. *)
Definition newDate (v : float) : Date := mkDate (TimeClip v).

Module BackendTrain.
Record t := mk {
  id : string;
  priority : float;
  planned_departure : float;
  route_sections : list string;
  due_time : option float;
  current_delay_minutes : option float;
}.
End BackendTrain.

Module BackendState.
Record t := mk {
  trains : list BackendTrain.t;
  sections : list BackendSection.t;
}.
End BackendState.

Module Train.
Record t := mk {
  id : string;
  name : string;
  status : string;
  currentLocation : string;
  delay : float;
  nextStation : string;
  eta : string;
}.
End Train.

Module FrontendState.
Record t := mk {
  trains : list Train.t;
  sections : list BackendSection.t;
}.
End FrontendState.

(** The callback of [backendState.trains.map]; [now] is what [Date.now()]
    reads when the callback runs. *)
Definition toFrontendTrain (now : float) (train : BackendTrain.t) : Completion Train.t :=
  let delayed :=
    match BackendTrain.current_delay_minutes train with
    | Some d => truthy d && (0 <? d)%float
    | None => false
    end in
  eta ← toISOString
          (newDate (now + or_number (BackendTrain.due_time train) 0 * 1000)%float);
  mret {|
    Train.id := BackendTrain.id train;
    Train.name := "Train " +:+ BackendTrain.id train;
    Train.status := if delayed then "delayed" else "on-time";
    Train.currentLocation :=
      or_string (BackendTrain.route_sections train !! 0%nat) "Unknown";
    Train.delay := or_number (BackendTrain.current_delay_minutes train) 0%float;
    Train.nextStation :=
      or_string (or_undef (BackendTrain.route_sections train !! 1%nat)
                          (BackendTrain.route_sections train !! 0%nat))
                "Terminal";
    Train.eta := eta;
  |}.

(** The reading of [Date.now()] for each element of the array. *)
Definition Clock := nat → float.

Definition transformBackendToFrontend (clock : Clock) (backendState : BackendState.t)
  : Completion FrontendState.t :=
  trains ← Array_map (λ index train, toFrontendTrain (clock index) train) 0
             (BackendState.trains backendState);
  mret {| FrontendState.trains := trains;
          FrontendState.sections := BackendState.sections backendState |}.

End Double.

(** ** Effects of the hook and of the API client *)

Module ScheduleResponse.
Record kpis_t := mkKpis {
  total_lateness : number;
  otp_count : number;
  total_trains : number;
}.
Record slot := mkSlot {
  section : string;
  entry_time : number;
  exit_time : number;
}.
Record t := mk {
  kpis : kpis_t;
  schedule : gmap string (list slot);
  lateness_by_train : option (gmap string number);
}.
End ScheduleResponse.

(** What [JSON.stringify] is applied to; the text is carried as the value
    it serialises. *)
Inductive Payload :=
| StatePayload (state : BackendState.t)
| ResolvePayload (state : BackendState.t) (predicted_conflicts : list PredictedConflict.t).

Module RequestInit.
Record t := mk {
  method : option string;
  body : option Payload;
  headers : option (list (string * string));
}.
(** The default [options = {}] of [request]. *)
Definition empty : t := mk None None None.
End RequestInit.

(** The [Response] of [fetch], with [json()] seen at the type [T] that the
    caller of [request<T>] expects of the body: it throws when the body
    is not JSON. *)
Module Response.
Record t (T : Type) := mk {
  status : Z;
  statusText : string;
  json : Completion T;
}.
Arguments mk {T} _ _ _.
Arguments status {T} _.
Arguments statusText {T} _.
Arguments json {T} _.
(** [response.ok]: the status is in the range 200 to 299. *)
Definition ok {T} (response : t T) : bool :=
  (200 <=? status response) && (status response <=? 299).
End Response.

Inductive Effect :=
| HttpFetch (url : string) (init : RequestInit.t)
| SetTrains (trains : list Train.t)
| UpdateTrains (updater : list Train.t → list Train.t)
| SetConflicts (conflicts : list Conflict.t)
| SetIsConnected (isConnected : bool)
| SetLastUpdate (lastUpdate : Date)
| SetLoading (loading : bool)
| SetError (error : option string)
| ConsoleError (label : string) (err : value)
| ConsoleLog (label : string).

(** A procedure: the effects it performed, in order, and how it ended. *)
Record Proc (A : Type) := mkProc {
  effects : list Effect;
  completion : Completion A;
}.
Arguments mkProc {A} _ _.
Arguments effects {A} _.
Arguments completion {A} _.

#[global] Instance Proc_ret : MRet Proc := λ A a, mkProc [] (Normal a).
#[global] Instance Proc_bind : MBind Proc := λ A B f m,
  match completion m with
  | Normal a => mkProc (effects m ++ effects (f a)) (completion (f a))
  | Throw v => mkProc (effects m) (Throw v)
  end.

Definition perform (e : Effect) : Proc unit := mkProc [e] (Normal ()).
Definition throw {A} (v : value) : Proc A := mkProc [] (Throw v).
(** A pure computation that may throw, run inside a procedure. *)
Definition eval {A} (c : Completion A) : Proc A := mkProc [] c.

(** [try { body } catch (err) { handler } finally { final }] *)
Definition try_catch_finally {A} (body : Proc A) (handler : value → Proc A)
    (final : Proc unit) : Proc A :=
  let guarded :=
    match completion body with
    | Normal _ => body
    | Throw err =>
        mkProc (effects body ++ effects (handler err)) (completion (handler err))
    end in
  mkProc (effects guarded ++ effects final)
         (match completion final with
          | Normal _ => completion guarded
          | Throw v => Throw v
          end).

Notation "'try_' body 'catch_' err => handler 'finally_' final" :=
  (try_catch_finally body (λ err, handler) final)
  (at level 10, err name, body at level 200, handler at level 200,
   final at level 200, only parsing).

(** [err instanceof Error ? err.message : fallback] *)
Definition messageOr (err : value) (fallback : string) : string :=
  match err with
  | ErrorObject e => message e
  | OtherValue _ => fallback
  end.

(** String conversion inside template literals: the decimal digits of a
    safe integer ([JS.safe]); beyond that the program prints at most 17
    significant digits, and an exponent from 1e21 on. *)
Definition show_number (x : number) : string :=
  match x with
  | Num z => pretty z
  | NaN => "NaN"
  end.

Definition show_bool (b : bool) : string := if b then "true" else "false".

(** ** The API client ([lib/api]) *)

(** The global [fetch] as seen by a caller that expects a body of type [T];
    it throws when the network fails. *)
Definition Fetch (T : Type) := string → RequestInit.t → Completion (Response.t T).

Definition API_BASE_URL : string := "http://localhost:8000".

Module APIService.
Record t := new { baseUrl : string }.

Section Request.
Context {T : Type} (fetch : Fetch T).

(** [{ headers: { 'Content-Type': ..., ...options.headers }, ...options }]:
    the spread of [options] comes last, so a [headers] entry of the caller
    replaces the merged one. *)
Definition requestInit (options : RequestInit.t) : RequestInit.t :=
  {| RequestInit.headers :=
       match RequestInit.headers options with
       | Some h => Some h
       | None => Some [("Content-Type", "application/json")]
       end;
     RequestInit.method := RequestInit.method options;
     RequestInit.body := RequestInit.body options |}.

Definition request (this : t) (endpoint : string) (options : RequestInit.t) : Proc T :=
  let url := baseUrl this +:+ endpoint in
  response ← mkProc [HttpFetch url (requestInit options)]
                    (fetch url (requestInit options));
  if negb (Response.ok response) then
    throw (ErrorObject (mkError "Error"
             ("API request failed: " +:+ pretty (Response.status response)
              +:+ " " +:+ Response.statusText response)))
  else
    eval (Response.json response).

Definition post (body : option Payload) : RequestInit.t :=
  {| RequestInit.method := Some "POST";
     RequestInit.body := body;
     RequestInit.headers := None |}.

Definition getDemo (this : t) : Proc T :=
  request this "/demo" RequestInit.empty.

Definition getLiveSnapshot (this : t) (useLive : bool) (maxTrains : number)
    (state : option BackendState.t) : Proc T :=
  request this
    ("/live/snapshot?use_live=" +:+ show_bool useLive
     +:+ "&max_trains=" +:+ show_number maxTrains)
    (post (StatePayload <$> state)).

Definition predictConflicts (this : t) (state : BackendState.t) : Proc T :=
  request this "/predict" (post (Some (StatePayload state))).

Definition optimizeSchedule (this : t) (state : BackendState.t)
    (otpTolerance : number) : Proc T :=
  request this ("/schedule?otp_tolerance=" +:+ show_number otpTolerance)
    (post (Some (StatePayload state))).

Definition resolveConflicts (this : t) (state : BackendState.t)
    (predictedConflicts : list PredictedConflict.t) (solver : string)
    (otpTolerance : number) : Proc T :=
  request this
    ("/resolve?solver=" +:+ solver +:+ "&otp_tolerance=" +:+ show_number otpTolerance)
    (post (Some (ResolvePayload state predictedConflicts))).

Definition whatIfAnalysis (this : t) (state : BackendState.t)
    (otpTolerance : number) : Proc T :=
  request this ("/whatif?otp_tolerance=" +:+ show_number otpTolerance)
    (post (Some (StatePayload state))).

Definition getKPIs (this : t) (state : BackendState.t)
    (otpTolerance : number) : Proc T :=
  request this ("/kpis?otp_tolerance=" +:+ show_number otpTolerance)
    (post (Some (StatePayload state))).
End Request.
End APIService.

Definition apiService : APIService.t := APIService.new API_BASE_URL.

(** ** The hook ([useRealTimeData]) *)

(** What the outside world answers while one callback runs: the network,
    seen at each body type the callbacks ask for, and the clock. *)
Module World.
Record t := mk {
  fetchState : Fetch BackendState.t;
  fetchPrediction : Fetch PredictionResponse.t;
  fetchSchedule : Fetch ScheduleResponse.t;
  (** [Date.now()] inside the transforms *)
  dateNow : Clock;
  (** the time value of [new Date()] *)
  today : Z;
}.
End World.

(** *** The state of the hook *)

Module HookState.
Record t := mk {
  trains : list Train.t;
  conflicts : list Conflict.t;
  isConnected : bool;
  lastUpdate : Date;
  loading : bool;
  error : option string;
}.
(** The arguments of the six [useState] calls; [mounted] is the time value
    of the [new Date()] evaluated at the first render. *)
Definition initial (mounted : Z) : t :=
  mk [] [] false (mkDate (Num mounted)) false None.
End HookState.

(** A setter call applied to the state. *)
Definition apply (s : HookState.t) (e : Effect) : HookState.t :=
  let '(HookState.mk trains conflicts isConnected lastUpdate loading error) := s in
  match e with
  | SetTrains l => HookState.mk l conflicts isConnected lastUpdate loading error
  | UpdateTrains f => HookState.mk (f trains) conflicts isConnected lastUpdate loading error
  | SetConflicts l => HookState.mk trains l isConnected lastUpdate loading error
  | SetIsConnected b => HookState.mk trains conflicts b lastUpdate loading error
  | SetLastUpdate d => HookState.mk trains conflicts isConnected d loading error
  | SetLoading b => HookState.mk trains conflicts isConnected lastUpdate b error
  | SetError e => HookState.mk trains conflicts isConnected lastUpdate loading e
  | HttpFetch _ _ | ConsoleError _ _ | ConsoleLog _ => s
  end.

(** The state after a procedure has run from state [s], when no other
    callback makes a setter call before it ends. *)
Definition run {A} (p : Proc A) (s : HookState.t) : HookState.t :=
  foldl apply s (effects p).

(** An effect that goes to the network. *)
Definition isFetch (e : Effect) : bool :=
  match e with
  | HttpFetch _ _ => true
  | _ => false
  end.

(** The calls of a procedure together with those that other callbacks make
    while it is suspended. A procedure whose [await]s are those of its
    requests is suspended after each request and nowhere else: the k-th
    list of [others] holds what the other callbacks do between the k-th
    request and the resumption. *)
Fixpoint weave (l : list Effect) (others : list (list Effect)) : list Effect :=
  match l with
  | [] => []
  | e :: rest =>
      if isFetch e then
        match others with
        | during :: later => e :: during ++ weave rest later
        | [] => e :: weave rest []
        end
      else e :: weave rest others
  end.

(** The state when procedure [p], started in state [s], ends, with the
    calls of other callbacks in between. *)
Definition runAmid {A} (p : Proc A) (others : list (list Effect)) (s : HookState.t)
  : HookState.t :=
  foldl apply s (weave (effects p) others).

(** The callback of [predictions.predicted_conflicts.map]. *)
Definition toFrontendConflict (index : nat) (conflict : PredictedConflict.t) : Conflict.t :=
  {|
    Conflict.id := "conflict-" +:+ pretty index;
    Conflict.trains := PredictedConflict.train_ids conflict;
    Conflict.location := PredictedConflict.section_id conflict;
    Conflict.severity := "medium";
    Conflict.timeToConflict := PredictedConflict.predicted_conflict_time conflict;
    Conflict.aiResolution :=
      "Reroute " +:+ join ", " (PredictedConflict.train_ids conflict)
      +:+ " through alternative sections";
  |}.

Definition fetchLiveData (w : World.t) (useLive : bool) : Proc unit :=
  try_
    perform (SetLoading true);;
    perform (SetError None);;
    backendState ← APIService.getLiveSnapshot (World.fetchState w) apiService
                      useLive (Num 50) None;
    frontend ← eval (transformBackendToFrontend (World.dateNow w) backendState);
    perform (SetTrains (FrontendState.trains frontend));;
    predictions ← APIService.predictConflicts (World.fetchPrediction w) apiService
                     backendState;
    let frontendConflicts :=
      imap toFrontendConflict (PredictionResponse.predicted_conflicts predictions) in
    perform (SetConflicts frontendConflicts);;
    perform (SetIsConnected true);;
    perform (SetLastUpdate (mkDate (Num (World.today w))))
  catch_ err =>
    perform (ConsoleError "Failed to fetch live data:" err);;
    perform (SetError (Some (messageOr err "Failed to connect to backend")));;
    perform (SetIsConnected false)
  finally_
    perform (SetLoading false).

(** The callback of [prev.map] in the local update of [handleTrainAction]. *)
Definition applyTrainAction (trainId action : string) (train : Train.t) : Train.t :=
  if decide (Train.id train = trainId) then
    if decide (action = "hold") then
      {| Train.id := Train.id train;
         Train.name := Train.name train;
         Train.status := "held";
         Train.currentLocation := Train.currentLocation train;
         Train.delay := Train.delay train;
         Train.nextStation := Train.nextStation train;
         Train.eta := Train.eta train |}
    else if decide (action = "expedite") then
      {| Train.id := Train.id train;
         Train.name := Train.name train;
         Train.status := "expedited";
         Train.currentLocation := Train.currentLocation train;
         Train.delay := Math_max (Num 0) (sub (Train.delay train) (Num 5));
         Train.nextStation := Train.nextStation train;
         Train.eta := Train.eta train |}
    else if decide (action = "reroute") then
      {| Train.id := Train.id train;
         Train.name := Train.name train;
         Train.status := "rerouting";
         Train.currentLocation := Train.currentLocation train;
         Train.delay := Train.delay train;
         Train.nextStation := Train.nextStation train;
         Train.eta := Train.eta train |}
    else train
  else train.

Definition handleTrainAction (trainId action : string) (w : World.t) : Proc unit :=
  try_
    perform (SetLoading true);;
    perform (UpdateTrains (λ prev, applyTrainAction trainId action <$> prev));;
    fetchLiveData w false
  catch_ err =>
    perform (ConsoleError "Failed to execute train action:" err);;
    perform (SetError (Some (messageOr err "Failed to execute action")))
  finally_
    perform (SetLoading false).

(** The callback given to [setInterval(…, 30000)]; [isConnected] is the
    state captured when the effect was set up, and the effect is set up
    again whenever [isConnected] changes. *)
Definition autoRefresh (isConnected : bool) (w : World.t) : Proc unit :=
  if isConnected then fetchLiveData w false else mret ().

(** What can happen to a mounted hook: the dashboard calls one of the four
    callbacks, or the interval fires. *)
Inductive Event :=
| CallFetchLiveData (useLive : bool) (w : World.t)
| CallOptimizeSchedule (w : World.t)
| CallResolveConflicts (w w' : World.t)
| CallHandleTrainAction (trainId action : string) (w : World.t)
| TimerTick (w : World.t).


Section Hook.
Variable Date_parse : string → number.

(** [trains] is the state captured by the callback when it was created. *)
Definition optimizeSchedule (trains : list Train.t) (w : World.t) : Proc unit :=
  try_
    perform (SetLoading true);;
    let backendState := transformFrontendToBackend Date_parse (World.dateNow w) trains in
    result ← APIService.optimizeSchedule (World.fetchSchedule w) apiService
                backendState (Num 300);
    perform (ConsoleLog "Schedule optimized:")
  catch_ err =>
    perform (ConsoleError "Failed to optimize schedule:" err);;
    perform (SetError (Some (messageOr err "Failed to optimize schedule")))
  finally_
    perform (SetLoading false).

(** [w'] is the world in which the refresh after the resolution runs. *)
Definition resolveConflicts (trains : list Train.t) (w w' : World.t) : Proc unit :=
  try_
    perform (SetLoading true);;
    let backendState := transformFrontendToBackend Date_parse (World.dateNow w) trains in
    predictions ← APIService.predictConflicts (World.fetchPrediction w) apiService
                     backendState;
    result ← APIService.resolveConflicts (World.fetchSchedule w) apiService
                backendState (PredictionResponse.predicted_conflicts predictions)
                "milp" (Num 300);
    perform (ConsoleLog "Conflicts resolved:");;
    fetchLiveData w' false
  catch_ err =>
    perform (ConsoleError "Failed to resolve conflicts:" err);;
    perform (SetError (Some (messageOr err "Failed to resolve conflicts")))
  finally_
    perform (SetLoading false).

(** The procedure an event starts in state [s]. *)
Definition react (s : HookState.t) (ev : Event) : Proc unit :=
  match ev with
  | CallFetchLiveData useLive w => fetchLiveData w useLive
  | CallOptimizeSchedule w => optimizeSchedule (HookState.trains s) w
  | CallResolveConflicts w w' => resolveConflicts (HookState.trains s) w w'
  | CallHandleTrainAction trainId action w => handleTrainAction trainId action w
  | TimerTick w => autoRefresh (HookState.isConnected s) w
  end.

Inductive step : HookState.t → Event → HookState.t → Prop :=
| step_react s ev : step s ev (run (react s ev) s).

Inductive reachable : HookState.t → Prop :=
| reachable_initial mounted : reachable (HookState.initial mounted)
| reachable_step s ev s' : reachable s → step s ev s' → reachable s'.


End Hook.

(** ** The components that show the state

    What each component derives from the status, the delay and the
    location of a train. Left out: the geometry of the drawings, the random
    width of the progress bar, and the percentages of the summary, which
    are computed in doubles. *)

(** [String.prototype.includes] *)
Fixpoint startsWith (s part : string) : bool :=
  match part, s with
  | EmptyString, _ => true
  | String c part', String d s' => bool_decide (c = d) && startsWith s' part'
  | String _ _, EmptyString => false
  end.

Fixpoint includes (s part : string) : bool :=
  startsWith s part ||
  match s with
  | EmptyString => false
  | String _ s' => includes s' part
  end.

(** [x % d] *)
Definition remainder (x : number) (d : Z) : number :=
  match x with
  | Num a => Num (Z.rem a d)
  | NaN => NaN
  end.

(** A [Badge] element: its [variant] and [className] props and its text. *)
Module Badge.
Record t := mk {
  variant : option string;
  className : option string;
  text : string;
}.
End Badge.

(** [train.status === 'on-time' ? 'default' : train.status === 'delayed' ?
    'secondary' : 'destructive'], the variant that three components give to
    the badge of a train. *)
Definition statusVariant (status : string) : string :=
  if decide (status = "on-time") then "default"
  else if decide (status = "delayed") then "secondary"
  else "destructive".

Module ConflictAlert.
Definition getSeverityColor (severity : string) : string :=
  if decide (severity = "high") then "destructive"
  else if decide (severity = "medium") then "secondary"
  else if decide (severity = "low") then "default"
  else "default".

Definition formatTimeToConflict (minutes : number) : string :=
  if lt minutes (Num 1) then "Imminent"
  else if lt minutes (Num 60) then show_number minutes +:+ "m"
  else
    let hours := floor_div minutes 60 in
    let remainingMinutes := remainder minutes 60 in
    show_number hours +:+ "h " +:+ show_number remainingMinutes +:+ "m".
End ConflictAlert.

(** The list of trains: per train an icon, a badge, the eta, the progress
    bar with its note, and the conflict and delay boxes. *)
Module TrainStatus.
(** The icons of [lucide-react] that the list of trains draws. *)
Inductive Icon := CheckCircleIcon | ClockIcon | AlertTriangleIcon.

Definition getStatusIcon (status : string) : Icon :=
  if decide (status = "on-time") then CheckCircleIcon
  else if decide (status = "delayed") then ClockIcon
  else if decide (status = "conflict") then AlertTriangleIcon
  else CheckCircleIcon.

Definition getStatusColor (status : string) : string :=
  if decide (status = "on-time") then "text-success"
  else if decide (status = "delayed") then "text-warning"
  else if decide (status = "conflict") then "text-destructive"
  else "text-muted-foreground".

Definition getStatusBadge (status : string) (delay : number) : Badge.t :=
  if decide (status = "on-time") then
    Badge.mk None (Some "bg-success/10 text-success border-success/20") "On Time"
  else if decide (status = "delayed") then
    Badge.mk None (Some "bg-warning/10 text-warning border-warning/20")
             ("+" +:+ show_number delay +:+ "m")
  else if decide (status = "conflict") then
    Badge.mk None
             (Some "bg-destructive/10 text-destructive border-destructive/20 animate-pulse")
             "Conflict"
  else Badge.mk (Some "secondary") None "Unknown".

(** The class of the ETA text. *)
Definition etaClass (train : Train.t) : string :=
  if decide (Train.status train = "delayed") then "text-warning"
  else if decide (Train.status train = "conflict") then "text-destructive"
  else "text-foreground".

(** The class of the progress bar. *)
Definition progressBarClass (train : Train.t) : string :=
  if decide (Train.status train = "on-time") then "bg-success"
  else if decide (Train.status train = "delayed") then "bg-warning"
  else "bg-destructive animate-pulse".

(** The text at the right of "Progress to ...". *)
Definition progressNote (train : Train.t) : string :=
  if decide (Train.status train = "delayed") then
    show_number (Train.delay train) +:+ "m delay"
  else if decide (Train.status train = "conflict") then "Conflict detected"
  else "On schedule".

(** [train.status === 'conflict' && ...]: whether the conflict box is shown. *)
Definition showsConflictBox (train : Train.t) : bool :=
  bool_decide (Train.status train = "conflict").

(** [train.status === 'delayed' && train.delay > 5 && ...] *)
Definition showsDelayBox (train : Train.t) : bool :=
  bool_decide (Train.status train = "delayed") && gt (Train.delay train) (Num 5).
End TrainStatus.

Module TimeDistanceGraph.
Definition getTrainColor (status : string) : string :=
  if decide (status = "on-time") then "hsl(var(--success))"
  else if decide (status = "delayed") then "hsl(var(--warning))"
  else if decide (status = "conflict") then "hsl(var(--destructive))"
  else "hsl(var(--primary))".

(** The badge of a train in the legend. *)
Definition legendBadge (train : Train.t) : Badge.t :=
  Badge.mk (Some (statusVariant (Train.status train))) (Some "text-xs")
    (if decide (Train.status train = "on-time") then "On Time"
     else if decide (Train.status train = "delayed") then
       "+" +:+ show_number (Train.delay train) +:+ "m"
     else "Conflict").
End TimeDistanceGraph.

Module TrackLayout.
Record section := mkSection {
  id : string;
  name : string;
  occupied : bool;
}.

(** [trains.some(t => t.currentLocation.includes(part))] *)
Definition someIn (trains : list Train.t) (part : string) : bool :=
  existsb (λ t, includes (Train.currentLocation t) part) trains.

Definition trackSections (trains : list Train.t) : list section :=
  [ mkSection "AB" "Section A-B" (someIn trains "AB");
    mkSection "BC" "Section B-C" (someIn trains "BC");
    mkSection "CD" "Section C-D" (someIn trains "CD");
    mkSection "DE" "Section D-E" false ].

Definition getTrainInSection (trains : list Train.t) (sectionId : string)
  : option Train.t :=
  List.find (λ t, includes (Train.currentLocation t) sectionId) trains.

(** [train?.status === status] *)
Definition statusIs (train : option Train.t) (status : string) : bool :=
  match train with
  | Some t => bool_decide (Train.status t = status)
  | None => false
  end.

Definition getSectionColor (selectedSection : option string) (trains : list Train.t)
    (sectionId : string) (occupied : bool) : string :=
  if decide (selectedSection = Some sectionId) then "hsl(var(--accent))"
  else if occupied then
    let train := getTrainInSection trains sectionId in
    if statusIs train "conflict" then "hsl(var(--destructive))"
    else if statusIs train "delayed" then "hsl(var(--warning))"
    else "hsl(var(--track-occupied))"
  else "hsl(var(--track-clear))".

(** The badge of a section in the info panel:
    [section.occupied && train && <Badge ...>]. *)
Definition infoBadge (trains : list Train.t) (s : section) : option Badge.t :=
  if occupied s then
    match getTrainInSection trains (id s) with
    | Some train =>
        Some (Badge.mk (Some (statusVariant (Train.status train))) (Some "text-xs")
                (if decide (Train.status train = "delayed") then
                   "+" +:+ show_number (Train.delay train) +:+ "m"
                 else if decide (Train.status train = "conflict") then "Conflict"
                 else "Active"))
    | None => None
    end
  else None.
End TrackLayout.

Module ControlPanel.
(** [Partial<Train>] *)
Record updates := mkUpdates {
  id : option string;
  name : option string;
  status : option string;
  currentLocation : option string;
  delay : option number;
  nextStation : option string;
  eta : option string;
}.

Definition noUpdates : updates := mkUpdates None None None None None None None.

(** The call of a prop that [handleTrainAction] makes. *)
Inductive call :=
| onTrainAction (trainId action : string)
| onTrainUpdate (trainId : string) (changes : updates).

(** [selectedTrain] is the state of the select box; [hasTrainAction] tells
    whether the optional prop [onTrainAction] was given. *)
Definition handleTrainAction (selectedTrain : string) (hasTrainAction : bool)
    (trains : list Train.t) (action : string) : option call :=
  if negb (truthy_string selectedTrain) then None
  else if hasTrainAction then Some (onTrainAction selectedTrain action)
  else
    match List.find (λ t, bool_decide (Train.id t = selectedTrain)) trains with
    | None => None
    | Some train =>
        if decide (action = "hold") then
          Some (onTrainUpdate selectedTrain
                  {| id := None; name := None; status := Some "delayed";
                     currentLocation := None;
                     delay := Some (add (Train.delay train) (Num 5));
                     nextStation := None; eta := None |})
        else if decide (action = "expedite") then
          Some (onTrainUpdate selectedTrain
                  {| id := None; name := None; status := None;
                     currentLocation := None;
                     delay := Some (Math_max (Num 0) (sub (Train.delay train) (Num 3)));
                     nextStation := None; eta := None |})
        else if decide (action = "reroute") then
          Some (onTrainUpdate selectedTrain
                  {| id := None; name := None; status := None;
                     currentLocation :=
                       Some (Train.currentLocation train +:+ " (Rerouted)");
                     delay := Some (add (Train.delay train) (Num 2));
                     nextStation := None; eta := None |})
        else None
    end.

(** [trains.forEach(train => onTrainUpdate(train.id, {...}))] *)
Definition resetSimulation (trains : list Train.t) : list call :=
  (λ train, onTrainUpdate (Train.id train)
     {| id := None; name := None; status := Some "on-time";
        currentLocation := None; delay := Some (Num 0);
        nextStation := None; eta := None |}) <$> trains.

(** The badge of a train in the select box. *)
Definition selectBadge (train : Train.t) : Badge.t :=
  Badge.mk (Some (statusVariant (Train.status train))) (Some "ml-auto text-xs")
    (if decide (Train.status train = "delayed") then
       "+" +:+ show_number (Train.delay train) +:+ "m"
     else Train.status train).
End ControlPanel.

(** ** The dashboard ([TrafficDashboard]) *)

Module Toast.
Record t := mk {
  title : string;
  description : string;
  variant : option string;
}.
End Toast.

(** What a handler of the dashboard does: it lets the hook act, or it shows
    a toast. *)
Inductive UiEffect :=
| HookEffect (e : Effect)
| ShowToast (t : Toast.t).

Record UiProc (A : Type) := mkUiProc {
  uiEffects : list UiEffect;
  uiCompletion : Completion A;
}.
Arguments mkUiProc {A} _ _.
Arguments uiEffects {A} _.
Arguments uiCompletion {A} _.

#[global] Instance UiProc_ret : MRet UiProc := λ A a, mkUiProc [] (Normal a).
#[global] Instance UiProc_bind : MBind UiProc := λ A B f m,
  match uiCompletion m with
  | Normal a => mkUiProc (uiEffects m ++ uiEffects (f a)) (uiCompletion (f a))
  | Throw v => mkUiProc (uiEffects m) (Throw v)
  end.

(** [await] of a callback of the hook. *)
Definition await {A} (p : Proc A) : UiProc A :=
  mkUiProc (HookEffect <$> effects p) (completion p).

Definition toast (title description : string) : UiProc unit :=
  mkUiProc [ShowToast (Toast.mk title description None)] (Normal ()).

(** [try { body } catch { handler }] *)
Definition try_catch {A} (body handler : UiProc A) : UiProc A :=
  match uiCompletion body with
  | Normal _ => body
  | Throw _ => mkUiProc (uiEffects body ++ uiEffects handler) (uiCompletion handler)
  end.

Module TrafficDashboard.
(** [w] answers the first fetch, [w'] the one of the [catch] block. *)
Definition handleConnectBackend (w w' : World.t) : UiProc unit :=
  try_catch
    (await (fetchLiveData w true);;
     toast "Connected Successfully" "Connected to backend and loaded live data")
    (await (fetchLiveData w' false);;
     toast "Demo Mode" "Using demo data - backend not available").

Section Handlers.
Variable Date_parse : string → number.

(** [trains] is the state of the hook at the render whose callbacks are
    called. *)
Definition handleOptimize (trains : list Train.t) (w : World.t) : UiProc unit :=
  await (optimizeSchedule Date_parse trains w);;
  toast "Schedule Optimized" "Train schedule has been optimized for efficiency".

Definition handleResolveAll (trains : list Train.t) (w w' : World.t) : UiProc unit :=
  await (resolveConflicts Date_parse trains w w');;
  toast "Conflicts Resolved" "AI has resolved all detected conflicts".
End Handlers.

(** [trains.filter(t => t.status === status).length] *)
Definition countStatus (status : string) (trains : list Train.t) : nat :=
  length (filter (λ t, Train.status t = status) trains).

Definition onTimeTrains := countStatus "on-time".
Definition delayedTrains := countStatus "delayed".
(** Computed, and shown nowhere. *)
Definition conflictTrains := countStatus "conflict".

(** The numbers on the cards "Active Trains" and "Conflicts":
    [trains.length] and [conflicts.length]; the cards "On Time" and
    "Delayed" show [onTimeTrains] and [delayedTrains]. *)
Definition activeTrainsCard (trains : list Train.t) : nat := length trains.
Definition conflictsCard (conflicts : list Conflict.t) : nat := length conflicts.

(** The effect on [error]: [if (error) toast({title: "Connection Error",
    description: error, variant: "destructive"})]. *)
Definition errorToast (error : option string) : option Toast.t :=
  match error with
  | Some message =>
      if truthy_string message
      then Some (Toast.mk "Connection Error" message (Some "destructive"))
      else None
  | None => None
  end.
End TrafficDashboard.

(** ** Vocabulary of the properties *)

(** The day number of a date of the proleptic Gregorian calendar. *)
Definition daysFromCivil (y m d : Z) : Z :=
  let y' := if m <=? 2 then y - 1 else y in
  let era := y' / 400 in
  let yoe := y' - era * 400 in
  let mp := if 2 <? m then m - 3 else m + 9 in
  let doy := (153 * mp + 2) / 5 + d - 1 in
  let doe := yoe * 365 + yoe / 4 - yoe / 100 + doy in
  era * 146097 + doe - 719468.

(** The instant, in milliseconds, that [toFrontendTrain] hands to
    [new Date]: the clock plus a thousand times [due_time || 0]. *)
Definition etaInstant (now : Z) (train : BackendTrain.t) : Z :=
  match BackendTrain.due_time train with
  | Some (Num d) => now + d * 1000
  | _ => now
  end.

(** "current_delay_minutes is present and greater than zero" *)
Definition delayPositive (train : BackendTrain.t) : Prop :=
  ∃ d, BackendTrain.current_delay_minutes train = Some (Num d) ∧ 0 < d.

(** The sections that [transformFrontendToBackend] writes. *)
Definition fixedSections : list BackendSection.t :=
  [ BackendSection.mk "S1" (Some (Num 1)) None None;
    BackendSection.mk "S2" (Some (Num 1)) None None;
    BackendSection.mk "S3" (Some (Num 1)) None None ].

(** A backend state that [transformFrontendToBackend] cannot return: some
    train has a priority other than 1, a planned departure other than 0 or
    a route of more than two sections, or the sections are not the fixed
    three. *)
Definition notRebuildable (s : BackendState.t) : Prop :=
  (∃ t, t ∈ BackendState.trains s ∧
        (BackendTrain.priority t ≠ Num 1 ∨
         BackendTrain.planned_departure t ≠ Num 0 ∨
         (2 < length (BackendTrain.route_sections t))%nat)) ∨
  BackendState.sections s ≠ fixedSections.

(** [part] occurs in [text]. *)
Definition contains (text part : string) : Prop :=
  ∃ before after, text = before +:+ part +:+ after.

(** The two backend calls of [fetchLiveData]. *)
Definition snapshotCall (w : World.t) (useLive : bool) : Proc BackendState.t :=
  APIService.getLiveSnapshot (World.fetchState w) apiService useLive (Num 50) None.

Definition predictCall (w : World.t) (backendState : BackendState.t)
  : Proc PredictionResponse.t :=
  APIService.predictConflicts (World.fetchPrediction w) apiService backendState.

(** The requests a procedure sent to the network, in order. *)
Definition requests {A} (p : Proc A) : list Effect :=
  filter (λ e, isFetch e = true) (effects p).

(** The setter calls of the [catch] block of [fetchLiveData]. *)
Definition fetchFailure (err : value) : list Effect :=
  [ ConsoleError "Failed to fetch live data:" err;
    SetError (Some (messageOr err "Failed to connect to backend"));
    SetIsConnected false ].

(** The state a failed fetch leaves, from the state [s] in which its
    [catch] block starts. *)
Definition failedFrom (s : HookState.t) (err : value) : HookState.t :=
  {| HookState.trains := HookState.trains s;
     HookState.conflicts := HookState.conflicts s;
     HookState.isConnected := false;
     HookState.lastUpdate := HookState.lastUpdate s;
     HookState.loading := false;
     HookState.error := Some (messageOr err "Failed to connect to backend") |}.

(** A clock whose readings are time values, as those of [Date.now()] are. *)
Definition realClock (clock : Clock) : Prop := ∀ i, Z.abs (clock i) ≤ maxTimeValue.

(** What is thrown inside the [try] block of [fetchLiveData], if anything:
    by the snapshot call, else by the transform of the snapshot, else by
    the prediction call. *)
Definition fetchThrows (w : World.t) (useLive : bool) : option value :=
  match completion (snapshotCall w useLive) with
  | Throw err => Some err
  | Normal backendState =>
      match transformBackendToFrontend (World.dateNow w) backendState with
      | Throw err => Some err
      | Normal _ =>
          match completion (predictCall w backendState) with
          | Throw err => Some err
          | Normal _ => None
          end
      end
  end.

(** A call that reports a failure: [console.error], or [setError] with a
    text. *)
Definition isReport (e : Effect) : bool :=
  match e with
  | ConsoleError _ _ | SetError (Some _) => true
  | _ => false
  end.

Definition reports {A} (p : Proc A) : list Effect :=
  filter (λ e, isReport e = true) (effects p).

(** The report of a [catch] block that has caught [err]. *)
Definition reportOf (label : string) (err : value) (fallback : string) : list Effect :=
  [ConsoleError label err; SetError (Some (messageOr err fallback))].

Definition fetchReport (w : World.t) (useLive : bool) : list Effect :=
  match fetchThrows w useLive with
  | Some err => reportOf "Failed to fetch live data:" err "Failed to connect to backend"
  | None => []
  end.

(** The statuses that the local update of [handleTrainAction] writes. *)
Definition optimisticStatus (status : string) : Prop :=
  status = "held" ∨ status = "expedited" ∨ status = "rerouting".

(** What holds of every train and of every request of the hook. *)
Definition hookTrain (t : Train.t) : Prop :=
  Train.name t = "Train " +:+ Train.id t ∧
  (Train.status t = "on-time" ∨ Train.status t = "delayed" ∨
   optimisticStatus (Train.status t)).

Definition hookRequest (url : string) (init : RequestInit.t) : Prop :=
  RequestInit.method init = Some "POST" ∧
  RequestInit.headers init = Some [("Content-Type", "application/json")] ∧
  ∃ path, url = API_BASE_URL +:+ path.

(** A setter call or request that the hook can make. *)
Definition hookEffect (e : Effect) : Prop :=
  match e with
  | HttpFetch url init => hookRequest url init
  | SetTrains trains => Forall hookTrain trains
  | UpdateTrains updater =>
      ∀ trains, Forall hookTrain trains → Forall hookTrain (updater trains)
  | SetConflicts conflicts =>
      ∃ predicted, conflicts = imap toFrontendConflict predicted
  | _ => True
  end.

Definition hookState (s : HookState.t) : Prop :=
  Forall hookTrain (HookState.trains s) ∧
  ∃ predicted, HookState.conflicts s = imap toFrontendConflict predicted.

Section Calls.
Variable Date_parse : string → number.

(** The state that [optimizeSchedule] and [resolveConflicts] send. *)
Definition rebuilt (trains : list Train.t) (w : World.t) : BackendState.t :=
  transformFrontendToBackend Date_parse (World.dateNow w) trains.

(** The calls of [optimizeSchedule] and of [resolveConflicts]. *)
Definition scheduleCall (trains : list Train.t) (w : World.t) : Proc ScheduleResponse.t :=
  APIService.optimizeSchedule (World.fetchSchedule w) apiService (rebuilt trains w) (Num 300).

Definition resolutionCall (trains : list Train.t) (w : World.t)
    (predicted : list PredictedConflict.t) : Proc ScheduleResponse.t :=
  APIService.resolveConflicts (World.fetchSchedule w) apiService (rebuilt trains w)
    predicted "milp" (Num 300).

(** The reports due after an event, by what the backend calls of the
    callback throw: the first call that throws ends the [try] block, and a
    refresh is reached only when nothing has thrown before it. *)
Definition reportsDue (s : HookState.t) (ev : Event) : list Effect :=
  match ev with
  | CallFetchLiveData useLive w => fetchReport w useLive
  | CallOptimizeSchedule w =>
      match completion (scheduleCall (HookState.trains s) w) with
      | Throw err =>
          reportOf "Failed to optimize schedule:" err "Failed to optimize schedule"
      | Normal _ => []
      end
  | CallResolveConflicts w w' =>
      match completion (predictCall w (rebuilt (HookState.trains s) w)) with
      | Throw err =>
          reportOf "Failed to resolve conflicts:" err "Failed to resolve conflicts"
      | Normal predictions =>
          match completion (resolutionCall (HookState.trains s) w
                              (PredictionResponse.predicted_conflicts predictions)) with
          | Throw err =>
              reportOf "Failed to resolve conflicts:" err "Failed to resolve conflicts"
          | Normal _ => fetchReport w' false
          end
      end
  | CallHandleTrainAction _ _ w => fetchReport w false
  | TimerTick w => if HookState.isConnected s then fetchReport w false else []
  end.
End Calls.

(** A state with another error, at rest. *)
Definition withError (s : HookState.t) (error : option string) : HookState.t :=
  {| HookState.trains := HookState.trains s;
     HookState.conflicts := HookState.conflicts s;
     HookState.isConnected := HookState.isConnected s;
     HookState.lastUpdate := HookState.lastUpdate s;
     HookState.loading := false;
     HookState.error := error |}.

(** A state with other trains. *)
Definition withTrains (s : HookState.t) (trains : list Train.t) : HookState.t :=
  {| HookState.trains := trains;
     HookState.conflicts := HookState.conflicts s;
     HookState.isConnected := HookState.isConnected s;
     HookState.lastUpdate := HookState.lastUpdate s;
     HookState.loading := HookState.loading s;
     HookState.error := HookState.error s |}.

(** The options of a POST request with a body, after [request] has added
    its header. *)
Definition postOf (payload : Payload) : RequestInit.t :=
  {| RequestInit.method := Some "POST";
     RequestInit.body := Some payload;
     RequestInit.headers := Some [("Content-Type", "application/json")] |}.

Definition jsonHeaders : option (list (string * string)) :=
  Some [("Content-Type", "application/json")].

(** A text of decimal digits. *)
Definition digitChar (c : ascii) : Prop := ∃ n, (n < 10)%N ∧ c = pretty_N_char n.

Fixpoint allDigits (s : string) : Prop :=
  match s with
  | EmptyString => True
  | String c s' => digitChar c ∧ allDigits s'
  end.

(** ** Sample data *)

(** The scenario of the specification: train T1 on S1, S2, seven minutes late. *)
Definition sampleTrain : BackendTrain.t :=
  {| BackendTrain.id := "T1";
     BackendTrain.priority := Num 3;
     BackendTrain.planned_departure := Num 120;
     BackendTrain.route_sections := ["S1"; "S2"];
     BackendTrain.due_time := None;
     BackendTrain.current_delay_minutes := Some (Num 7) |}.

Definition sampleState : BackendState.t :=
  {| BackendState.trains := [sampleTrain];
     BackendState.sections := [] |}.

(** Two clocks, thirty seconds apart. *)
Definition sampleClock : Clock := λ _, 1700000000000.

Definition laterClock : Clock := λ _, 1700000030000.

Definition sampleProjection : FrontendState.t :=
  {| FrontendState.trains :=
       [{| Train.id := "T1";
           Train.name := "Train T1";
           Train.status := "delayed";
           Train.currentLocation := "S1";
           Train.delay := Num 7;
           Train.nextStation := "S2";
           Train.eta := "2023-11-14T22:13:20.000Z" |}];
     FrontendState.sections := [] |}.

(** A train with no route and a train with a single section. *)
Definition shortRoutes : BackendState.t :=
  {| BackendState.trains :=
       [ BackendTrain.mk "T7" (Num 1) (Num 0) [] None None;
         BackendTrain.mk "T8" (Num 1) (Num 0) ["S4"] (Some (Num 90)) (Some (Num 0)) ];
     BackendState.sections := [] |}.

Definition shortRoutesProjection : FrontendState.t :=
  {| FrontendState.trains :=
       [ Train.mk "T7" "Train T7" "on-time" "Unknown" (Num 0) "Terminal"
                  "2023-11-14T22:13:20.000Z";
         Train.mk "T8" "Train T8" "on-time" "S4" (Num 0) "S4"
                  "2023-11-14T22:14:50.000Z" ];
     FrontendState.sections := [] |}.

Definition shortRoutesLater : FrontendState.t :=
  {| FrontendState.trains :=
       [ Train.mk "T7" "Train T7" "on-time" "Unknown" (Num 0) "Terminal"
                  "2023-11-14T22:13:50.000Z";
         Train.mk "T8" "Train T8" "on-time" "S4" (Num 0) "S4"
                  "2023-11-14T22:15:20.000Z" ];
     FrontendState.sections := [] |}.

(** UI trains as the hook holds them; the second eta is not ISO text. *)
Definition sampleTrains : list Train.t :=
  [ Train.mk "T1" "Train T1" "delayed" "S1" (Num 7) "S2" "2023-11-14T22:13:20.000Z";
    Train.mk "T2" "Train T2" "on-time" "S2" (Num 3) "S3" "14:28" ].

(** The predicted conflict of the specification's scenario. *)
Definition sampleConflict : PredictedConflict.t :=
  {| PredictedConflict.train_ids := ["T1"; "T2"];
     PredictedConflict.section_id := "S2";
     PredictedConflict.predicted_conflict_time := Num 12 |}.

Definition samplePrediction : PredictionResponse.t :=
  {| PredictionResponse.predicted_delay_minutes := ∅;
     PredictionResponse.predicted_conflicts := [sampleConflict] |}.

(** A network that answers 200 with the given body, one that cannot be
    reached, and one that answers 404. *)
Definition answer {T} (body : T) : Fetch T :=
  λ _ _, Normal (Response.mk 200 "OK" (Normal body)).

Definition unreachable {T} : Fetch T :=
  λ _ _, Throw (ErrorObject (mkError "TypeError" "Failed to fetch")).

Definition notFound : Fetch BackendState.t :=
  λ _ _, Normal (Response.mk 404 "Not Found" (Throw (OtherValue "SyntaxError"))).

(** A train due so far ahead that no [Date] holds the instant, and a world
    whose snapshot has it. *)
Definition farTrain : BackendTrain.t :=
  {| BackendTrain.id := "T9";
     BackendTrain.priority := Num 1;
     BackendTrain.planned_departure := Num 0;
     BackendTrain.route_sections := ["S1"; "S2"];
     BackendTrain.due_time := Some (Num 10000000000000);
     BackendTrain.current_delay_minutes := None |}.

(** A world in which both calls succeed, and one with no backend. *)
Definition onlineWorld : World.t :=
  {| World.fetchState := answer sampleState;
     World.fetchPrediction := answer samplePrediction;
     World.fetchSchedule := unreachable;
     World.dateNow := sampleClock;
     World.today := 1700000000250 |}.

Definition offlineWorld : World.t :=
  {| World.fetchState := unreachable;
     World.fetchPrediction := unreachable;
     World.fetchSchedule := unreachable;
     World.dateNow := sampleClock;
     World.today := 1700000000250 |}.

(** A train due a fraction of a millisecond before the epoch when the clock
    reads 1700000000000: the seconds are -(1700000000 + 1/2048), a double,
    as are their product with 1000 and its sums with the two clock
    readings below. *)
Definition fractionalTrain : Double.BackendTrain.t :=
  {| Double.BackendTrain.id := "T1";
     Double.BackendTrain.priority := 1%float;
     Double.BackendTrain.planned_departure := 0%float;
     Double.BackendTrain.route_sections := ["S1"; "S2"];
     Double.BackendTrain.due_time := Some (-1700000000.00048828125)%float;
     Double.BackendTrain.current_delay_minutes := None |}.

Definition fractionalState : Double.BackendState.t :=
  {| Double.BackendState.trains := [fractionalTrain];
     Double.BackendState.sections := [] |}.

Definition epochProjection : Double.FrontendState.t :=
  {| Double.FrontendState.trains :=
       [ Double.Train.mk "T1" "Train T1" "on-time" "S1" 0%float "S2"
                         "1970-01-01T00:00:00.000Z" ];
     Double.FrontendState.sections := [] |}.

(** The scenario of the specification, in doubles. *)
Definition sampleStateInDoubles : Double.BackendState.t :=
  {| Double.BackendState.trains :=
       [ {| Double.BackendTrain.id := "T1";
            Double.BackendTrain.priority := 3%float;
            Double.BackendTrain.planned_departure := 120%float;
            Double.BackendTrain.route_sections := ["S1"; "S2"];
            Double.BackendTrain.due_time := None;
            Double.BackendTrain.current_delay_minutes := Some 7%float |} ];
     Double.BackendState.sections := [] |}.

(** Two clocks, one millisecond apart. *)
Definition clockBefore : Double.Clock := λ _, 1700000000000%float.

Definition clockAfter : Double.Clock := λ _, 1700000000001%float.

(** The state after the first fetch in [onlineWorld], and the state after
    holding T1 while the backend cannot be reached. *)
Definition connectedState : HookState.t :=
  run (react (λ _, NaN) (HookState.initial 0) (CallFetchLiveData false onlineWorld))
      (HookState.initial 0).

Definition heldState : HookState.t :=
  run (react (λ _, NaN) connectedState (CallHandleTrainAction "T1" "hold" offlineWorld))
      connectedState.

Definition heldTrain : Train.t :=
  Train.mk "T1" "Train T1" "held" "S1" (Num 7) "S2" "2023-11-14T22:13:20.000Z".

(** An answer of the scheduler. *)
Definition sampleSchedule : ScheduleResponse.t :=
  {| ScheduleResponse.kpis := ScheduleResponse.mkKpis (Num 0) (Num 1) (Num 1);
     ScheduleResponse.schedule := ∅;
     ScheduleResponse.lateness_by_train := None |}.

(** A world in which every call succeeds. *)
Definition resolvingWorld : World.t :=
  {| World.fetchState := answer sampleState;
     World.fetchPrediction := answer samplePrediction;
     World.fetchSchedule := answer sampleSchedule;
     World.dateNow := sampleClock;
     World.today := 1700000000250 |}.

(** What [unreachable] throws. *)
Definition networkError : value := ErrorObject (mkError "TypeError" "Failed to fetch").

(** A network whose failure carries no message. *)
Definition silentWorld : World.t :=
  {| World.fetchState := λ _ _, Throw (ErrorObject (mkError "Error" ""));
     World.fetchPrediction := unreachable;
     World.fetchSchedule := unreachable;
     World.dateNow := sampleClock;
     World.today := 1700000000250 |}.

(** Two trains in the style of the mock data of the dashboard, the second on
    the last section. *)
Definition trackTrains : list Train.t :=
  [ Train.mk "T001" "Express Mumbai-Delhi" "delayed" "Section AB" (Num 10) "Station B" "14:35";
    Train.mk "T002" "Local Delhi-Agra" "on-time" "Section DE" (Num 0) "Station E" "14:28" ].

(** ** Properties *)

Ltac flatten_effects :=
  unfold fetchFailure; repeat (rewrite <- app_assoc; simpl); done.

Ltac view_cases :=
  repeat match goal with
         | |- _ ∧ _ => split
         | |- _ ↔ _ => split
         | |- _ → _ => intros ?
         | |- _ ≠ _ => intros ?
         | H : _ ∨ _ |- _ => destruct H
         | H : _ ∧ _ |- _ => destruct H
         | H : ¬ _ |- _ => exfalso; apply H; auto 6; fail
         end;
  try done; try discriminate; auto 6.

Ltac fold_requests :=
  repeat match goal with
         | |- context [filter ?P (effects ?p)] =>
             change (filter P (effects p)) with (requests p)
         end.

(** *** Arrays and completions *)

Lemma Array_map_Normal {A B} (f : nat → A → Completion B) (l : list A) :
  ∀ i out, Array_map f i l = Normal out →
    length out = length l ∧
    ∀ k x, l !! k = Some x → ∃ y, out !! k = Some y ∧ f (i + k)%nat x = Normal y.
Proof.
  induction l as [|a l IH]; intros i out H; simpl in H.
  - injection H as <-. split; [done|]. intros k x Hk. by rewrite lookup_nil in Hk.
  - destruct (f i a) as [y|v] eqn:Hy; simpl in H; [|done].
    destruct (Array_map f (S i) l) as [ys|v] eqn:Hys; simpl in H; [|done].
    injection H as <-.
    destruct (IH _ _ Hys) as [Hlen Hall].
    split; [simpl; by rewrite Hlen|].
    intros [|k] x Hk; simpl in Hk.
    + injection Hk as <-. exists y. by rewrite Nat.add_0_r.
    + destruct (Hall k x Hk) as (y' & ? & ?). exists y'.
      by rewrite Nat.add_succ_r.
Qed.

Lemma Array_map_total {A B} (f : nat → A → Completion B) (l : list A) :
  ∀ i, (∀ k x, l !! k = Some x → ∃ y, f (i + k)%nat x = Normal y) →
    ∃ out, Array_map f i l = Normal out.
Proof.
  induction l as [|a l IH]; intros i H; simpl.
  - by exists [].
  - destruct (H 0%nat a eq_refl) as [y Hy]. rewrite Nat.add_0_r in Hy.
    rewrite Hy. simpl.
    destruct (IH (S i)) as [ys Hys].
    { intros k x Hk. destruct (H (S k) x Hk) as [y' Hy'].
      exists y'. by rewrite Nat.add_succ_r in Hy'. }
    rewrite Hys. simpl. by exists (y :: ys).
Qed.

Lemma Array_map_Throw {A B} (f : nat → A → Completion B) (l : list A) :
  ∀ i v, Array_map f i l = Throw v →
    ∃ k x, l !! k = Some x ∧ f (i + k)%nat x = Throw v.
Proof.
  induction l as [|a l IH]; intros i v H; simpl in H; [done|].
  destruct (f i a) as [y|v0] eqn:Hy; simpl in H.
  - destruct (Array_map f (S i) l) as [ys|v1] eqn:Hys; simpl in H; [done|].
    injection H as ->. destruct (IH _ _ Hys) as (k & x & Hk & Hv).
    exists (S k), x. split; [done|]. by rewrite Nat.add_succ_r.
  - injection H as ->. exists 0%nat, a. split; [done|]. by rewrite Nat.add_0_r.
Qed.

(** *** The text of a date *)

(** The year of the era and the day of that year stay in range. *)
Lemma yoe_range doe :
  0 ≤ doe ≤ 146096 →
  0 ≤ (doe - doe / 1460 + doe / 36524 - doe / 146096) / 365 ≤ 399.
Proof. intros. Z.to_euclidean_division_equations. lia. Qed.

Lemma doy_range doe :
  0 ≤ doe ≤ 146096 →
  let yoe := (doe - doe / 1460 + doe / 36524 - doe / 146096) / 365 in
  0 ≤ doe - (365 * yoe + yoe / 4 - yoe / 100) ≤ 365.
Proof. intros. subst yoe. Z.to_euclidean_division_equations. lia. Qed.

(** [civilFromDays] yields a month, a day of the month, and a date whose
    day number is the one it was given. *)
Lemma civilFromDays_spec day :
  let '(y, m, d) := civilFromDays day in
  daysFromCivil y m d = day ∧ 1 ≤ m ≤ 12 ∧ 1 ≤ d ≤ 31.
Proof.
  unfold civilFromDays.
  set (z := day + 719468).
  set (era := z / 146097).
  set (doe := z mod 146097).
  assert (0 ≤ doe ≤ 146096) as Hdoe by (subst doe; pose proof (Z.mod_pos_bound z 146097); lia).
  assert (z = 146097 * era + doe) as Hz by (subst era doe; apply Z.div_mod; lia).
  pose proof (yoe_range doe Hdoe) as Hyoe.
  pose proof (doy_range doe Hdoe) as Hdoy. simpl in Hdoy.
  set (yoe := (doe - doe / 1460 + doe / 36524 - doe / 146096) / 365) in *.
  set (doy := doe - (365 * yoe + yoe / 4 - yoe / 100)) in *.
  set (mp := (5 * doy + 2) / 153).
  assert (0 ≤ mp ≤ 11) as Hmp by (subst mp; Z.to_euclidean_division_equations; lia).
  set (d := doy - (153 * mp + 2) / 5 + 1).
  assert (1 ≤ d ≤ 31) as Hd by (subst d mp; Z.to_euclidean_division_equations; lia).
  unfold daysFromCivil.
  destruct (mp <? 10) eqn:Hlt; [apply Z.ltb_lt in Hlt|apply Z.ltb_ge in Hlt].
  - replace (mp + 3 <=? 2) with false by (symmetry; apply Z.leb_gt; lia).
    replace (2 <? mp + 3) with true by (symmetry; apply Z.ltb_lt; lia).
    replace ((yoe + era * 400) / 400) with era by (Z.to_euclidean_division_equations; lia).
    replace (yoe + era * 400 - era * 400) with yoe by lia.
    replace (mp + 3 - 3) with mp by lia.
    split; [|lia]. subst d doy z. lia.
  - replace (mp - 9 <=? 2) with true by (symmetry; apply Z.leb_le; lia).
    replace (2 <? mp - 9) with false by (symmetry; apply Z.ltb_ge; lia).
    replace ((yoe + era * 400 + 1 - 1) / 400) with era by (Z.to_euclidean_division_equations; lia).
    replace (yoe + era * 400 + 1 - 1 - era * 400) with yoe by lia.
    replace (mp - 9 + 9) with mp by lia.
    split; [|lia]. subst d doy z. lia.
Qed.

Lemma digit_cases n : 0 ≤ n < 10 →
  n = 0 ∨ n = 1 ∨ n = 2 ∨ n = 3 ∨ n = 4 ∨ n = 5 ∨ n = 6 ∨ n = 7 ∨ n = 8 ∨ n = 9.
Proof. lia. Qed.

Lemma digit_inj a b : 0 ≤ a < 10 → 0 ≤ b < 10 → digit a = digit b → a = b.
Proof.
  intros Ha Hb.
  destruct (digit_cases a Ha) as [->|[->|[->|[->|[->|[->|[->|[->|[->| ->]]]]]]]]];
  destruct (digit_cases b Hb) as [->|[->|[->|[->|[->|[->|[->|[->|[->| ->]]]]]]]]];
  (reflexivity || discriminate).
Qed.

Lemma digit_not_sign a : 0 ≤ a < 10 → digit a ≠ "-"%char ∧ digit a ≠ "+"%char.
Proof.
  intros Ha.
  destruct (digit_cases a Ha) as [->|[->|[->|[->|[->|[->|[->|[->|[->| ->]]]]]]]]];
  split; discriminate.
Qed.

(** Equal paddings have equal digits and equal rests. *)
Lemma padded_inj width : ∀ n n' rest rest',
  padded width n rest = padded width n' rest' →
  n mod 10 ^ Z.of_nat width = n' mod 10 ^ Z.of_nat width ∧ rest = rest'.
Proof.
  induction width as [|w IH]; intros n n' rest rest' H; simpl in H.
  - split; [|done]. by rewrite !Z.mod_1_r.
  - injection H as Hd Ht.
    apply digit_inj in Hd; [|by apply Z.mod_pos_bound..].
    destruct (IH _ _ _ _ Ht) as [Hlow ->]. split; [|done].
    rewrite Nat2Z.inj_succ, Z.pow_succ_r by lia.
    rewrite (Z.mul_comm 10).
    rewrite !Z.rem_mul_r by lia. by rewrite Hd, Hlow.
Qed.

Lemma padded_inj_small width n n' rest rest' :
  0 ≤ n < 10 ^ Z.of_nat width → 0 ≤ n' < 10 ^ Z.of_nat width →
  padded width n rest = padded width n' rest' → n = n' ∧ rest = rest'.
Proof.
  intros Hn Hn' H. apply padded_inj in H as [Hm ->].
  by rewrite !Z.mod_small in Hm.
Qed.

Lemma field_inj sep width n n' rest rest' :
  0 ≤ n < 10 ^ Z.of_nat width → 0 ≤ n' < 10 ^ Z.of_nat width →
  String sep (padded width n rest) = String sep (padded width n' rest') →
  n = n' ∧ rest = rest'.
Proof.
  intros Hn Hn'.
  remember (padded width n rest) as p eqn:Ep.
  remember (padded width n' rest') as p' eqn:Ep'.
  intros [= Hp]. subst p p'. by apply padded_inj_small in Hp.
Qed.

Lemma yearText_inj y y' rest rest' :
  -1000000 < y < 1000000 → -1000000 < y' < 1000000 →
  yearText y rest = yearText y' rest' → y = y' ∧ rest = rest'.
Proof.
  intros Hy Hy'. unfold yearText.
  destruct ((0 <=? y) && (y <=? 9999)) eqn:Hr;
    destruct ((0 <=? y') && (y' <=? 9999)) eqn:Hr'.
  - apply andb_true_iff in Hr as [?%Z.leb_le ?%Z.leb_le].
    apply andb_true_iff in Hr' as [?%Z.leb_le ?%Z.leb_le].
    apply padded_inj_small; simpl; lia.
  - cbn [padded]. intros [= Hd _]. exfalso.
    destruct (digit_not_sign _ (Z.mod_pos_bound (y / 10 ^ Z.of_nat 3) 10 eq_refl)).
    destruct (y' <? 0); congruence.
  - cbn [padded]. intros [= Hd _]. exfalso.
    destruct (digit_not_sign _ (Z.mod_pos_bound (y' / 10 ^ Z.of_nat 3) 10 eq_refl)).
    destruct (y <? 0); congruence.
  - intros H.
    assert ((if y <? 0 then "-"%char else "+"%char)
            = (if y' <? 0 then "-"%char else "+"%char)) as Hs
      by (revert H; apply (f_equal (λ s, match s with
                                          | String c _ => c
                                          | EmptyString => "+"%char
                                          end))).
    rewrite Hs in H. apply field_inj in H as [Habs ->]; [|simpl; lia..].
    split; [|done].
    destruct (y <? 0) eqn:Hn; destruct (y' <? 0) eqn:Hn'; try discriminate;
      rewrite ?Z.ltb_lt, ?Z.ltb_ge in *; lia.
Qed.

Lemma civilFromDays_year day :
  -100000000 ≤ day ≤ 100000000 →
  -1000000 < (civilFromDays day).1.1 < 1000000.
Proof.
  intros Hday. unfold civilFromDays.
  set (z := day + 719468).
  set (era := z / 146097).
  set (doe := z mod 146097).
  assert (0 ≤ doe ≤ 146096) as Hdoe
    by (subst doe; pose proof (Z.mod_pos_bound z 146097); lia).
  assert (-700 ≤ era ≤ 700) as Hera
    by (subst era z; Z.to_euclidean_division_equations; lia).
  pose proof (yoe_range doe Hdoe) as Hyoe.
  set (yoe := (doe - doe / 1460 + doe / 36524 - doe / 146096) / 365) in *.
  cbv zeta. destruct (_ <=? 2); simpl; lia.
Qed.

Lemma clock_fields ms ms' :
  0 ≤ ms < msPerDay → 0 ≤ ms' < msPerDay →
  ms / 3600000 = ms' / 3600000 →
  (ms / 60000) mod 60 = (ms' / 60000) mod 60 →
  (ms / 1000) mod 60 = (ms' / 1000) mod 60 →
  ms mod 1000 = ms' mod 1000 →
  ms = ms'.
Proof. unfold msPerDay. intros. Z.to_euclidean_division_equations. lia. Qed.

(** Two time values that a [Date] can hold and that print alike, are
    equal. *)
Lemma isoText_inj t t' :
  Z.abs t ≤ maxTimeValue → Z.abs t' ≤ maxTimeValue →
  isoText t = isoText t' → t = t'.
Proof.
  unfold maxTimeValue. intros Ht Ht' H.
  assert (-100000000 ≤ t / msPerDay ≤ 100000000) as Hday
    by (unfold msPerDay; Z.to_euclidean_division_equations; lia).
  assert (-100000000 ≤ t' / msPerDay ≤ 100000000) as Hday'
    by (unfold msPerDay; Z.to_euclidean_division_equations; lia).
  pose proof (civilFromDays_year _ Hday) as Hy.
  pose proof (civilFromDays_year _ Hday') as Hy'.
  pose proof (civilFromDays_spec (t / msPerDay)) as Hc.
  pose proof (civilFromDays_spec (t' / msPerDay)) as Hc'.
  unfold isoText in H.
  destruct (civilFromDays (t / msPerDay)) as [[y m] d].
  destruct (civilFromDays (t' / msPerDay)) as [[y' m'] d'].
  simpl in Hy, Hy'. destruct Hc as (Hdays & Hm & Hd). destruct Hc' as (Hdays' & Hm' & Hd').
  pose proof (Z.mod_pos_bound t msPerDay eq_refl) as Hms.
  pose proof (Z.mod_pos_bound t' msPerDay eq_refl) as Hms'.
  cbv zeta in H.
  set (ms := t mod msPerDay) in *. set (ms' := t' mod msPerDay) in *.
  apply yearText_inj in H as [<- H]; [|done..].
  apply field_inj in H as [<- H]; [|simpl; lia..].
  apply field_inj in H as [<- H]; [|simpl; lia..].
  apply field_inj in H as [Hhour H];
    [|unfold msPerDay in *; simpl; Z.to_euclidean_division_equations; lia..].
  apply field_inj in H as [Hminute H];
    [|simpl; pose proof (Z.mod_pos_bound (ms / 60000) 60 eq_refl);
      pose proof (Z.mod_pos_bound (ms' / 60000) 60 eq_refl); lia..].
  apply field_inj in H as [Hsecond H];
    [|simpl; pose proof (Z.mod_pos_bound (ms / 1000) 60 eq_refl);
      pose proof (Z.mod_pos_bound (ms' / 1000) 60 eq_refl); lia..].
  apply field_inj in H as [Hmilli _];
    [|simpl; pose proof (Z.mod_pos_bound ms 1000 eq_refl);
      pose proof (Z.mod_pos_bound ms' 1000 eq_refl); lia..].
  pose proof (clock_fields ms ms' Hms Hms' Hhour Hminute Hsecond Hmilli) as Hmseq.
  rewrite (Z.div_mod t msPerDay), (Z.div_mod t' msPerDay) by done.
  fold ms ms'. rewrite Hmseq. f_equal. f_equal. congruence.
Qed.

(** *** The backend-to-UI transform *)

Lemma eta_argument now train :
  add (Num now) (mul (or_number (BackendTrain.due_time train) (Num 0)) (Num 1000))
  = Num (etaInstant now train).
Proof.
  unfold etaInstant. destruct (BackendTrain.due_time train) as [[d|]|]; simpl.
  - destruct (d =? 0) eqn:Hd; simpl; f_equal; lia.
  - f_equal; lia.
  - f_equal; lia.
Qed.

(** [toFrontendTrain] returns exactly when the instant is one a [Date] can
    hold, and then every field is as the object literal gives it. *)
Lemma toFrontendTrain_Normal now train ft :
  toFrontendTrain now train = Normal ft ↔
    Z.abs (etaInstant now train) ≤ maxTimeValue ∧
    ft = {|
      Train.id := BackendTrain.id train;
      Train.name := "Train " +:+ BackendTrain.id train;
      Train.status :=
        if match BackendTrain.current_delay_minutes train with
           | Some d => truthy d && gt d (Num 0)
           | None => false
           end
        then "delayed" else "on-time";
      Train.currentLocation :=
        or_string (BackendTrain.route_sections train !! 0%nat) "Unknown";
      Train.delay := or_number (BackendTrain.current_delay_minutes train) (Num 0);
      Train.nextStation :=
        or_string (or_undef (BackendTrain.route_sections train !! 1%nat)
                            (BackendTrain.route_sections train !! 0%nat))
                  "Terminal";
      Train.eta := isoText (etaInstant now train);
    |}.
Proof.
  unfold toFrontendTrain. rewrite eta_argument.
  unfold newDate, toISOString, TimeClip. simpl.
  destruct (Z.abs (etaInstant now train) <=? maxTimeValue) eqn:Hr; simpl.
  - apply Z.leb_le in Hr. split.
    + intros H. injection H as <-. done.
    + intros [_ ->]. done.
  - apply Z.leb_gt in Hr. split; [done|]. intros [? _]. lia.
Qed.

Lemma toFrontendTrain_Throw now train :
  maxTimeValue < Z.abs (etaInstant now train) →
  toFrontendTrain now train
  = Throw (ErrorObject (mkError "RangeError" "Invalid time value")).
Proof.
  intros Hr. unfold toFrontendTrain. rewrite eta_argument.
  unfold newDate, toISOString, TimeClip. simpl.
  apply Z.leb_gt in Hr. by rewrite Hr.
Qed.

Lemma transformBackendToFrontend_Normal clock backendState out :
  transformBackendToFrontend clock backendState = Normal out →
    FrontendState.sections out = BackendState.sections backendState ∧
    length (FrontendState.trains out) = length (BackendState.trains backendState) ∧
    ∀ i train, BackendState.trains backendState !! i = Some train →
      ∃ ft, FrontendState.trains out !! i = Some ft ∧
            toFrontendTrain (clock i) train = Normal ft.
Proof.
  unfold transformBackendToFrontend. intros H.
  destruct (Array_map _ 0 (BackendState.trains backendState)) as [ts|v] eqn:Hm;
    simpl in H; [|done].
  injection H as <-. simpl.
  destruct (Array_map_Normal _ _ _ _ Hm) as [Hlen Hall].
  split; [done|]. split; [done|]. intros i train Hi.
  destruct (Hall i train Hi) as (ft & ? & ?). by exists ft.
Qed.

(** The transform returns exactly when every train's instant is in the
    range of [Date]; otherwise [toISOString] throws. *)
Lemma transformBackendToFrontend_returns clock backendState :
  (∃ out, transformBackendToFrontend clock backendState = Normal out) ↔
  ∀ i train, BackendState.trains backendState !! i = Some train →
    Z.abs (etaInstant (clock i) train) ≤ maxTimeValue.
Proof.
  split.
  - intros [out H] i train Hi.
    destruct (transformBackendToFrontend_Normal _ _ _ H) as (_ & _ & Hall).
    destruct (Hall i train Hi) as (ft & _ & Hft).
    by apply toFrontendTrain_Normal in Hft as [? _].
  - intros Hall. unfold transformBackendToFrontend.
    destruct (Array_map_total (λ index train, toFrontendTrain (clock index) train)
                (BackendState.trains backendState) 0) as [ts Hts].
    + intros k x Hk. simpl. eexists. apply toFrontendTrain_Normal.
      split; [by apply Hall|done].
    + rewrite Hts. simpl. by eexists.
Qed.

(** The only thing the transform throws is the [RangeError] of
    [toISOString]. *)
Lemma transformBackendToFrontend_Throw clock backendState v :
  transformBackendToFrontend clock backendState = Throw v →
  v = ErrorObject (mkError "RangeError" "Invalid time value") ∧
  ∃ i train, BackendState.trains backendState !! i = Some train ∧
             maxTimeValue < Z.abs (etaInstant (clock i) train).
Proof.
  unfold transformBackendToFrontend. intros H.
  destruct (Array_map _ 0 (BackendState.trains backendState)) as [ts|v'] eqn:Hm;
    simpl in H; [done|].
  injection H as ->.
  apply Array_map_Throw in Hm as (i & train & Hi & Hv). simpl in Hv.
  destruct (Z_le_gt_dec (Z.abs (etaInstant (clock i) train)) maxTimeValue) as [Hr|Hr].
  - assert (∃ ft, toFrontendTrain (clock i) train = Normal ft) as [ft Hft]
      by (eexists; apply toFrontendTrain_Normal; split; [exact Hr|reflexivity]).
    congruence.
  - apply Z.gt_lt in Hr. rewrite (toFrontendTrain_Throw _ _ Hr) in Hv.
    injection Hv as <-. split; [done|]. by exists i, train.
Qed.

Lemma delayPositive_test train :
  (match BackendTrain.current_delay_minutes train with
   | Some d => truthy d && gt d (Num 0)
   | None => false
   end) = true ↔ delayPositive train.
Proof.
  unfold delayPositive.
  destruct (BackendTrain.current_delay_minutes train) as [[d|]|]; simpl.
  - rewrite andb_true_iff, negb_true_iff, Z.eqb_neq, Z.ltb_lt. split.
    + intros [_ ?]. by exists d.
    + intros (d' & [= <-] & ?). lia.
  - split; [done|]. by intros (? & ? & _).
  - split; [done|]. by intros (? & ? & _).
Qed.

(** C1. Whenever [transformBackendToFrontend] returns, the train projected
    at each position has status "delayed" if the backend train's
    [current_delay_minutes] is present and greater than zero, and "on-time"
    otherwise; so every projected status is one of these two, never
    "conflict". *)
Theorem status_delayed_or_on_time clock backendState out :
  transformBackendToFrontend clock backendState = Normal out →
  (∀ i train, BackendState.trains backendState !! i = Some train →
     ∃ ft, FrontendState.trains out !! i = Some ft ∧
           (delayPositive train → Train.status ft = "delayed") ∧
           (¬ delayPositive train → Train.status ft = "on-time")) ∧
  (∀ ft, ft ∈ FrontendState.trains out →
     (Train.status ft = "on-time" ∨ Train.status ft = "delayed") ∧
     Train.status ft ≠ "conflict").
Proof.
  intros H.
  destruct (transformBackendToFrontend_Normal _ _ _ H) as (_ & Hlen & Hall).
  split.
  - intros i train Hi. destruct (Hall i train Hi) as (ft & Hft & Hcb).
    exists ft. split; [done|].
    apply toFrontendTrain_Normal in Hcb as [_ ->]. simpl.
    pose proof (delayPositive_test train) as Ht.
    destruct (match BackendTrain.current_delay_minutes train with
              | Some d => truthy d && gt d (Num 0) | None => false end).
    + split; [done|]. intros Hn. destruct Hn. by apply Ht.
    + split; [|done]. intros Hp. apply Ht in Hp. done.
  - intros ft Hin. apply list_elem_of_lookup in Hin as [i Hi].
    destruct (lookup_lt_is_Some_2 (BackendState.trains backendState) i) as [train Ht].
    { rewrite <- Hlen. by eapply lookup_lt_Some. }
    destruct (Hall i train Ht) as (ft' & Hft' & Hcb).
    assert (ft' = ft) as -> by congruence.
    apply toFrontendTrain_Normal in Hcb as [_ ->]. simpl.
    destruct (match BackendTrain.current_delay_minutes train with
              | Some d => truthy d && gt d (Num 0) | None => false end);
      split; auto; discriminate.
Qed.

Lemma status_delayed_or_on_time_sample :
  transformBackendToFrontend sampleClock sampleState = Normal sampleProjection ∧
  BackendState.trains sampleState !! 0%nat = Some sampleTrain ∧
  delayPositive sampleTrain ∧
  ∃ ft, FrontendState.trains sampleProjection !! 0%nat = Some ft ∧
        Train.status ft = "delayed" ∧ Train.status ft ≠ "conflict".
Proof.
  assert (delayPositive sampleTrain) as Hlate by (exists 7; split; [reflexivity|lia]).
  split; [reflexivity|]. split; [reflexivity|]. split; [exact Hlate|].
  destruct (status_delayed_or_on_time sampleClock sampleState sampleProjection eq_refl)
    as [Heach Hall].
  destruct (Heach 0%nat sampleTrain eq_refl) as (ft & Hft & Hdelayed & _).
  exists ft. split; [exact Hft|]. split; [exact (Hdelayed Hlate)|].
  apply Hall. apply list_elem_of_lookup. exists 0%nat. exact Hft.
Defined.

(** C9. Whenever the transform returns: a train with an empty route is
    shown at "Unknown" heading for "Terminal"; a train whose route is the
    single non-empty section [s] is shown at [s] heading for [s]. *)
Theorem location_of_short_route clock backendState out :
  transformBackendToFrontend clock backendState = Normal out →
  ∀ i train, BackendState.trains backendState !! i = Some train →
    ∃ ft, FrontendState.trains out !! i = Some ft ∧
      (BackendTrain.route_sections train = [] →
         Train.currentLocation ft = "Unknown" ∧ Train.nextStation ft = "Terminal") ∧
      (∀ s, BackendTrain.route_sections train = [s] → s ≠ "" →
         Train.currentLocation ft = s ∧ Train.nextStation ft = s).
Proof.
  intros H i train Hi.
  destruct (transformBackendToFrontend_Normal _ _ _ H) as (_ & _ & Hall).
  destruct (Hall i train Hi) as (ft & Hft & Hcb).
  exists ft. split; [done|].
  apply toFrontendTrain_Normal in Hcb as [_ ->]. simpl. split.
  - intros ->. done.
  - intros s -> Hs. destruct s; [done|]. done.
Qed.

Lemma location_of_short_route_sample :
  transformBackendToFrontend sampleClock shortRoutes = Normal shortRoutesProjection ∧
  (∃ ft, FrontendState.trains shortRoutesProjection !! 0%nat = Some ft ∧
         Train.currentLocation ft = "Unknown" ∧ Train.nextStation ft = "Terminal") ∧
  (∃ ft, FrontendState.trains shortRoutesProjection !! 1%nat = Some ft ∧
         Train.currentLocation ft = "S4" ∧ Train.nextStation ft = "S4").
Proof.
  split; [reflexivity|]. split.
  - destruct (location_of_short_route sampleClock shortRoutes shortRoutesProjection
                eq_refl 0%nat _ eq_refl) as (ft & Hft & Hempty & _).
    exists ft. split; [exact Hft|]. exact (Hempty eq_refl).
  - destruct (location_of_short_route sampleClock shortRoutes shortRoutesProjection
                eq_refl 1%nat _ eq_refl) as (ft & Hft & _ & Hone).
    exists ft. split; [exact Hft|]. apply (Hone "S4" eq_refl). discriminate.
Defined.

(** C8, amended to whole seconds. For a clock whose readings are time
    values and a train whose [due_time] is absent or a whole number of
    seconds: whenever the transform returns, the eta of the train at
    position [i] is the text of the instant "clock reading of its callback
    plus [due_time] seconds", the clock reading alone when [due_time] is
    absent; hence two transforms of one snapshot whose clock readings for
    that train differ give it different etas. *)
Theorem eta_is_now_plus_due_time clock backendState out :
  realClock clock →
  transformBackendToFrontend clock backendState = Normal out →
  (∀ i train, BackendState.trains backendState !! i = Some train →
     ∃ ft, FrontendState.trains out !! i = Some ft ∧
       (BackendTrain.due_time train = None → Train.eta ft = isoText (clock i)) ∧
       (∀ d, BackendTrain.due_time train = Some (Num d) →
          Train.eta ft = isoText (clock i + d * 1000))) ∧
  (∀ clock' out' i ft ft',
     realClock clock' →
     transformBackendToFrontend clock' backendState = Normal out' →
     clock i ≠ clock' i →
     FrontendState.trains out !! i = Some ft →
     FrontendState.trains out' !! i = Some ft' →
     Train.eta ft ≠ Train.eta ft').
Proof.
  intros _ H.
  destruct (transformBackendToFrontend_Normal _ _ _ H) as (_ & Hlen & Hall).
  split.
  - intros i train Hi. destruct (Hall i train Hi) as (ft & Hft & Hcb).
    exists ft. split; [done|].
    apply toFrontendTrain_Normal in Hcb as [_ ->]. simpl. unfold etaInstant.
    split; [by intros ->|]. by intros d ->.
  - intros clock' out' i ft ft' _ H' Hclock Hft Hft'.
    destruct (transformBackendToFrontend_Normal _ _ _ H') as (_ & _ & Hall').
    destruct (lookup_lt_is_Some_2 (BackendState.trains backendState) i) as [train Ht].
    { rewrite <- Hlen. by eapply lookup_lt_Some. }
    destruct (Hall i train Ht) as (f1 & Hf1 & Hcb1).
    destruct (Hall' i train Ht) as (f2 & Hf2 & Hcb2).
    assert (f1 = ft) as -> by congruence.
    assert (f2 = ft') as -> by congruence.
    apply toFrontendTrain_Normal in Hcb1 as [Hr1 ->].
    apply toFrontendTrain_Normal in Hcb2 as [Hr2 ->]. simpl.
    intros Heq. apply isoText_inj in Heq; [|done..].
    unfold etaInstant in Heq.
    destruct (BackendTrain.due_time train) as [[d|]|]; lia.
Qed.

Lemma sampleClock_real : realClock sampleClock.
Proof. intros i. unfold sampleClock, maxTimeValue. lia. Defined.

Lemma laterClock_real : realClock laterClock.
Proof. intros i. unfold laterClock, maxTimeValue. lia. Defined.

Lemma eta_is_now_plus_due_time_sample :
  realClock sampleClock ∧ realClock laterClock ∧
  transformBackendToFrontend sampleClock shortRoutes = Normal shortRoutesProjection ∧
  transformBackendToFrontend laterClock shortRoutes = Normal shortRoutesLater ∧
  sampleClock 1%nat ≠ laterClock 1%nat ∧
  (∃ ft, FrontendState.trains shortRoutesProjection !! 1%nat = Some ft ∧
         Train.eta ft = isoText (1700000000000 + 90 * 1000)) ∧
  "2023-11-14T22:14:50.000Z" ≠ "2023-11-14T22:15:20.000Z".
Proof.
  assert (sampleClock 1%nat ≠ laterClock 1%nat) as Hclock by discriminate.
  split; [exact sampleClock_real|]. split; [exact laterClock_real|].
  split; [reflexivity|]. split; [reflexivity|]. split; [exact Hclock|].
  destruct (eta_is_now_plus_due_time sampleClock shortRoutes shortRoutesProjection
              sampleClock_real eq_refl) as [Hfield Hdiffer].
  split.
  - destruct (Hfield 1%nat _ eq_refl) as (ft & Hft & _ & Hdue).
    exists ft. split; [exact Hft|]. exact (Hdue 90 eq_refl).
  - exact (Hdiffer laterClock shortRoutesLater 1%nat _ _ laterClock_real eq_refl Hclock
             eq_refl eq_refl).
Defined.

(** C8 as stated fails for a fraction of a second: [new Date] drops the
    fraction of a millisecond, towards zero. The train of [fractionalState]
    is due 0.48828125 ms before the epoch by the first clock and
    0.51171875 ms after it by the second, one millisecond later; both
    transforms give it the eta of the epoch itself. *)
Theorem eta_repeats_for_fractional_due_time :
  Double.transformBackendToFrontend clockBefore fractionalState = Normal epochProjection ∧
  Double.transformBackendToFrontend clockAfter fractionalState = Normal epochProjection ∧
  (clockBefore 0%nat =? clockAfter 0%nat)%float = false ∧
  (clockBefore 0%nat + -1700000000.00048828125 * 1000)%float = (-0.48828125)%float ∧
  (clockAfter 0%nat + -1700000000.00048828125 * 1000)%float = 0.51171875%float ∧
  Double.Train.eta <$> Double.FrontendState.trains epochProjection
    = ["1970-01-01T00:00:00.000Z"] ∧
  isoText 0 = "1970-01-01T00:00:00.000Z".
Proof. repeat split. Qed.

(** The embedding over doubles on the scenario of the specification, where
    it gives what the embedding over integers gives, and on a train due
    90.5 seconds from now, whose eta carries the half second. *)
Example transform_in_doubles :
  Double.transformBackendToFrontend clockBefore sampleStateInDoubles
    = Normal {| Double.FrontendState.trains :=
                  [ Double.Train.mk "T1" "Train T1" "delayed" "S1" 7%float "S2"
                                    "2023-11-14T22:13:20.000Z" ];
                Double.FrontendState.sections := [] |} ∧
  transformBackendToFrontend sampleClock sampleState = Normal sampleProjection ∧
  Double.toFrontendTrain 1700000000000%float
    (Double.BackendTrain.mk "T8" 1%float 0%float ["S4"] (Some 90.5%float) None)
    = Normal (Double.Train.mk "T8" "Train T8" "on-time" "S4" 0%float "S4"
                              "2023-11-14T22:14:50.500Z").
Proof. repeat split. Qed.

(** *** The UI-to-backend transform *)

Section FrontendToBackendFacts.
Variable Date_parse : string → number.

Lemma transformFrontendToBackend_trains clock trains t :
  t ∈ BackendState.trains (transformFrontendToBackend Date_parse clock trains) →
  ∃ i train, trains !! i = Some train ∧ t = toBackendTrain Date_parse (clock i) train.
Proof.
  simpl. intros Hin. apply list_elem_of_lookup in Hin as [i Hi].
  rewrite list_lookup_imap in Hi.
  destruct (trains !! i) as [train|] eqn:Ht; simpl in Hi; [|done].
  injection Hi as <-. by exists i, train.
Qed.

(** C4. Whatever the list of UI trains, the rebuilt backend state has
    exactly the sections S1, S2, S3, each of platform capacity 1, one train
    per UI train, and every train has priority 1 and planned departure 0. *)
Theorem fabricated_backend_state (clock : Clock) (trains : list Train.t) :
  BackendState.sections (transformFrontendToBackend Date_parse clock trains)
    = fixedSections ∧
  BackendSection.id <$> BackendState.sections
      (transformFrontendToBackend Date_parse clock trains) = ["S1"; "S2"; "S3"] ∧
  (∀ s, s ∈ BackendState.sections (transformFrontendToBackend Date_parse clock trains) →
     BackendSection.platform_capacity s = Some (Num 1)) ∧
  length (BackendState.trains (transformFrontendToBackend Date_parse clock trains))
    = length trains ∧
  (∀ t, t ∈ BackendState.trains (transformFrontendToBackend Date_parse clock trains) →
     BackendTrain.priority t = Num 1 ∧ BackendTrain.planned_departure t = Num 0).
Proof.
  split; [reflexivity|]. split; [reflexivity|]. split; [|split].
  - simpl. intros s Hs.
    repeat (apply elem_of_cons in Hs as [->|Hs]; [done|]).
    by apply elem_of_nil in Hs.
  - simpl. apply length_imap.
  - intros t Hin.
    apply transformFrontendToBackend_trains in Hin as (i & train & _ & ->). done.
Qed.

(** C5. The two transforms are not inverse to each other: some backend
    state is projected and then rebuilt into a different state; indeed no
    state with a train of priority other than 1, of planned departure other
    than 0 or of more than two route sections, or with sections other than
    the fixed three, is ever rebuilt. *)
Theorem round_trip_is_lossy :
  (∃ s clock clock' out,
     transformBackendToFrontend clock s = Normal out ∧
     transformFrontendToBackend Date_parse clock' (FrontendState.trains out) ≠ s) ∧
  (∀ s clock clock' out,
     transformBackendToFrontend clock s = Normal out →
     notRebuildable s →
     transformFrontendToBackend Date_parse clock' (FrontendState.trains out) ≠ s).
Proof.
  assert (∀ s clock' trains, notRebuildable s →
            transformFrontendToBackend Date_parse clock' trains ≠ s) as Hgen.
  { intros s clock' trains Hs Heq. destruct Hs as [(t & Hin & Ht)|Hsec].
    - rewrite <- Heq in Hin.
      apply transformFrontendToBackend_trains in Hin as (i & train & _ & ->).
      simpl in Ht. destruct Ht as [?|[?|?]]; [done|done|lia].
    - apply Hsec. by rewrite <- Heq. }
  split.
  - exists sampleState, sampleClock, sampleClock, sampleProjection.
    split; [reflexivity|]. apply Hgen. left. exists sampleTrain.
    split; [apply list_elem_of_here|]. left. discriminate.
  - intros s clock clock' out _ Hs. by apply Hgen.
Qed.
End FrontendToBackendFacts.

Lemma fabricated_backend_state_sample :
  BackendSection.id <$> BackendState.sections
      (transformFrontendToBackend (λ _, NaN) sampleClock []) = ["S1"; "S2"; "S3"] ∧
  length (BackendState.trains
            (transformFrontendToBackend (λ _, NaN) sampleClock sampleTrains)) = 2%nat ∧
  ∀ t, t ∈ BackendState.trains
             (transformFrontendToBackend (λ _, NaN) sampleClock sampleTrains) →
       BackendTrain.priority t = Num 1 ∧ BackendTrain.planned_departure t = Num 0.
Proof.
  split; [exact (proj1 (proj2 (fabricated_backend_state (λ _, NaN) sampleClock [])))|].
  destruct (fabricated_backend_state (λ _, NaN) sampleClock sampleTrains)
    as (_ & _ & _ & Hlength & Hconstant).
  split; [exact Hlength|exact Hconstant].
Defined.

Lemma round_trip_is_lossy_sample :
  transformBackendToFrontend sampleClock sampleState = Normal sampleProjection ∧
  notRebuildable sampleState ∧
  transformFrontendToBackend (λ _, NaN) laterClock
    (FrontendState.trains sampleProjection) ≠ sampleState.
Proof.
  split; [reflexivity|].
  assert (notRebuildable sampleState) as Hs.
  { left. exists sampleTrain. split; [apply list_elem_of_here|]. left. discriminate. }
  split; [exact Hs|].
  exact (proj2 (round_trip_is_lossy (λ _, NaN)) sampleState sampleClock laterClock
           sampleProjection eq_refl Hs).
Defined.

(** *** Texts *)

Lemma append_assoc (a b c : string) : (a +:+ b) +:+ c = a +:+ b +:+ c.
Proof.
  induction a as [|ch a IH]; [done|].
  change (String ch ((a +:+ b) +:+ c) = String ch (a +:+ b +:+ c)).
  by rewrite IH.
Qed.

Lemma append_empty_r (a : string) : a +:+ "" = a.
Proof.
  induction a as [|ch a IH]; [done|].
  change (String ch (a +:+ "") = String ch a).
  by rewrite IH.
Qed.

Lemma contains_refl text : contains text text.
Proof. exists "", "". simpl. by rewrite append_empty_r. Qed.

Lemma contains_append_l text more part :
  contains text part → contains (text +:+ more) part.
Proof.
  intros (before & after & ->). exists before, (after +:+ more).
  by rewrite !append_assoc.
Qed.

Lemma contains_append_r text more part :
  contains text part → contains (more +:+ text) part.
Proof.
  intros (before & after & ->). exists (more +:+ before), after.
  by rewrite !append_assoc.
Qed.

Lemma join_contains sep (l : list string) x :
  x ∈ l → contains (join sep l) x.
Proof.
  induction l as [|y l IH]; intros Hin.
  - by apply elem_of_nil in Hin.
  - apply elem_of_cons in Hin as [->|Hin].
    + destruct l as [|z l]; simpl; [apply contains_refl|].
      apply contains_append_l, contains_refl.
    + destruct l as [|z l]; [by apply elem_of_nil in Hin|].
      change (join sep (y :: z :: l)) with (y +:+ sep +:+ join sep (z :: l)).
      by apply contains_append_r, contains_append_r, IH.
Qed.

(** *** The conflict mapping *)

(** C6. The UI conflict made from the predicted conflict at position [i]
    has the entry's section as location, its predicted time as
    timeToConflict, its train ids as trains, and a resolution text in which
    every one of these ids occurs; the entry (T1, T2; S2; 12) gives
    location S2, timeToConflict 12 and a text with T1 and T2 in it. *)
Theorem conflict_projection (conflicts : list PredictedConflict.t) i conflict :
  conflicts !! i = Some conflict →
  (∃ ui, imap toFrontendConflict conflicts !! i = Some ui ∧
     Conflict.location ui = PredictedConflict.section_id conflict ∧
     Conflict.timeToConflict ui = PredictedConflict.predicted_conflict_time conflict ∧
     Conflict.trains ui = PredictedConflict.train_ids conflict ∧
     ∀ id, id ∈ PredictedConflict.train_ids conflict →
           contains (Conflict.aiResolution ui) id) ∧
  (∃ ui, imap toFrontendConflict [sampleConflict] = [ui] ∧
     Conflict.location ui = "S2" ∧
     Conflict.timeToConflict ui = Num 12 ∧
     contains (Conflict.aiResolution ui) "T1" ∧
     contains (Conflict.aiResolution ui) "T2").
Proof.
  intros Hi. split.
  - exists (toFrontendConflict i conflict).
    rewrite list_lookup_imap, Hi. simpl. repeat split.
    intros id Hin. apply contains_append_r, contains_append_l.
    by apply join_contains.
  - eexists. split; [reflexivity|]. simpl. repeat split.
    + by exists "Reroute ", ", T2 through alternative sections".
    + by exists "Reroute T1, ", " through alternative sections".
Qed.

Lemma conflict_projection_sample :
  [sampleConflict] !! 0%nat = Some sampleConflict ∧
  ∃ ui, imap toFrontendConflict [sampleConflict] !! 0%nat = Some ui ∧
    Conflict.location ui = "S2" ∧
    Conflict.timeToConflict ui = Num 12 ∧
    Conflict.trains ui = ["T1"; "T2"] ∧
    ∀ id, id ∈ ["T1"; "T2"] → contains (Conflict.aiResolution ui) id.
Proof.
  split; [reflexivity|].
  exact (proj1 (conflict_projection [sampleConflict] 0%nat sampleConflict eq_refl)).
Defined.

(** *** The API client *)

(** Whatever the network answers, [request] goes to it once. *)
Lemma request_effects {T} (fetch : Fetch T) this endpoint options :
  effects (APIService.request fetch this endpoint options)
  = [HttpFetch (APIService.baseUrl this +:+ endpoint) (APIService.requestInit options)].
Proof.
  unfold APIService.request, mbind, Proc_bind. simpl.
  destruct (fetch _ _) as [response|v]; simpl; [|done].
  destruct (Response.ok response); simpl; done.
Qed.

(** A failure of the network itself is passed on as it is. *)
Lemma request_network_failure {T} (fetch : Fetch T) this endpoint options v :
  fetch (APIService.baseUrl this +:+ endpoint) (APIService.requestInit options) = Throw v →
  completion (APIService.request fetch this endpoint options) = Throw v.
Proof.
  intros H. unfold APIService.request, mbind, Proc_bind. simpl. by rewrite H.
Qed.

Lemma ok_status {T} (response : Response.t T) :
  Response.ok response = true ↔ 200 ≤ Response.status response ≤ 299.
Proof. unfold Response.ok. rewrite andb_true_iff, !Z.leb_le. done. Qed.

(** C7. When the network answers a call of [request] with a response:
    the call went to the network exactly once; if the status is outside
    200..299 the call throws one [Error] whose message has the status in
    it; if the status is inside, the call ends as [response.json()] does, so
    a body that parses is returned. *)
Theorem request_single_attempt {T} (fetch : Fetch T) this endpoint options response :
  fetch (APIService.baseUrl this +:+ endpoint) (APIService.requestInit options)
    = Normal response →
  effects (APIService.request fetch this endpoint options)
    = [HttpFetch (APIService.baseUrl this +:+ endpoint) (APIService.requestInit options)] ∧
  (¬ 200 ≤ Response.status response ≤ 299 →
     ∃ msg, completion (APIService.request fetch this endpoint options)
              = Throw (ErrorObject (mkError "Error" msg)) ∧
            contains msg (pretty (Response.status response))) ∧
  (200 ≤ Response.status response ≤ 299 →
     completion (APIService.request fetch this endpoint options)
       = Response.json response ∧
     ∀ body, Response.json response = Normal body →
       completion (APIService.request fetch this endpoint options) = Normal body).
Proof.
  intros H. split; [apply request_effects|].
  unfold APIService.request, mbind, Proc_bind. simpl. rewrite H. simpl.
  pose proof (ok_status response) as Hok.
  destruct (Response.ok response); simpl.
  - split; [intros Hn; destruct Hn; by apply Hok|].
    intros _. split; [done|]. by intros body ->.
  - split.
    + intros _. eexists. split; [reflexivity|].
      by exists "API request failed: ", (" " +:+ Response.statusText response).
    + intros Hr. apply Hok in Hr. done.
Qed.

Lemma request_single_attempt_sample :
  (notFound "http://localhost:8000/predict" (APIService.requestInit RequestInit.empty)
     = Normal (Response.mk 404 "Not Found" (Throw (OtherValue "SyntaxError"))) ∧
   length (effects (APIService.request notFound apiService "/predict" RequestInit.empty))
     = 1%nat ∧
   ∃ msg, completion (APIService.request notFound apiService "/predict" RequestInit.empty)
            = Throw (ErrorObject (mkError "Error" msg)) ∧
          contains msg "404") ∧
  completion (APIService.request (answer sampleState) apiService "/demo" RequestInit.empty)
    = Normal sampleState.
Proof.
  split.
  - split; [reflexivity|].
    destruct (request_single_attempt notFound apiService "/predict" RequestInit.empty
                _ eq_refl) as (Heff & Hbad & _).
    split; [by rewrite Heff|].
    apply Hbad. simpl. lia.
  - destruct (request_single_attempt (answer sampleState) apiService "/demo"
                RequestInit.empty _ eq_refl) as (_ & _ & Hgood).
    assert (200 ≤ 200 ≤ 299) as Hstatus by lia.
    exact (proj2 (Hgood Hstatus) sampleState eq_refl).
Defined.

(** *** The fetch operation *)

(** The effects of [fetchLiveData], laid out by outcome. *)
Lemma fetchLiveData_effects w useLive :
  effects (fetchLiveData w useLive) =
    [SetLoading true; SetError None] ++ effects (snapshotCall w useLive) ++
    match completion (snapshotCall w useLive) with
    | Throw err => fetchFailure err
    | Normal backendState =>
        match transformBackendToFrontend (World.dateNow w) backendState with
        | Throw err => fetchFailure err
        | Normal frontend =>
            [SetTrains (FrontendState.trains frontend)] ++
            effects (predictCall w backendState) ++
            match completion (predictCall w backendState) with
            | Throw err => fetchFailure err
            | Normal predictions =>
                [ SetConflicts (imap toFrontendConflict
                     (PredictionResponse.predicted_conflicts predictions));
                  SetIsConnected true;
                  SetLastUpdate (mkDate (Num (World.today w))) ]
            end
        end
    end ++ [SetLoading false].
Proof.
  unfold fetchLiveData, try_catch_finally, snapshotCall, predictCall.
  generalize (APIService.getLiveSnapshot (World.fetchState w) apiService useLive (Num 50) None).
  generalize (APIService.predictConflicts (World.fetchPrediction w) apiService).
  intros predict [snapEffects [backendState|err]];
    unfold mbind, Proc_bind, perform, eval; simpl; [|flatten_effects].
  destruct (transformBackendToFrontend (World.dateNow w) backendState)
    as [frontend|err]; simpl; [|flatten_effects].
  destruct (predict backendState) as [predEffects [predictions|err]]; simpl;
    flatten_effects.
Qed.

(** [fetchLiveData] never throws: the [catch] block takes every failure. *)
Lemma fetchLiveData_completion w useLive :
  completion (fetchLiveData w useLive) = Normal ().
Proof.
  unfold fetchLiveData, try_catch_finally.
  generalize (APIService.getLiveSnapshot (World.fetchState w) apiService useLive (Num 50) None).
  generalize (APIService.predictConflicts (World.fetchPrediction w) apiService).
  intros predict [snapEffects [backendState|err]];
    unfold mbind, Proc_bind, perform, eval; simpl; [|done].
  destruct (transformBackendToFrontend (World.dateNow w) backendState)
    as [frontend|err]; simpl; [|done].
  by destruct (predict backendState) as [predEffects [predictions|err]].
Qed.

Lemma snapshotCall_effects w useLive :
  ∃ url init, effects (snapshotCall w useLive) = [HttpFetch url init].
Proof. eexists _, _. apply request_effects. Qed.

Lemma predictCall_effects w backendState :
  ∃ url init, effects (predictCall w backendState) = [HttpFetch url init].
Proof. eexists _, _. apply request_effects. Qed.

(** The state after [fetchLiveData], by outcome. *)
Lemma fetchLiveData_run w useLive s :
  run (fetchLiveData w useLive) s =
    match completion (snapshotCall w useLive) with
    | Throw err =>
        HookState.mk (HookState.trains s) (HookState.conflicts s) false
          (HookState.lastUpdate s) false
          (Some (messageOr err "Failed to connect to backend"))
    | Normal backendState =>
        match transformBackendToFrontend (World.dateNow w) backendState with
        | Throw err =>
            HookState.mk (HookState.trains s) (HookState.conflicts s) false
              (HookState.lastUpdate s) false
              (Some (messageOr err "Failed to connect to backend"))
        | Normal frontend =>
            match completion (predictCall w backendState) with
            | Throw err =>
                HookState.mk (FrontendState.trains frontend) (HookState.conflicts s)
                  false (HookState.lastUpdate s) false
                  (Some (messageOr err "Failed to connect to backend"))
            | Normal predictions =>
                HookState.mk (FrontendState.trains frontend)
                  (imap toFrontendConflict
                     (PredictionResponse.predicted_conflicts predictions))
                  true (mkDate (Num (World.today w))) false None
            end
        end
    end.
Proof.
  unfold run. rewrite fetchLiveData_effects.
  destruct (snapshotCall_effects w useLive) as (url & init & ->).
  destruct s as [trains conflicts isConnected lastUpdate loading error].
  destruct (completion (snapshotCall w useLive)) as [backendState|err]; [|done].
  destruct (transformBackendToFrontend (World.dateNow w) backendState)
    as [frontend|err]; [|done].
  destruct (predictCall_effects w backendState) as (url' & init' & ->).
  by destruct (completion (predictCall w backendState)).
Qed.

(** The requests of [fetchLiveData]: the snapshot call, and the prediction
    call when the snapshot arrived and its transform returned. *)
Lemma fetchLiveData_requests w useLive :
  requests (fetchLiveData w useLive) =
    effects (snapshotCall w useLive) ++
    match completion (snapshotCall w useLive) with
    | Throw _ => []
    | Normal backendState =>
        match transformBackendToFrontend (World.dateNow w) backendState with
        | Throw _ => []
        | Normal _ => effects (predictCall w backendState)
        end
    end.
Proof.
  unfold requests. rewrite fetchLiveData_effects.
  destruct (snapshotCall_effects w useLive) as (url & init & ->).
  destruct (completion (snapshotCall w useLive)) as [backendState|err]; [|done].
  destruct (transformBackendToFrontend (World.dateNow w) backendState)
    as [frontend|err]; [|done].
  destruct (predictCall_effects w backendState) as (url' & init' & ->).
  by destruct (completion (predictCall w backendState)).
Qed.

(** The prediction call is made exactly when the transform of the snapshot
    returned. *)
Lemma second_call_made w useLive backendState :
  completion (snapshotCall w useLive) = Normal backendState →
  length (requests (fetchLiveData w useLive)) = 2%nat ↔
  ∃ frontend, transformBackendToFrontend (World.dateNow w) backendState = Normal frontend.
Proof.
  intros Hs. rewrite fetchLiveData_requests, Hs.
  destruct (snapshotCall_effects w useLive) as (url & init & ->).
  destruct (transformBackendToFrontend (World.dateNow w) backendState)
    as [frontend|err].
  - destruct (predictCall_effects w backendState) as (url' & init' & ->).
    split; [by exists frontend|done].
  - split; [done|]. by intros [? ?].
Qed.

(** Overlapping invocations: with nothing in between, [runAmid] is
    [run]. *)
Lemma weave_nil l : weave l [] = l.
Proof. induction l as [|e l IH]; [done|]. simpl. rewrite IH. by destruct (isFetch e). Qed.

Lemma weave_no_fetch l others :
  Forall (λ e, isFetch e = false) l → weave l others = l.
Proof.
  induction 1 as [|e l He _ IH]; [done|]. simpl. by rewrite He, IH.
Qed.

Lemma runAmid_nil {A} (p : Proc A) s : runAmid p [] s = run p s.
Proof. unfold runAmid, run. by rewrite weave_nil. Qed.

(** The calls of [fetchLiveData] with those of other callbacks in between:
    [during1] while the snapshot is awaited, [during2] while the prediction
    is. *)
Lemma fetchLiveData_weave w useLive others :
  weave (effects (fetchLiveData w useLive)) others =
    [SetLoading true; SetError None] ++ effects (snapshotCall w useLive) ++
    default [] (others !! 0%nat) ++
    match completion (snapshotCall w useLive) with
    | Throw err => fetchFailure err
    | Normal backendState =>
        match transformBackendToFrontend (World.dateNow w) backendState with
        | Throw err => fetchFailure err
        | Normal frontend =>
            [SetTrains (FrontendState.trains frontend)] ++
            effects (predictCall w backendState) ++
            default [] (others !! 1%nat) ++
            match completion (predictCall w backendState) with
            | Throw err => fetchFailure err
            | Normal predictions =>
                [ SetConflicts (imap toFrontendConflict
                     (PredictionResponse.predicted_conflicts predictions));
                  SetIsConnected true;
                  SetLastUpdate (mkDate (Num (World.today w))) ]
            end
        end
    end ++ [SetLoading false].
Proof.
  rewrite fetchLiveData_effects.
  destruct (snapshotCall_effects w useLive) as (url & init & ->).
  assert (∀ err rest, weave (fetchFailure err ++ [SetLoading false]) rest
                      = fetchFailure err ++ [SetLoading false]) as Hfail.
  { intros err rest. apply weave_no_fetch. repeat constructor. }
  destruct others as [|during1 later]; cbn [weave app isFetch lookup list_lookup default].
  - by rewrite weave_nil.
  - do 3 f_equal. apply (f_equal (app during1)).
    destruct (completion (snapshotCall w useLive)) as [backendState|err]; [|apply Hfail].
    destruct (transformBackendToFrontend (World.dateNow w) backendState)
      as [frontend|err]; [|apply Hfail].
    destruct (predictCall_effects w backendState) as (url' & init' & ->).
    destruct later as [|during2 rest]; cbn [weave app isFetch lookup list_lookup default].
    + by rewrite weave_nil.
    + do 2 f_equal. unfold id. rewrite <- app_assoc. apply (f_equal (app during2)).
      destruct (completion (predictCall w backendState)); [|apply Hfail].
      apply weave_no_fetch. repeat constructor.
Qed.

(** The state when [fetchLiveData] ends, whatever other callbacks did while
    it was suspended: the calls after its last [await] decide. *)
Lemma fetchLiveData_runAmid w useLive others s :
  ∃ s1 s2,
    runAmid (fetchLiveData w useLive) others s =
      match completion (snapshotCall w useLive) with
      | Throw err => failedFrom s1 err
      | Normal backendState =>
          match transformBackendToFrontend (World.dateNow w) backendState with
          | Throw err => failedFrom s1 err
          | Normal frontend =>
              match completion (predictCall w backendState) with
              | Throw err => failedFrom s2 err
              | Normal predictions =>
                  {| HookState.trains := HookState.trains s2;
                     HookState.conflicts :=
                       imap toFrontendConflict
                         (PredictionResponse.predicted_conflicts predictions);
                     HookState.isConnected := true;
                     HookState.lastUpdate := mkDate (Num (World.today w));
                     HookState.loading := false;
                     HookState.error := HookState.error s2 |}
              end
          end
      end.
Proof.
  unfold runAmid. rewrite fetchLiveData_weave.
  assert (∀ s0 err, foldl apply s0 (fetchFailure err ++ [SetLoading false])
                    = failedFrom s0 err) as Hfail by (by intros [] err).
  rewrite !foldl_app.
  set (s1 := foldl apply _ (default [] (others !! 0%nat))).
  destruct (completion (snapshotCall w useLive)) as [backendState|err].
  - destruct (transformBackendToFrontend (World.dateNow w) backendState)
      as [frontend|err].
    + rewrite !foldl_app.
      set (s2 := foldl apply _ (default [] (others !! 1%nat))).
      exists s1, s2.
      destruct (completion (predictCall w backendState)) as [predictions|err].
      * by destruct s2.
      * rewrite <- foldl_app. apply Hfail.
    + exists s1, s1. rewrite <- foldl_app. apply Hfail.
  - exists s1, s1. rewrite <- foldl_app. apply Hfail.
Qed.

(** C2, amended. Every invocation of [fetchLiveData] starts by setting
    loading to true and clearing the error, and loading is false when it
    ends, whatever other callbacks did while it was suspended ([others]).
    If the snapshot call succeeds, its transform returns and the prediction
    call succeeds, the invocation makes these two requests and the setter
    calls for the transformed trains, the mapped conflicts, isConnected
    true and the update time, and no other; when it ends the conflicts are
    those of the prediction and isConnected is true, and, if no other
    callback wrote in between, the trains are those of the snapshot and the
    error is null. If the snapshot call fails, the transform throws or the
    prediction call fails, then when the invocation ends the error is the
    message of what was thrown and isConnected is false, again whatever
    the other callbacks did. *)
Theorem fetch_outcomes w useLive others s :
  (∃ rest, effects (fetchLiveData w useLive) = SetLoading true :: SetError None :: rest) ∧
  HookState.loading (runAmid (fetchLiveData w useLive) others s) = false ∧
  (∀ backendState frontend predictions,
     completion (snapshotCall w useLive) = Normal backendState →
     transformBackendToFrontend (World.dateNow w) backendState = Normal frontend →
     completion (predictCall w backendState) = Normal predictions →
     requests (fetchLiveData w useLive)
       = effects (snapshotCall w useLive) ++ effects (predictCall w backendState) ∧
     filter (λ e, isFetch e = false) (effects (fetchLiveData w useLive))
       = [ SetLoading true; SetError None;
           SetTrains (FrontendState.trains frontend);
           SetConflicts (imap toFrontendConflict
                           (PredictionResponse.predicted_conflicts predictions));
           SetIsConnected true;
           SetLastUpdate (mkDate (Num (World.today w)));
           SetLoading false ] ∧
     HookState.conflicts (runAmid (fetchLiveData w useLive) others s)
       = imap toFrontendConflict (PredictionResponse.predicted_conflicts predictions) ∧
     HookState.isConnected (runAmid (fetchLiveData w useLive) others s) = true ∧
     HookState.trains (run (fetchLiveData w useLive) s) = FrontendState.trains frontend ∧
     HookState.error (run (fetchLiveData w useLive) s) = None) ∧
  (∀ err,
     completion (snapshotCall w useLive) = Throw err ∨
     (∃ backendState,
        completion (snapshotCall w useLive) = Normal backendState ∧
        transformBackendToFrontend (World.dateNow w) backendState = Throw err) ∨
     (∃ backendState frontend,
        completion (snapshotCall w useLive) = Normal backendState ∧
        transformBackendToFrontend (World.dateNow w) backendState = Normal frontend ∧
        completion (predictCall w backendState) = Throw err) →
     HookState.error (runAmid (fetchLiveData w useLive) others s)
       = Some (messageOr err "Failed to connect to backend") ∧
     HookState.isConnected (runAmid (fetchLiveData w useLive) others s) = false).
Proof.
  destruct (fetchLiveData_runAmid w useLive others s) as (s1 & s2 & Hamid).
  split; [|split; [|split]].
  - rewrite fetchLiveData_effects. simpl. by eexists.
  - rewrite Hamid.
    destruct (completion (snapshotCall w useLive)) as [backendState|err]; [|done].
    destruct (transformBackendToFrontend (World.dateNow w) backendState); [|done].
    by destruct (completion (predictCall w backendState)).
  - intros backendState frontend predictions Hs Ht Hp.
    split; [by rewrite fetchLiveData_requests, Hs, Ht|].
    split.
    { rewrite fetchLiveData_effects, Hs, Ht, Hp.
      destruct (snapshotCall_effects w useLive) as (url & init & ->).
      by destruct (predictCall_effects w backendState) as (url' & init' & ->). }
    rewrite Hamid, fetchLiveData_run, Hs, Ht, Hp. done.
  - intros err [Hs|[(backendState & Hs & Ht)|(backendState & frontend & Hs & Ht & Hp)]];
      rewrite Hamid, Hs, ?Ht, ?Hp; done.
Qed.

(** The remaining outcome: the snapshot arrives but a train in it is due
    at an instant no [Date] can hold, so that the transform throws; the
    prediction call is then not made, and the [catch] block leaves an error
    message and isConnected false. *)
Lemma fetch_transform_throws w useLive s backendState err :
  completion (snapshotCall w useLive) = Normal backendState →
  transformBackendToFrontend (World.dateNow w) backendState = Throw err →
  requests (fetchLiveData w useLive) = effects (snapshotCall w useLive) ∧
  HookState.error (run (fetchLiveData w useLive) s)
    = Some (messageOr err "Failed to connect to backend") ∧
  HookState.isConnected (run (fetchLiveData w useLive) s) = false ∧
  HookState.loading (run (fetchLiveData w useLive) s) = false.
Proof.
  intros Hs Ht. rewrite fetchLiveData_requests, fetchLiveData_run, Hs, Ht.
  by rewrite app_nil_r.
Qed.

Example fetch_far_train :
  let w := {| World.fetchState := answer (BackendState.mk [sampleTrain; farTrain] []);
              World.fetchPrediction := answer samplePrediction;
              World.fetchSchedule := unreachable;
              World.dateNow := sampleClock;
              World.today := 1700000000250 |} in
  length (requests (fetchLiveData w false)) = 1%nat ∧
  run (fetchLiveData w false) (HookState.initial 0)
  = {| HookState.trains := [];
       HookState.conflicts := [];
       HookState.isConnected := false;
       HookState.lastUpdate := mkDate (Num 0);
       HookState.loading := false;
       HookState.error := Some "Invalid time value" |}.
Proof. split; reflexivity. Qed.

Lemma fetch_outcomes_sample :
  (completion (snapshotCall onlineWorld false) = Normal sampleState ∧
   transformBackendToFrontend (World.dateNow onlineWorld) sampleState
     = Normal sampleProjection ∧
   completion (predictCall onlineWorld sampleState) = Normal samplePrediction ∧
   HookState.isConnected
     (runAmid (fetchLiveData onlineWorld false) [[SetError (Some "late")]]
        (HookState.initial 0)) = true ∧
   HookState.trains (run (fetchLiveData onlineWorld false) (HookState.initial 0))
     = FrontendState.trains sampleProjection ∧
   HookState.error (run (fetchLiveData onlineWorld false) (HookState.initial 0)) = None) ∧
  (completion (snapshotCall offlineWorld false)
     = Throw (ErrorObject (mkError "TypeError" "Failed to fetch")) ∧
   HookState.error
     (runAmid (fetchLiveData offlineWorld false) [[SetError None; SetIsConnected true]]
        (HookState.initial 0))
     = Some "Failed to fetch" ∧
   HookState.isConnected
     (runAmid (fetchLiveData offlineWorld false) [[SetError None; SetIsConnected true]]
        (HookState.initial 0))
     = false).
Proof.
  split.
  - destruct (fetch_outcomes onlineWorld false [[SetError (Some "late")]]
                (HookState.initial 0)) as (_ & _ & Hsuccess & _).
    destruct (Hsuccess sampleState sampleProjection samplePrediction
                eq_refl eq_refl eq_refl)
      as (_ & _ & _ & Hconnected & Htrains & Herror).
    repeat split; assumption.
  - destruct (fetch_outcomes offlineWorld false [[SetError None; SetIsConnected true]]
                (HookState.initial 0)) as (_ & _ & _ & Hfailure).
    destruct (Hfailure (ErrorObject (mkError "TypeError" "Failed to fetch"))
                (or_introl eq_refl)) as [Herror Hconnected].
    repeat split; assumption.
Defined.

(** C2 as stated fails for overlapping invocations: an invocation whose two
    calls succeed ends with isConnected true and yet with an error, when
    another invocation has failed while the first one was waiting for its
    snapshot; the error is cleared only before the first [await]. *)
Theorem overlapping_fetch_keeps_error :
  completion (snapshotCall onlineWorld false) = Normal sampleState ∧
  transformBackendToFrontend (World.dateNow onlineWorld) sampleState
    = Normal sampleProjection ∧
  completion (predictCall onlineWorld sampleState) = Normal samplePrediction ∧
  fetchThrows offlineWorld false = Some networkError ∧
  runAmid (fetchLiveData onlineWorld false) [effects (fetchLiveData offlineWorld false)]
    (HookState.initial 0)
  = {| HookState.trains := FrontendState.trains sampleProjection;
       HookState.conflicts := imap toFrontendConflict [sampleConflict];
       HookState.isConnected := true;
       HookState.lastUpdate := mkDate (Num 1700000000250);
       HookState.loading := false;
       HookState.error := Some "Failed to fetch" |}.
Proof. repeat split. Qed.

(** *** The local update of a train action *)

(** C10. [handleTrainAction] sets loading and then maps
    [applyTrainAction] over the list of trains. That update keeps the
    length of the list; at each position, a train whose id is not the given
    one is unchanged; the targeted train keeps its id, name,
    currentLocation, nextStation and eta; for an action other than "hold",
    "expedite" and "reroute" it is unchanged too; and on "expedite" its
    delay becomes max(0, delay - 5), which is not below zero. *)
Theorem train_action_frame (prev : list Train.t) (trainId action : string) :
  (∀ w s, ∃ rest,
     effects (handleTrainAction trainId action w)
       = SetLoading true
         :: UpdateTrains (λ prev, applyTrainAction trainId action <$> prev) :: rest ∧
     HookState.trains
       (apply s (UpdateTrains (λ prev, applyTrainAction trainId action <$> prev)))
       = applyTrainAction trainId action <$> HookState.trains s) ∧
  length (applyTrainAction trainId action <$> prev) = length prev ∧
  ∀ i train, prev !! i = Some train →
    ∃ train', (applyTrainAction trainId action <$> prev) !! i = Some train' ∧
      (Train.id train ≠ trainId → train' = train) ∧
      (Train.id train' = Train.id train ∧
       Train.name train' = Train.name train ∧
       Train.currentLocation train' = Train.currentLocation train ∧
       Train.nextStation train' = Train.nextStation train ∧
       Train.eta train' = Train.eta train) ∧
      (action ≠ "hold" → action ≠ "expedite" → action ≠ "reroute" → train' = train) ∧
      (Train.id train = trainId → action = "expedite" →
         Train.delay train' = Math_max (Num 0) (sub (Train.delay train) (Num 5)) ∧
         lt (Train.delay train') (Num 0) = false).
Proof.
  split.
  { intros w s. exists (effects (fetchLiveData w false) ++ [SetLoading false]).
    split; [|by destruct s].
    unfold handleTrainAction, try_catch_finally, mbind, Proc_bind.
    cbn -[fetchLiveData]. rewrite fetchLiveData_completion.
    cbn -[fetchLiveData]. done. }
  split; [apply length_fmap|].
  intros i train Hi. exists (applyTrainAction trainId action train).
  rewrite list_lookup_fmap, Hi. split; [done|].
  unfold applyTrainAction.
  destruct (decide (Train.id train = trainId)) as [Hid|Hid].
  - split; [done|].
    destruct (decide (action = "hold")) as [->|Hh];
      [|destruct (decide (action = "expedite")) as [->|He];
        [|destruct (decide (action = "reroute")) as [->|Hr]]];
      simpl; repeat split; try done.
    destruct (Train.delay train) as [d|]; simpl; [|done].
    apply Z.ltb_ge. lia.
  - repeat split; done.
Qed.

Lemma train_action_frame_sample :
  sampleTrains !! 1%nat
    = Some (Train.mk "T2" "Train T2" "on-time" "S2" (Num 3) "S3" "14:28") ∧
  ∃ train', (applyTrainAction "T2" "expedite" <$> sampleTrains) !! 1%nat = Some train' ∧
    Train.delay train' = Num 0 ∧ lt (Train.delay train') (Num 0) = false.
Proof.
  split; [reflexivity|].
  destruct (proj2 (proj2 (train_action_frame sampleTrains "T2" "expedite"))
              1%nat _ eq_refl)
    as (train' & Hlookup & _ & _ & _ & Hexp).
  exists train'. split; [exact Hlookup|].
  destruct (Hexp eq_refl eq_refl) as [Hdelay Hsign].
  split; [exact Hdelay|exact Hsign].
Defined.

(** *** The timer *)

Section Polling.
Variable Date_parse : string → number.



End Polling.


(** ** Further properties of the hook, the client and the components *)

(** *** What every effect of a procedure satisfies *)

Section EffectsOf.
Variable P : Effect → Prop.

Lemma all_perform e : P e → Forall P (effects (perform e)).
Proof. intros H. by constructor. Qed.

Lemma all_bind {A B} (m : Proc A) (f : A → Proc B) :
  Forall P (effects m) →
  (∀ a, completion m = Normal a → Forall P (effects (f a))) →
  Forall P (effects (m ≫= f)).
Proof.
  intros Hm Hf. unfold mbind, Proc_bind.
  destruct (completion m) as [a|v]; simpl; [|done].
  apply Forall_app. split; [done|]. by apply Hf.
Qed.

Lemma all_try_catch_finally {A} (body : Proc A) handler final :
  Forall P (effects body) →
  (∀ err, completion body = Throw err → Forall P (effects (handler err))) →
  Forall P (effects final) →
  Forall P (effects (try_catch_finally body handler final)).
Proof.
  intros Hb Hh Hf. unfold try_catch_finally. simpl.
  apply Forall_app. split; [|done].
  destruct (completion body) as [a|err]; [done|]. simpl.
  apply Forall_app. split; [done|]. by apply Hh.
Qed.

Lemma all_request {T} (fetch : Fetch T) this endpoint options :
  P (HttpFetch (APIService.baseUrl this +:+ endpoint) (APIService.requestInit options)) →
  Forall P (effects (APIService.request fetch this endpoint options)).
Proof. intros H. rewrite request_effects. by constructor. Qed.
End EffectsOf.

Lemma transform_hookTrains clock backendState out :
  transformBackendToFrontend clock backendState = Normal out →
  Forall hookTrain (FrontendState.trains out).
Proof.
  intros H. destruct (transformBackendToFrontend_Normal _ _ _ H) as (_ & Hlen & Hall).
  apply Forall_lookup. intros i ft Hft.
  destruct (lookup_lt_is_Some_2 (BackendState.trains backendState) i) as [train Ht].
  { rewrite <- Hlen. by eapply lookup_lt_Some. }
  destruct (Hall i train Ht) as (ft' & Hft' & Hcb).
  assert (ft' = ft) as -> by congruence.
  apply toFrontendTrain_Normal in Hcb as [_ ->]. split; [done|]. simpl.
  destruct (match BackendTrain.current_delay_minutes train with
            | Some d => truthy d && gt d (Num 0) | None => false end); auto.
Qed.

Lemma applyTrainAction_hookTrain trainId action train :
  hookTrain train → hookTrain (applyTrainAction trainId action train).
Proof.
  intros [Hname Hstatus]. unfold applyTrainAction, hookTrain, optimisticStatus.
  repeat case_decide; simpl; auto 7.
Qed.

Lemma fetchLiveData_hookEffects w useLive :
  Forall hookEffect (effects (fetchLiveData w useLive)).
Proof.
  rewrite fetchLiveData_effects.
  assert (∀ err, Forall hookEffect (fetchFailure err)) as Hfail
    by (intros err; repeat constructor).
  apply Forall_app. split; [repeat constructor|].
  apply Forall_app. split.
  { apply all_request. repeat split. by eexists. }
  apply Forall_app. split; [|repeat constructor].
  destruct (completion (snapshotCall w useLive)) as [backendState|err]; [|done].
  destruct (transformBackendToFrontend (World.dateNow w) backendState)
    as [frontend|err] eqn:Ht; [|done].
  apply Forall_app. split.
  { constructor; [|done]. simpl. by eapply transform_hookTrains. }
  apply Forall_app. split.
  { apply all_request. repeat split. by eexists. }
  destruct (completion (predictCall w backendState)) as [predictions|err]; [|done].
  repeat constructor. simpl. by eexists.
Qed.

Section HookEffects.
Variable Date_parse : string → number.

Lemma optimizeSchedule_hookEffects trains w :
  Forall hookEffect (effects (optimizeSchedule Date_parse trains w)).
Proof.
  unfold optimizeSchedule. apply all_try_catch_finally.
  - apply all_bind; [by apply all_perform|]. intros _ _.
    apply all_bind; [|intros; by apply all_perform].
    apply all_request. repeat split. by eexists.
  - intros err _. apply all_bind; [by apply all_perform|].
    intros; by apply all_perform.
  - by apply all_perform.
Qed.

Lemma resolveConflicts_hookEffects trains w w' :
  Forall hookEffect (effects (resolveConflicts Date_parse trains w w')).
Proof.
  unfold resolveConflicts. apply all_try_catch_finally.
  - apply all_bind; [by apply all_perform|]. intros _ _.
    apply all_bind; [apply all_request; repeat split; by eexists|].
    intros predictions _.
    apply all_bind; [apply all_request; repeat split; by eexists|].
    intros result _.
    apply all_bind; [by apply all_perform|]. intros _ _.
    apply fetchLiveData_hookEffects.
  - intros err _. apply all_bind; [by apply all_perform|].
    intros; by apply all_perform.
  - by apply all_perform.
Qed.

Lemma handleTrainAction_hookEffects trainId action w :
  Forall hookEffect (effects (handleTrainAction trainId action w)).
Proof.
  unfold handleTrainAction. apply all_try_catch_finally.
  - apply all_bind; [by apply all_perform|]. intros _ _.
    apply all_bind; [|intros; apply fetchLiveData_hookEffects].
    apply all_perform. simpl. intros trains Htrains.
    apply Forall_fmap. eapply Forall_impl; [done|].
    intros t. apply applyTrainAction_hookTrain.
  - intros err _. apply all_bind; [by apply all_perform|].
    intros; by apply all_perform.
  - by apply all_perform.
Qed.

Lemma react_hookEffects s ev :
  Forall hookEffect (effects (react Date_parse s ev)).
Proof.
  destruct ev as [useLive w|w|w w'|trainId action w|w]; simpl.
  - apply fetchLiveData_hookEffects.
  - apply optimizeSchedule_hookEffects.
  - apply resolveConflicts_hookEffects.
  - apply handleTrainAction_hookEffects.
  - unfold autoRefresh. destruct (HookState.isConnected s); [|constructor].
    apply fetchLiveData_hookEffects.
Qed.

Lemma apply_hookState s e : hookState s → hookEffect e → hookState (apply s e).
Proof.
  intros [Htrains Hconflicts] He. unfold hookState.
  destruct s; destruct e; simpl in *; auto.
Qed.

Lemma run_hookState {A} (p : Proc A) s :
  hookState s → Forall hookEffect (effects p) → hookState (run p s).
Proof.
  unfold run. generalize (effects p). intros l. revert s.
  induction l as [|e l IH]; intros s Hs Hl; [done|].
  apply Forall_cons in Hl as [He Hl]. simpl. apply IH; [|done].
  by apply apply_hookState.
Qed.

Lemma reachable_hookState s : reachable Date_parse s → hookState s.
Proof.
  induction 1 as [mounted|s ev s' _ IH Hstep].
  - split; [constructor|]. by exists [].
  - inversion Hstep; subst. apply run_hookState; [done|apply react_hookEffects].
Qed.
End HookEffects.

(** *** The callbacks never throw and always reset loading *)

Lemma try_catch_finally_completion (body : Proc unit) handler final :
  (∀ err, completion (handler err) = Normal ()) →
  completion final = Normal () →
  completion (try_catch_finally body handler final) = Normal ().
Proof.
  intros Hh Hf. unfold try_catch_finally. simpl. rewrite Hf.
  destruct (completion body) as [[]|err] eqn:Hb; [done|]. simpl. apply Hh.
Qed.

Lemma run_app {A} (p : Proc A) (l l' : list Effect) s :
  effects p = l ++ l' → run p s = foldl apply (foldl apply s l) l'.
Proof. unfold run. intros ->. apply foldl_app. Qed.

Lemma finally_resets_loading {A} (body : Proc A) handler s :
  HookState.loading
    (run (try_catch_finally body handler (perform (SetLoading false))) s) = false.
Proof.
  unfold run, try_catch_finally. simpl. rewrite foldl_app. simpl.
  by destruct (foldl apply s _).
Qed.

Section Callbacks.
Variable Date_parse : string → number.

Lemma react_completion s ev : completion (react Date_parse s ev) = Normal ().
Proof.
  destruct ev as [useLive w|w|w w'|trainId action w|w]; unfold react.
  - apply fetchLiveData_completion.
  - by apply try_catch_finally_completion.
  - by apply try_catch_finally_completion.
  - by apply try_catch_finally_completion.
  - unfold autoRefresh. destruct (HookState.isConnected s); [|done].
    apply fetchLiveData_completion.
Qed.

Lemma react_loading s ev :
  HookState.loading (run (react Date_parse s ev) s) = false ∨
  run (react Date_parse s ev) s = s.
Proof.
  destruct ev as [useLive w|w|w w'|trainId action w|w]; unfold react;
    try (left; apply finally_resets_loading).
  unfold autoRefresh. destruct (HookState.isConnected s); [|by right].
  left. apply finally_resets_loading.
Qed.
End Callbacks.

(** *** Optimising, resolving and acting on a train *)

Section Operations.
Variable Date_parse : string → number.

Lemma optimizeSchedule_effects trains w :
  effects (optimizeSchedule Date_parse trains w) =
    [ SetLoading true;
      HttpFetch "http://localhost:8000/schedule?otp_tolerance=300"
                (postOf (StatePayload (rebuilt Date_parse trains w))) ] ++
    match completion (scheduleCall Date_parse trains w) with
    | Normal _ => [ConsoleLog "Schedule optimized:"]
    | Throw err =>
        [ ConsoleError "Failed to optimize schedule:" err;
          SetError (Some (messageOr err "Failed to optimize schedule")) ]
    end ++ [SetLoading false].
Proof.
  unfold optimizeSchedule, try_catch_finally, scheduleCall.
  fold (rebuilt Date_parse trains w).
  pose proof (request_effects (World.fetchSchedule w) apiService
                "/schedule?otp_tolerance=300" 
                (APIService.post (Some (StatePayload (rebuilt Date_parse trains w))))) as Hreq.
  change (APIService.request (World.fetchSchedule w) apiService
            "/schedule?otp_tolerance=300"
            (APIService.post (Some (StatePayload (rebuilt Date_parse trains w)))))
    with (APIService.optimizeSchedule (World.fetchSchedule w) apiService
            (rebuilt Date_parse trains w) (Num 300)) in Hreq.
  revert Hreq.
  generalize (APIService.optimizeSchedule (World.fetchSchedule w) apiService
                (rebuilt Date_parse trains w) (Num 300)).
  intros [callEffects [result|err]] Hreq; simpl in Hreq; subst callEffects;
    unfold mbind, Proc_bind, perform; simpl; done.
Qed.

(** X1. [optimizeSchedule] sends exactly one request, a POST of the state
    rebuilt from the trains to /schedule?otp_tolerance=300, and changes
    nothing of the hook's state but [loading] (false afterwards) and, when
    the call fails, [error]: the answer of the scheduler is only logged, so
    trains, conflicts, connection flag and last update stay as they were. *)
Theorem optimizeSchedule_outcome trains w s :
  requests (optimizeSchedule Date_parse trains w)
    = [ HttpFetch "http://localhost:8000/schedule?otp_tolerance=300"
                  (postOf (StatePayload (rebuilt Date_parse trains w))) ] ∧
  run (optimizeSchedule Date_parse trains w) s
    = withError s
        match completion (scheduleCall Date_parse trains w) with
        | Normal _ => HookState.error s
        | Throw err => Some (messageOr err "Failed to optimize schedule")
        end.
Proof.
  unfold requests, run. rewrite optimizeSchedule_effects.
  destruct s. by destruct (completion (scheduleCall Date_parse trains w)).
Qed.

Lemma resolveConflicts_effects trains w w' :
  effects (resolveConflicts Date_parse trains w w') =
    [ SetLoading true;
      HttpFetch "http://localhost:8000/predict"
                (postOf (StatePayload (rebuilt Date_parse trains w))) ] ++
    match completion (predictCall w (rebuilt Date_parse trains w)) with
    | Throw err =>
        [ ConsoleError "Failed to resolve conflicts:" err;
          SetError (Some (messageOr err "Failed to resolve conflicts")) ]
    | Normal predictions =>
        [ HttpFetch "http://localhost:8000/resolve?solver=milp&otp_tolerance=300"
            (postOf (ResolvePayload (rebuilt Date_parse trains w)
                       (PredictionResponse.predicted_conflicts predictions))) ] ++
        match completion (resolutionCall Date_parse trains w
                            (PredictionResponse.predicted_conflicts predictions)) with
        | Throw err =>
            [ ConsoleError "Failed to resolve conflicts:" err;
              SetError (Some (messageOr err "Failed to resolve conflicts")) ]
        | Normal _ =>
            ConsoleLog "Conflicts resolved:" :: effects (fetchLiveData w' false)
        end
    end ++ [SetLoading false].
Proof.
  unfold resolveConflicts, try_catch_finally, resolutionCall, predictCall.
  fold (rebuilt Date_parse trains w).
  pose proof (request_effects (World.fetchPrediction w) apiService "/predict"
                (APIService.post (Some (StatePayload (rebuilt Date_parse trains w))))) as Hp.
  change (APIService.request (World.fetchPrediction w) apiService "/predict"
            (APIService.post (Some (StatePayload (rebuilt Date_parse trains w)))))
    with (APIService.predictConflicts (World.fetchPrediction w) apiService
            (rebuilt Date_parse trains w)) in Hp.
  revert Hp.
  generalize (APIService.predictConflicts (World.fetchPrediction w) apiService
                (rebuilt Date_parse trains w)).
  intros [predEffects [predictions|err]] Hp; simpl in Hp; subst predEffects;
    unfold mbind, Proc_bind, perform; cbn -[fetchLiveData]; [|done].
  pose proof (request_effects (World.fetchSchedule w) apiService
                "/resolve?solver=milp&otp_tolerance=300"
                (APIService.post
                   (Some (ResolvePayload (rebuilt Date_parse trains w)
                            (PredictionResponse.predicted_conflicts predictions))))) as Hr.
  change (APIService.request (World.fetchSchedule w) apiService
            "/resolve?solver=milp&otp_tolerance=300"
            (APIService.post
               (Some (ResolvePayload (rebuilt Date_parse trains w)
                        (PredictionResponse.predicted_conflicts predictions)))))
    with (APIService.resolveConflicts (World.fetchSchedule w) apiService
            (rebuilt Date_parse trains w) (PredictionResponse.predicted_conflicts predictions)
            "milp" (Num 300)) in Hr.
  revert Hr.
  generalize (APIService.resolveConflicts (World.fetchSchedule w) apiService
                (rebuilt Date_parse trains w) (PredictionResponse.predicted_conflicts predictions)
                "milp" (Num 300)).
  intros [resEffects [result|err]] Hr; simpl in Hr; subst resEffects;
    cbn -[fetchLiveData]; [|done].
  rewrite fetchLiveData_completion. cbn -[fetchLiveData]. done.
Qed.

(** The state after [fetchLiveData] does not depend on the loading flag it
    started from. *)
Lemma fetchLiveData_run_loading w useLive s loading :
  run (fetchLiveData w useLive) (apply s (SetLoading loading))
  = run (fetchLiveData w useLive) s.
Proof. rewrite !fetchLiveData_run. by destruct s. Qed.




Lemma handleTrainAction_effects trainId action w :
  effects (handleTrainAction trainId action w)
  = SetLoading true
    :: UpdateTrains (λ prev, applyTrainAction trainId action <$> prev)
    :: effects (fetchLiveData w false) ++ [SetLoading false].
Proof.
  unfold handleTrainAction, try_catch_finally, mbind, Proc_bind.
  cbn -[fetchLiveData]. rewrite fetchLiveData_completion.
  cbn -[fetchLiveData]. done.
Qed.

End Operations.

(** *** Decimal texts *)

Lemma pretty_N_go_digits x :
  ∀ s, ∃ ds, pretty_N_go x s = ds +:+ s ∧ allDigits ds ∧ ((0 < x)%N → ds ≠ "").
Proof.
  induction (N.lt_wf_0 x) as [x _ IH]. intros s.
  destruct (decide (x = 0)%N) as [->|Hx].
  - exists "". rewrite pretty_N_go_0. split; [done|]. split; [done|]. lia.
  - rewrite pretty_N_go_step by lia.
    destruct (IH (x `div` 10)%N) with (s := String (pretty_N_char (x `mod` 10)) s)
      as (ds & -> & Hds & _).
    { apply N.div_lt; lia. }
    exists (ds +:+ String (pretty_N_char (x `mod` 10)) "").
    split; [by rewrite append_assoc|]. split.
    + clear -Hds. induction ds as [|c ds IHds]; simpl.
      * split; [|done]. exists (x `mod` 10)%N. split; [|done].
        apply N.mod_lt. lia.
      * destruct Hds. split; [done|]. by apply IHds.
    + intros _. by destruct ds.
Qed.

Lemma pretty_Z_digits z : 0 ≤ z → allDigits (pretty z) ∧ pretty z ≠ "".
Proof.
  intros Hz. destruct z as [|p|p]; [| |lia].
  - split; [|done]. split; [|done]. by exists 0%N.
  - unfold pretty, pretty_Z, pretty, pretty_positive, pretty, pretty_N.
    destruct (decide (N.pos p = 0)%N); [done|].
    destruct (pretty_N_go_digits (N.pos p) "") as (ds & -> & Hds & Hne).
    rewrite append_empty_r. split; [done|]. apply Hne. lia.
Qed.

Lemma digits_split a : ∀ a' c c' r r',
  allDigits a → allDigits a' → ¬ digitChar c → ¬ digitChar c' →
  a +:+ String c r = a' +:+ String c' r' → a = a' ∧ c = c' ∧ r = r'.
Proof.
  induction a as [|x a IH]; intros a' c c' r r' Ha Ha' Hc Hc' H;
    destruct a' as [|x' a']; simpl in *.
  - by injection H as -> ->.
  - injection H as -> _. by destruct Ha'.
  - injection H as <- _. by destruct Ha.
  - injection H as -> H. destruct Ha, Ha'.
    destruct (IH _ _ _ _ _ ltac:(done) ltac:(done) Hc Hc' H) as (-> & -> & ->).
    done.
Qed.

Lemma letter_not_digit c :
  c = "m"%char ∨ c = "h"%char ∨ c = "I"%char ∨ c = "+"%char → ¬ digitChar c.
Proof.
  intros Hc (n & Hn & ->).
  assert (n = 0 ∨ n = 1 ∨ n = 2 ∨ n = 3 ∨ n = 4 ∨ n = 5 ∨ n = 6 ∨ n = 7
          ∨ n = 8 ∨ n = 9)%N as Hcases by lia.
  destruct Hcases as [->|[->|[->|[->|[->|[->|[->|[->|[->| ->]]]]]]]]];
    destruct Hc as [?|[?|[?|?]]]; discriminate.
Qed.

(** *** The time to a conflict *)

(** X4. [formatTimeToConflict] on a whole number of minutes [a]: the label
    is "Imminent" exactly when [a < 1]; it is [a] followed by m below an
    hour; from an hour on, for a safe integer, it is <hours>h <minutes>m
    with [hours * 60 + minutes = a] and [minutes < 60]. Two different safe
    whole times of at least one minute never get the same label. *)
Theorem time_to_conflict_label (a : Z) :
  (ConflictAlert.formatTimeToConflict (Num a) = "Imminent" ↔ a < 1) ∧
  (1 ≤ a < 60 → ConflictAlert.formatTimeToConflict (Num a) = pretty a +:+ "m") ∧
  (60 ≤ a ≤ MAX_SAFE_INTEGER →
     ∃ hours minutes,
       ConflictAlert.formatTimeToConflict (Num a)
         = pretty hours +:+ "h " +:+ pretty minutes +:+ "m" ∧
       1 ≤ hours ∧ 0 ≤ minutes < 60 ∧ a = hours * 60 + minutes) ∧
  (∀ b, 1 ≤ a ≤ MAX_SAFE_INTEGER → 1 ≤ b ≤ MAX_SAFE_INTEGER →
     ConflictAlert.formatTimeToConflict (Num a)
       = ConflictAlert.formatTimeToConflict (Num b) → a = b).
Proof.
  assert (∀ x, 1 ≤ x < 60 →
            ConflictAlert.formatTimeToConflict (Num x) = pretty x +:+ "m") as Hshort.
  { intros x Hx. unfold ConflictAlert.formatTimeToConflict, lt, gt.
    replace (x <? 1) with false by (symmetry; apply Z.ltb_ge; lia).
    replace (x <? 60) with true by (symmetry; apply Z.ltb_lt; lia). done. }
  assert (∀ x, 60 ≤ x →
            ConflictAlert.formatTimeToConflict (Num x)
              = pretty (x / 60) +:+ "h " +:+ pretty (x mod 60) +:+ "m") as Hlong.
  { intros x Hx. unfold ConflictAlert.formatTimeToConflict, lt, gt.
    replace (x <? 1) with false by (symmetry; apply Z.ltb_ge; lia).
    replace (x <? 60) with false by (symmetry; apply Z.ltb_ge; lia).
    simpl. rewrite Z.rem_mod_nonneg by lia. done. }
  assert (¬ digitChar "m") as Hm by (apply letter_not_digit; auto).
  assert (¬ digitChar "h") as Hh by (apply letter_not_digit; auto).
  assert (∀ x, 1 ≤ x → ConflictAlert.formatTimeToConflict (Num x) ≠ "Imminent") as Hne.
  { intros x Hx.
    assert (¬ digitChar "I") as HI by (apply letter_not_digit; auto).
    destruct (Z_lt_le_dec x 60).
    - rewrite Hshort by lia. destruct (pretty_Z_digits x) as [Hd Hn]; [lia|].
      destruct (pretty x) as [|c rest]; [done|]. simpl. intros [= -> _].
      by destruct Hd.
    - rewrite Hlong by lia. destruct (pretty_Z_digits (x / 60)) as [Hd Hn].
      { apply Z.div_pos; lia. }
      destruct (pretty (x / 60)) as [|c rest]; [done|]. simpl. intros [= -> _].
      by destruct Hd. }
  split; [|split; [|split]].
  - split.
    + intros H. destruct (Z_lt_le_dec a 1); [done|]. by destruct (Hne a).
    + intros Ha. unfold ConflictAlert.formatTimeToConflict, lt, gt.
      by replace (a <? 1) with true by (symmetry; apply Z.ltb_lt; lia).
  - apply Hshort.
  - intros [Ha _]. exists (a / 60), (a mod 60). split; [by apply Hlong|].
    pose proof (Z.mod_pos_bound a 60). pose proof (Z.div_mod a 60).
    assert (1 ≤ a / 60) by (apply Z.div_le_lower_bound; lia). lia.
  - intros b [Ha _] [Hb _].
    assert (∀ x, 0 ≤ x → allDigits (pretty x)) as Hdig
      by (intros x Hx; by apply pretty_Z_digits).
    assert (allDigits (pretty a) ∧ allDigits (pretty b)) as [Da Db]
      by (split; apply Hdig; lia).
    assert (allDigits (pretty (a / 60)) ∧ allDigits (pretty (b / 60))) as [Dqa Dqb]
      by (split; apply Hdig; apply Z.div_pos; lia).
    assert (allDigits (pretty (a mod 60)) ∧ allDigits (pretty (b mod 60))) as [Dra Drb]
      by (split; apply Hdig; apply Z.mod_pos_bound; lia).
    destruct (Z_lt_le_dec a 60), (Z_lt_le_dec b 60);
      rewrite ?(Hshort a), ?(Hshort b), ?(Hlong a), ?(Hlong b) by lia; intros H.
    + destruct (digits_split _ _ _ _ _ _ Da Db Hm Hm H) as (Heq & _).
      by apply (inj pretty) in Heq.
    + by destruct (digits_split _ _ _ _ _ _ Da Dqb Hm Hh H) as (_ & [=] & _).
    + by destruct (digits_split _ _ _ _ _ _ Dqa Db Hh Hm H) as (_ & [=] & _).
    + destruct (digits_split _ _ _ _ _ _ Dqa Dqb Hh Hh H) as (Hq & _ & Hrest).
      injection Hrest as Hrest.
      destruct (digits_split _ _ _ _ _ _ Dra Drb Hm Hm Hrest) as (Hr & _).
      apply (inj pretty) in Hq, Hr.
      rewrite (Z.div_mod a 60), (Z.div_mod b 60) by lia. by rewrite Hq, Hr.
Qed.

(** The bound is needed: in doubles, a quotient by 60 is rounded before
    [Math.floor], which is harmless up to [MAX_SAFE_INTEGER] and gives one
    hour too many at 67553994410557496 minutes. *)
Example floor_of_a_quotient_in_doubles :
  Double.floor (9007199254740991 / 60)%float = Some (MAX_SAFE_INTEGER / 60) ∧
  Double.floor (67553994410557496 / 60)%float = Some (67553994410557496 / 60 + 1) ∧
  Double.floor (-150.5)%float = Some (-151).
Proof. repeat split. Qed.

(** *** Searching a text *)

Lemma startsWith_spec s : ∀ part,
  startsWith s part = true ↔ ∃ rest, s = part +:+ rest.
Proof.
  induction s as [|d s IH]; intros [|c part]; simpl.
  - split; [by exists ""|done].
  - split; [done|]. by intros (rest & ?).
  - split; [by exists (String d s)|done].
  - rewrite andb_true_iff, bool_decide_eq_true, IH. split.
    + intros (-> & rest & ->). by exists rest.
    + intros (rest & [= -> ->]). split; [done|]. by exists rest.
Qed.

Lemma includes_contains s part : includes s part = true ↔ contains s part.
Proof.
  induction s as [|d s IH]; cbn [includes].
  - rewrite orb_false_r, startsWith_spec. split.
    + intros (rest & H). by exists "", rest.
    + intros (before & after & H). destruct before; [by exists after|done].
  - rewrite orb_true_iff, startsWith_spec, IH. split.
    + intros [(rest & H)|(before & after & ->)].
      * by exists "", rest.
      * by exists (String d before), after.
    + intros (before & after & H). destruct before as [|c before].
      * left. by exists after.
      * right. injection H as -> ->. by exists before, after.
Qed.

(** *** The track layout *)

(** X5. The track layout: a section is looked up by its id occurring
    anywhere in the [currentLocation] of a train. Some train is in a section
    exactly when [getTrainInSection] finds one, which is then the first such
    train of the list; sections AB, BC and CD are occupied exactly when
    this is so, and section DE is never occupied, whatever the trains. *)
Theorem track_occupancy (trains : list Train.t) :
  (∀ part,
     TrackLayout.someIn trains part = true ↔
     ∃ t, t ∈ trains ∧ contains (Train.currentLocation t) part) ∧
  (∀ part,
     TrackLayout.someIn trains part = true ↔
     ∃ t, TrackLayout.getTrainInSection trains part = Some t) ∧
  (∀ part t,
     TrackLayout.getTrainInSection trains part = Some t →
     ∃ i, trains !! i = Some t ∧ contains (Train.currentLocation t) part ∧
          ∀ j t', (j < i)%nat → trains !! j = Some t' →
                  ¬ contains (Train.currentLocation t') part) ∧
  (∀ s, s ∈ TrackLayout.trackSections trains →
     (TrackLayout.id s = "DE" → TrackLayout.occupied s = false) ∧
     (TrackLayout.id s ≠ "DE" →
        TrackLayout.occupied s = TrackLayout.someIn trains (TrackLayout.id s))).
Proof.
  split; [|split; [|split]].
  - intros part. unfold TrackLayout.someIn. rewrite existsb_exists.
    split; intros (t & Hin & Ht); exists t.
    + split; [by apply list_elem_of_In|by apply includes_contains].
    + split; [by apply list_elem_of_In|by apply includes_contains].
  - intros part. unfold TrackLayout.someIn, TrackLayout.getTrainInSection.
    induction trains as [|t trains IH]; simpl.
    + split; [done|]. by intros (? & ?).
    + destruct (includes (Train.currentLocation t) part); simpl; [|done].
      split; [by exists t|done].
  - intros part. unfold TrackLayout.getTrainInSection.
    induction trains as [|t0 trains IH]; intros t; simpl; [done|].
    destruct (includes (Train.currentLocation t0) part) eqn:Hinc.
    + intros [= <-]. exists 0%nat. split; [done|].
      split; [by apply includes_contains|]. intros j t' Hj. lia.
    + intros Hfind. destruct (IH t Hfind) as (i & Hi & Hc & Hfirst).
      exists (S i). split; [done|]. split; [done|].
      intros [|j] t' Hj Hlook; simpl in Hlook.
      * injection Hlook as <-. rewrite <- includes_contains. by rewrite Hinc.
      * apply (Hfirst j t'); [lia|done].
  - intros s Hs. unfold TrackLayout.trackSections in Hs.
    repeat (apply elem_of_cons in Hs as [->|Hs]; [done|]).
    by apply elem_of_nil in Hs.
Qed.

(** *** How the components show a train of the hook *)

Lemma show_number_not_capital x rest text :
  show_number x +:+ rest ≠ String "C" text.
Proof.
  assert (¬ digitChar "C") as HC.
  { intros (n & Hn & Heq).
    assert (n = 0 ∨ n = 1 ∨ n = 2 ∨ n = 3 ∨ n = 4 ∨ n = 5 ∨ n = 6 ∨ n = 7
            ∨ n = 8 ∨ n = 9)%N as Hcases by lia.
    destruct Hcases as [->|[->|[->|[->|[->|[->|[->|[->|[->| ->]]]]]]]]];
      discriminate. }
  destruct x as [[|p|p]|]; try discriminate.
  destruct (pretty_Z_digits (Z.pos p)) as [Hd Hn]; [lia|].
  unfold show_number. destruct (pretty (Z.pos p)) as [|c digits]; [done|].
  simpl. intros [= -> _]. by destruct Hd.
Qed.

Section Views.
Variable Date_parse : string → number.

(** X6. What the components show for a train of the hook (a train in a
    reachable state). Nothing that they reserve for the status "conflict"
    appears: no Conflict badge, conflict box, alert icon or
    "Conflict detected" note in the list of trains, no destructive class on
    its icon or eta, no destructive colour in the graph. A train after a
    hold, expedite or reroute (and only such a train) falls into the
    default branches, which disagree with each other: the list gives it the
    badge Unknown, the check icon and the note "On schedule", but draws its
    progress bar in the destructive style; the legend of the graph labels
    it Conflict in a destructive badge while the graph draws it in the
    primary colour; the select box of the panel gives it a destructive
    badge with its status as text. *)
Theorem views_of_hook_trains s t :
  reachable Date_parse s → t ∈ HookState.trains s →
  (Badge.text (TrainStatus.getStatusBadge (Train.status t) (Train.delay t)) ≠ "Conflict" ∧
   TrainStatus.showsConflictBox t = false ∧
   TrainStatus.getStatusIcon (Train.status t) ≠ TrainStatus.AlertTriangleIcon ∧
   TrainStatus.getStatusColor (Train.status t) ≠ "text-destructive" ∧
   TrainStatus.etaClass t ≠ "text-destructive" ∧
   TrainStatus.progressNote t ≠ "Conflict detected" ∧
   TimeDistanceGraph.getTrainColor (Train.status t) ≠ "hsl(var(--destructive))") ∧
  (optimisticStatus (Train.status t) ↔
     Train.status t ≠ "on-time" ∧ Train.status t ≠ "delayed") ∧
  (optimisticStatus (Train.status t) →
     TrainStatus.getStatusBadge (Train.status t) (Train.delay t)
       = Badge.mk (Some "secondary") None "Unknown" ∧
     TrainStatus.getStatusIcon (Train.status t) = TrainStatus.CheckCircleIcon ∧
     TrainStatus.getStatusColor (Train.status t) = "text-muted-foreground" ∧
     TrainStatus.etaClass t = "text-foreground" ∧
     TrainStatus.progressNote t = "On schedule" ∧
     TrainStatus.progressBarClass t = "bg-destructive animate-pulse" ∧
     TimeDistanceGraph.getTrainColor (Train.status t) = "hsl(var(--primary))" ∧
     TimeDistanceGraph.legendBadge t
       = Badge.mk (Some "destructive") (Some "text-xs") "Conflict" ∧
     ControlPanel.selectBadge t
       = Badge.mk (Some "destructive") (Some "ml-auto text-xs") (Train.status t)) ∧
  (¬ optimisticStatus (Train.status t) →
     Badge.text (TrainStatus.getStatusBadge (Train.status t) (Train.delay t)) ≠ "Unknown" ∧
     TrainStatus.progressBarClass t ≠ "bg-destructive animate-pulse" ∧
     Badge.text (TimeDistanceGraph.legendBadge t) ≠ "Conflict" ∧
     Badge.variant (TimeDistanceGraph.legendBadge t) ≠ Some "destructive" ∧
     Badge.variant (ControlPanel.selectBadge t) ≠ Some "destructive").
Proof.
  intros Hreach Hin.
  destruct (reachable_hookState Date_parse s Hreach) as [Htrains _].
  apply (proj1 (Forall_forall _ _) Htrains) in Hin as [_ Hstatus].
  unfold optimisticStatus, TrainStatus.getStatusBadge, TrainStatus.showsConflictBox,
    TrainStatus.getStatusColor, TimeDistanceGraph.getTrainColor,
    TrainStatus.progressNote, TimeDistanceGraph.legendBadge, ControlPanel.selectBadge,
    TrainStatus.getStatusIcon, TrainStatus.etaClass, TrainStatus.progressBarClass,
    statusVariant.
  destruct Hstatus as [->|[->|[->|[->| ->]]]]; simpl; view_cases.
  by eapply show_number_not_capital.
Qed.
End Views.

Section TrackColours.
Variable Date_parse : string → number.

(** X7. For the trains of the hook, the track layout never draws a section
    in the "conflict" colour and never shows a Conflict badge; an occupied,
    unselected section is drawn in the warning colour exactly when the
    first train found in it is delayed. *)
Theorem track_layout_of_hook_trains s selectedSection sectionId occupied :
  reachable Date_parse s →
  TrackLayout.getSectionColor selectedSection (HookState.trains s) sectionId occupied
    ≠ "hsl(var(--destructive))" ∧
  (selectedSection ≠ Some sectionId → occupied = true →
     TrackLayout.getSectionColor selectedSection (HookState.trains s) sectionId occupied
       = "hsl(var(--warning))" ↔
     ∃ t, TrackLayout.getTrainInSection (HookState.trains s) sectionId = Some t ∧
          Train.status t = "delayed") ∧
  (∀ section badge,
     TrackLayout.infoBadge (HookState.trains s) section = Some badge →
     Badge.text badge ≠ "Conflict").
Proof.
  intros Hreach.
  destruct (reachable_hookState Date_parse s Hreach) as [Htrains _].
  assert (∀ part t, TrackLayout.getTrainInSection (HookState.trains s) part = Some t →
                    Train.status t ≠ "conflict") as Hfound.
  { intros part t Hfind. unfold TrackLayout.getTrainInSection in Hfind.
    apply find_some in Hfind as [Hin _]. apply list_elem_of_In in Hin.
    apply (proj1 (Forall_forall _ _) Htrains) in Hin as [_ Hstatus].
    unfold optimisticStatus in Hstatus.
    destruct Hstatus as [->|[->|[->|[->| ->]]]]; done. }
  unfold TrackLayout.getSectionColor, TrackLayout.infoBadge.
  split; [|split].
  - case_decide; [done|]. destruct occupied; [|done].
    destruct (TrackLayout.getTrainInSection (HookState.trains s) sectionId)
      as [t|] eqn:Hfind; simpl; [|done].
    specialize (Hfound _ _ Hfind).
    rewrite bool_decide_eq_false_2 by done. by case_bool_decide.
  - intros Hsel ->. case_decide; [done|].
    destruct (TrackLayout.getTrainInSection (HookState.trains s) sectionId)
      as [t|] eqn:Hfind; simpl.
    + specialize (Hfound _ _ Hfind).
      rewrite bool_decide_eq_false_2 by done.
      case_bool_decide as Hd; split; try done.
      * intros _. by exists t.
      * intros (t' & [= <-] & ?). done.
    + split; [done|]. by intros (? & ? & _).
  - intros section badge. destruct (TrackLayout.occupied section); [|done].
    destruct (TrackLayout.getTrainInSection (HookState.trains s)
                (TrackLayout.id section)) as [t|] eqn:Hfind; [|done].
    specialize (Hfound _ _ Hfind). intros [= <-]. simpl.
    repeat case_decide; done.
Qed.
End TrackColours.

(** *** The control panel *)

(** X8. [handleTrainAction] of the control panel. With no train selected
    it does nothing. With a train selected and the [onTrainAction] prop
    given, it passes id and action on, whatever the action and whether or
    not the train is in the list. Without that prop it calls
    [onTrainUpdate] once, for the first train of the list with the selected
    id, and only for hold (status "delayed", delay + 5), expedite (delay
    [max(0, delay - 3)], never negative) and reroute (location with
    " (Rerouted)" appended, delay + 2); id, name, next station and eta are
    never part of the update; an id that no train has gives no call. *)
Theorem panel_dispatch (selectedTrain : string) (hasTrainAction : bool)
    (trains : list Train.t) (action : string) :
  (selectedTrain = "" →
     ControlPanel.handleTrainAction selectedTrain hasTrainAction trains action = None) ∧
  (selectedTrain ≠ "" → hasTrainAction = true →
     ControlPanel.handleTrainAction selectedTrain hasTrainAction trains action
       = Some (ControlPanel.onTrainAction selectedTrain action)) ∧
  (hasTrainAction = false →
     ∀ c, ControlPanel.handleTrainAction selectedTrain hasTrainAction trains action
            = Some c →
       ∃ i train changes,
         c = ControlPanel.onTrainUpdate selectedTrain changes ∧
         trains !! i = Some train ∧ Train.id train = selectedTrain ∧
         (∀ j t, (j < i)%nat → trains !! j = Some t → Train.id t ≠ selectedTrain) ∧
         (action = "hold" ∨ action = "expedite" ∨ action = "reroute") ∧
         ControlPanel.id changes = None ∧ ControlPanel.name changes = None ∧
         ControlPanel.nextStation changes = None ∧ ControlPanel.eta changes = None ∧
         (action = "hold" →
            ControlPanel.status changes = Some "delayed" ∧
            ControlPanel.delay changes = Some (add (Train.delay train) (Num 5))) ∧
         (action = "expedite" →
            ControlPanel.status changes = None ∧
            ∃ d, ControlPanel.delay changes = Some d ∧
                 d = Math_max (Num 0) (sub (Train.delay train) (Num 3)) ∧
                 lt d (Num 0) = false) ∧
         (action = "reroute" →
            ControlPanel.currentLocation changes
              = Some (Train.currentLocation train +:+ " (Rerouted)") ∧
            ControlPanel.delay changes = Some (add (Train.delay train) (Num 2)))) ∧
  (hasTrainAction = false →
     (∀ t, t ∈ trains → Train.id t ≠ selectedTrain) →
     ControlPanel.handleTrainAction selectedTrain hasTrainAction trains action = None).
Proof.
  unfold ControlPanel.handleTrainAction.
  split; [|split; [|split]].
  - by intros ->.
  - intros Hsel ->. by destruct selectedTrain.
  - intros -> c. destruct (truthy_string selectedTrain); simpl; [|done].
    destruct (List.find _ trains) as [train|] eqn:Hfind; [|done].
    assert (∃ i, trains !! i = Some train ∧ Train.id train = selectedTrain ∧
                 ∀ j t, (j < i)%nat → trains !! j = Some t →
                        Train.id t ≠ selectedTrain) as (i & Hi & Hid & Hfirst).
    { clear -Hfind. revert Hfind.
      induction trains as [|t0 trains IH]; simpl; [done|].
      case_bool_decide as Ht0.
      - intros [= <-]. exists 0%nat. repeat split; [done|]. intros j t Hj. lia.
      - intros Hfind. destruct (IH Hfind) as (i & Hi & Hid & Hfirst).
        exists (S i). repeat split; [done..|].
        intros [|j] t Hj Hlook; simpl in Hlook.
        + by injection Hlook as <-.
        + apply (Hfirst j t); [lia|done]. }
    repeat case_decide; intros [= <-]; subst action;
      eexists i, train, _; (split; [reflexivity|]); simpl;
      repeat split; auto; try done.
    eexists. split; [reflexivity|]. split; [done|].
    destruct (Train.delay train) as [d|]; simpl; [|done]. apply Z.ltb_ge. lia.
  - intros -> Hnone. destruct (truthy_string selectedTrain); simpl; [|done].
    destruct (List.find _ trains) as [train|] eqn:Hfind; [|done].
    apply find_some in Hfind as [Hin Hid]. apply list_elem_of_In in Hin.
    apply bool_decide_eq_true in Hid. by destruct (Hnone train Hin).
Qed.

(** *** The handlers of the dashboard *)

Lemma await_then_toast {A} (p : Proc A) title description :
  (∃ a, completion p = Normal a) →
  uiEffects (await p;; toast title description)
    = (HookEffect <$> effects p) ++ [ShowToast (Toast.mk title description None)] ∧
  uiCompletion (await p;; toast title description) = Normal ().
Proof.
  intros [a Ha]. unfold mbind, UiProc_bind, await, toast. simpl. by rewrite Ha.
Qed.

(** X9. [handleConnectBackend]: as [fetchLiveData] never throws, the
    [catch] block never runs. The handler performs the effects of one
    [fetchLiveData(true)] and then shows the "Connected Successfully" toast,
    also when the fetch failed; no fallback fetch is made and no other
    toast is shown by the handler. *)
Theorem connect_never_falls_back (w w' : World.t) :
  uiEffects (TrafficDashboard.handleConnectBackend w w')
    = (HookEffect <$> effects (fetchLiveData w true)) ++
      [ShowToast (Toast.mk "Connected Successfully"
                    "Connected to backend and loaded live data" None)] ∧
  uiCompletion (TrafficDashboard.handleConnectBackend w w') = Normal () ∧
  (∀ t, ShowToast t ∈ uiEffects (TrafficDashboard.handleConnectBackend w w') →
        Toast.title t = "Connected Successfully").
Proof.
  unfold TrafficDashboard.handleConnectBackend, try_catch.
  destruct (await_then_toast (fetchLiveData w true) "Connected Successfully"
              "Connected to backend and loaded live data") as [Heff Hcomp].
  { exists (). apply fetchLiveData_completion. }
  rewrite Hcomp, Heff. split; [done|]. split; [done|].
  intros t Hin. apply elem_of_app in Hin as [Hin|Hin].
  - apply list_elem_of_fmap in Hin as (e & [=] & _).
  - apply list_elem_of_singleton in Hin as [= ->]. done.
Qed.

Section DashboardHandlers.
Variable Date_parse : string → number.

(** X10. [handleOptimize] and [handleResolveAll] perform the effects of the
    hook's callback and then always show their success toast, also when the
    backend call failed and the callback has stored an error. *)
Theorem optimise_and_resolve_always_report_success trains w w' s :
  uiEffects (TrafficDashboard.handleOptimize Date_parse trains w)
    = (HookEffect <$> effects (optimizeSchedule Date_parse trains w)) ++
      [ShowToast (Toast.mk "Schedule Optimized"
                    "Train schedule has been optimized for efficiency" None)] ∧
  uiEffects (TrafficDashboard.handleResolveAll Date_parse trains w w')
    = (HookEffect <$> effects (resolveConflicts Date_parse trains w w')) ++
      [ShowToast (Toast.mk "Conflicts Resolved"
                    "AI has resolved all detected conflicts" None)] ∧
  (∀ err, completion (scheduleCall Date_parse trains w) = Throw err →
     HookState.error (run (optimizeSchedule Date_parse trains w) s)
       = Some (messageOr err "Failed to optimize schedule")) ∧
  (∀ err, completion (predictCall w (rebuilt Date_parse trains w)) = Throw err →
     HookState.error (run (resolveConflicts Date_parse trains w w') s)
       = Some (messageOr err "Failed to resolve conflicts")).
Proof.
  split; [|split; [|split]].
  - apply await_then_toast. exists ().
    apply (react_completion Date_parse (withTrains s trains) (CallOptimizeSchedule w)).
  - apply await_then_toast. exists ().
    apply (react_completion Date_parse (withTrains s trains) (CallResolveConflicts w w')).
  - intros err Hc. unfold run. rewrite optimizeSchedule_effects, Hc. by destruct s.
  - intros err Hc. unfold run. rewrite resolveConflicts_effects, Hc. by destruct s.
Qed.
End DashboardHandlers.

(** *** The counters of the dashboard *)

Lemma countStatus_partition (a b : string) (trains : list Train.t) :
  a ≠ b →
  Forall (λ t, Train.status t = a ∨ Train.status t = b) trains →
  (TrafficDashboard.countStatus a trains + TrafficDashboard.countStatus b trains)%nat
    = length trains.
Proof.
  intros Hab. unfold TrafficDashboard.countStatus.
  induction 1 as [|t trains [Ht|Ht] _ IH]; [done|..];
    rewrite !filter_cons; repeat case_decide; simpl; try congruence; lia.
Qed.

Lemma countStatus_zero (a : string) (trains : list Train.t) :
  Forall (λ t, Train.status t ≠ a) trains →
  TrafficDashboard.countStatus a trains = 0%nat.
Proof.
  unfold TrafficDashboard.countStatus.
  induction 1 as [|t trains Ht _ IH]; [done|].
  rewrite filter_cons. by case_decide.
Qed.

Lemma transform_statuses clock backendState out :
  transformBackendToFrontend clock backendState = Normal out →
  length (FrontendState.trains out) = length (BackendState.trains backendState) ∧
  Forall (λ t, (Train.status t = "on-time" ∨ Train.status t = "delayed") ∧
               Train.status t ≠ "conflict") (FrontendState.trains out).
Proof.
  intros H. destruct (transformBackendToFrontend_Normal _ _ _ H) as (_ & Hlen & Hall).
  split; [done|]. apply Forall_lookup. intros i ft Hft.
  destruct (lookup_lt_is_Some_2 (BackendState.trains backendState) i) as [train Ht].
  { rewrite <- Hlen. by eapply lookup_lt_Some. }
  destruct (Hall i train Ht) as (ft' & Hft' & Hcb).
  assert (ft' = ft) as -> by congruence.
  apply toFrontendTrain_Normal in Hcb as [_ ->]. simpl.
  destruct (match BackendTrain.current_delay_minutes train with
            | Some d => truthy d && gt d (Num 0) | None => false end); auto.
Qed.

(** X11. The cards of the dashboard for the trains of a transformed
    snapshot and the conflicts mapped from a prediction: "Active Trains"
    shows the number of trains of the snapshot, "On Time" and "Delayed" add
    up to it, and "Conflicts", which shows the length of the conflict list,
    shows the number of predicted conflicts. The count of trains with
    status "conflict", which the dashboard computes and shows nowhere,
    is 0. *)
Theorem counters_of_a_snapshot clock backendState out predictions :
  transformBackendToFrontend clock backendState = Normal out →
  TrafficDashboard.activeTrainsCard (FrontendState.trains out)
    = length (BackendState.trains backendState) ∧
  (TrafficDashboard.onTimeTrains (FrontendState.trains out)
   + TrafficDashboard.delayedTrains (FrontendState.trains out))%nat
    = TrafficDashboard.activeTrainsCard (FrontendState.trains out) ∧
  TrafficDashboard.conflictTrains (FrontendState.trains out) = 0%nat ∧
  TrafficDashboard.conflictsCard
    (imap toFrontendConflict (PredictionResponse.predicted_conflicts predictions))
    = length (PredictionResponse.predicted_conflicts predictions).
Proof.
  intros H.
  destruct (transform_statuses clock backendState out H) as [Hlen Hall].
  split; [exact Hlen|]. split; [|split].
  - apply countStatus_partition; [done|].
    eapply Forall_impl; [exact Hall|]. intros t [? _]. done.
  - apply countStatus_zero. eapply Forall_impl; [exact Hall|]. by intros t [_ ?].
  - unfold TrafficDashboard.conflictsCard. apply length_imap.
Qed.

(** *** What holds in every state of the hook *)

Lemma requests_fetchLiveData_length w useLive :
  (1 ≤ length (requests (fetchLiveData w useLive)) ≤ 2)%nat.
Proof.
  rewrite fetchLiveData_requests.
  destruct (snapshotCall_effects w useLive) as (url & init & ->).
  destruct (completion (snapshotCall w useLive)) as [backendState|err]; simpl; [|lia].
  destruct (transformBackendToFrontend (World.dateNow w) backendState); simpl; [|lia].
  destruct (predictCall_effects w backendState) as (url' & init' & ->). simpl. lia.
Qed.

Lemma countStatus_five (trains : list Train.t) :
  Forall hookTrain trains →
  (TrafficDashboard.onTimeTrains trains + TrafficDashboard.delayedTrains trains
   + TrafficDashboard.countStatus "held" trains
   + TrafficDashboard.countStatus "expedited" trains
   + TrafficDashboard.countStatus "rerouting" trains)%nat = length trains.
Proof.
  unfold TrafficDashboard.onTimeTrains, TrafficDashboard.delayedTrains,
    TrafficDashboard.countStatus.
  induction 1 as [|t trains [_ Hstatus] _ IH]; [done|].
  unfold optimisticStatus in Hstatus. rewrite !filter_cons.
  destruct Hstatus as [Ht|[Ht|[Ht|[Ht|Ht]]]]; rewrite Ht;
    repeat case_decide; try done; simpl; lia.
Qed.

(** What a callback reports is what its [catch] blocks caught. *)
Lemma fetchLiveData_reports w useLive :
  reports (fetchLiveData w useLive) = fetchReport w useLive.
Proof.
  unfold reports, fetchReport, fetchThrows. rewrite fetchLiveData_effects.
  destruct (snapshotCall_effects w useLive) as (url & init & ->).
  destruct (completion (snapshotCall w useLive)) as [backendState|err]; [|done].
  destruct (transformBackendToFrontend (World.dateNow w) backendState)
    as [frontend|err]; [|done].
  destruct (predictCall_effects w backendState) as (url' & init' & ->).
  by destruct (completion (predictCall w backendState)).
Qed.

Section Invariants.
Variable Date_parse : string → number.

(** X12. No callback of the hook and no tick of the timer ends with an
    exception, and what was thrown is reported: when a backend call of the
    callback, or the transform of a snapshot, throws, the callback makes
    one [console.error] call with the thrown value and one [setError] call
    with its message (the text of the [catch] block for a value that is not
    an [Error]), and when nothing throws it makes neither. *)
Theorem callbacks_never_throw s ev :
  completion (react Date_parse s ev) = Normal () ∧
  reports (react Date_parse s ev) = reportsDue Date_parse s ev.
Proof.
  split; [apply react_completion|].
  destruct ev as [useLive w|w|w w'|trainId action w|w]; unfold react, reportsDue.
  - apply fetchLiveData_reports.
  - unfold reports. rewrite optimizeSchedule_effects.
    by destruct (completion (scheduleCall Date_parse (HookState.trains s) w)).
  - unfold reports at 1. rewrite resolveConflicts_effects.
    destruct (completion (predictCall w _)) as [predictions|err]; [|done].
    destruct (completion (resolutionCall Date_parse _ w _)) as [result|err]; [|done].
    rewrite <- fetchLiveData_reports. unfold reports.
    rewrite !filter_app. cbn -[fetchLiveData].
    repeat case_decide; try done. by rewrite app_nil_r.
  - unfold reports at 1. rewrite handleTrainAction_effects.
    rewrite <- fetchLiveData_reports. unfold reports.
    change (SetLoading true :: UpdateTrains ?f :: ?l)
      with ([SetLoading true; UpdateTrains f] ++ l).
    rewrite !filter_app. cbn -[fetchLiveData].
    repeat case_decide; try done. by rewrite app_nil_r.
  - unfold autoRefresh. destruct (HookState.isConnected s); [|done].
    apply fetchLiveData_reports.
Qed.

(** X13. After a callback has run, [loading] is false (a tick in a
    disconnected state changes nothing); hence [loading] is false in every
    state the hook reaches between callbacks, whatever failed. *)
Theorem loading_is_reset :
  (∀ s ev, HookState.loading (run (react Date_parse s ev) s) = false ∨
           run (react Date_parse s ev) s = s) ∧
  (∀ s, reachable Date_parse s → HookState.loading s = false).
Proof.
  split; [apply react_loading|].
  induction 1 as [mounted|s ev s' _ IH Hstep]; [done|].
  inversion Hstep; subst.
  destruct (react_loading Date_parse s ev) as [?|Heq]; [done|]. by rewrite Heq.
Qed.

(** X14. In every reachable state of the hook, each train is named "Train "
    followed by its id and has one of the statuses on-time, delayed, held,
    expedited, rerouting. So the count of trains with status "conflict"
    that the dashboard computes (and shows nowhere) is 0, and the cards
    "On Time" and "Delayed" fall short of "Active Trains" by the number of
    held, expedited and rerouting trains. *)
Theorem hook_trains_invariant s :
  reachable Date_parse s →
  (∀ t, t ∈ HookState.trains s →
     Train.name t = "Train " +:+ Train.id t ∧
     (Train.status t = "on-time" ∨ Train.status t = "delayed" ∨
      Train.status t = "held" ∨ Train.status t = "expedited" ∨
      Train.status t = "rerouting")) ∧
  TrafficDashboard.conflictTrains (HookState.trains s) = 0%nat ∧
  (TrafficDashboard.onTimeTrains (HookState.trains s)
   + TrafficDashboard.delayedTrains (HookState.trains s)
   + TrafficDashboard.countStatus "held" (HookState.trains s)
   + TrafficDashboard.countStatus "expedited" (HookState.trains s)
   + TrafficDashboard.countStatus "rerouting" (HookState.trains s))%nat
    = TrafficDashboard.activeTrainsCard (HookState.trains s).
Proof.
  intros Hreach.
  destruct (reachable_hookState Date_parse s Hreach) as [Htrains _].
  split; [|split].
  - intros t Hin. by apply (proj1 (Forall_forall _ _) Htrains) in Hin.
  - apply countStatus_zero. eapply Forall_impl; [exact Htrains|].
    intros t [_ Hstatus]. unfold optimisticStatus in Hstatus.
    destruct Hstatus as [->|[->|[->|[->| ->]]]]; done.
  - by apply countStatus_five.
Qed.

(** X15. In every reachable state of the hook, the conflict at position [i]
    has id conflict-[i], so the ids (used as React keys) are pairwise
    distinct; every conflict has severity "medium" and is shown in the
    secondary colour. *)
Theorem conflict_ids_distinct s :
  reachable Date_parse s →
  NoDup (Conflict.id <$> HookState.conflicts s) ∧
  ∀ i c, HookState.conflicts s !! i = Some c →
    Conflict.id c = "conflict-" +:+ pretty i ∧
    Conflict.severity c = "medium" ∧
    ConflictAlert.getSeverityColor (Conflict.severity c) = "secondary".
Proof.
  intros Hreach.
  destruct (reachable_hookState Date_parse s Hreach) as [_ [predicted Hc]].
  assert (∀ i c, HookState.conflicts s !! i = Some c →
                 Conflict.id c = "conflict-" +:+ pretty i ∧
                 Conflict.severity c = "medium") as Hshape.
  { intros i c. rewrite Hc, list_lookup_imap.
    destruct (predicted !! i); simpl; [|done]. by intros [= <-]. }
  split.
  - apply NoDup_alt. intros i j x. rewrite !list_lookup_fmap.
    destruct (HookState.conflicts s !! i) as [ci|] eqn:Hi; simpl; [|done].
    destruct (HookState.conflicts s !! j) as [cj|] eqn:Hj; simpl; [|done].
    intros [= <-] [= Heq].
    destruct (Hshape i ci Hi) as [Hidi _]. destruct (Hshape j cj Hj) as [Hidj _].
    rewrite Hidi, Hidj in Heq. injection Heq as Heq.
    symmetry. by apply (inj pretty).
  - intros i c Hi. destruct (Hshape i c Hi) as [? Hsev].
    split; [done|]. split; [done|]. by rewrite Hsev.
Qed.

(** X16. Every request that a callback of the hook or a tick sends is a
    POST with the JSON content type to a URL under http://localhost:8000,
    and one callback sends at most four requests. *)
Theorem hook_requests s ev :
  (∀ e, e ∈ requests (react Date_parse s ev) →
     ∃ url init, e = HttpFetch url init ∧
       RequestInit.method init = Some "POST" ∧
       RequestInit.headers init = Some [("Content-Type", "application/json")] ∧
       ∃ path, url = API_BASE_URL +:+ path) ∧
  (length (requests (react Date_parse s ev)) ≤ 4)%nat.
Proof.
  split.
  - intros e Hin. unfold requests in Hin.
    apply list_elem_of_filter in Hin as [Hfetch Hin].
    pose proof (react_hookEffects Date_parse s ev) as Hall.
    apply (proj1 (Forall_forall _ _) Hall) in Hin.
    destruct e; try done. by eexists _, _.
  - pose proof (requests_fetchLiveData_length) as Hfetch.
    destruct ev as [useLive w|w|w w'|trainId action w|w]; unfold react.
    + specialize (Hfetch w useLive). lia.
    + unfold requests. rewrite optimizeSchedule_effects.
      destruct (completion (scheduleCall Date_parse (HookState.trains s) w));
        simpl; lia.
    + specialize (Hfetch w' false). unfold requests at 1.
      rewrite resolveConflicts_effects.
      destruct (completion (predictCall w _)) as [predictions|err];
        [|simpl; lia].
      destruct (completion (resolutionCall Date_parse _ w _)) as [result|err];
        [|simpl; lia].
      rewrite !filter_app, !length_app. cbn -[fetchLiveData].
      repeat case_decide; try discriminate; cbn -[fetchLiveData].
      all: fold_requests; lia.
    + specialize (Hfetch w false). unfold requests at 1.
      rewrite handleTrainAction_effects.
      change (SetLoading true :: UpdateTrains ?f :: ?l)
        with ([SetLoading true; UpdateTrains f] ++ l).
      rewrite !filter_app, !length_app. cbn -[fetchLiveData].
      repeat case_decide; try discriminate; cbn -[fetchLiveData].
      all: fold_requests; lia.
    + unfold autoRefresh. destruct (HookState.isConnected s); [|simpl; lia].
      specialize (Hfetch w false). lia.
Qed.
End Invariants.

(** *** The API client, again *)

(** X17. When [fetch] itself throws, [request] has sent that one request
    and throws the same value, unchanged: no retry and no wrapping. *)
Theorem request_passes_on_network_failure {T} (fetch : Fetch T) this endpoint options v :
  fetch (APIService.baseUrl this +:+ endpoint) (APIService.requestInit options) = Throw v →
  effects (APIService.request fetch this endpoint options)
    = [HttpFetch (APIService.baseUrl this +:+ endpoint) (APIService.requestInit options)] ∧
  completion (APIService.request fetch this endpoint options) = Throw v.
Proof.
  intros H. split; [apply request_effects|].
  unfold APIService.request, mbind, Proc_bind. simpl. by rewrite H.
Qed.

(** X18. Each endpoint method of the client sends exactly one request,
    whatever the network answers: the URL is the base URL followed by the
    path with its query, in which a number that is a safe integer (or
    [NaN]) appears in decimal; the header is the JSON content type, and all
    but [getDemo] are POSTs whose body is the state ([resolveConflicts]
    adds the predicted conflicts); [getDemo] sets no method and no body,
    and [getLiveSnapshot] has a body only when a state is given. *)
Theorem endpoint_requests {T} (fetch : Fetch T) (this : APIService.t)
    (useLive : bool) (maxTrains otpTolerance : number) (solver : string)
    (state : BackendState.t) (optional : option BackendState.t)
    (predicted : list PredictedConflict.t) :
  safe maxTrains → safe otpTolerance →
  effects (APIService.getDemo fetch this)
    = [HttpFetch (APIService.baseUrl this +:+ "/demo")
         (RequestInit.mk None None jsonHeaders)] ∧
  effects (APIService.getLiveSnapshot fetch this useLive maxTrains optional)
    = [HttpFetch
         (APIService.baseUrl this +:+ "/live/snapshot?use_live=" +:+ show_bool useLive
          +:+ "&max_trains=" +:+ show_number maxTrains)
         (RequestInit.mk (Some "POST") (StatePayload <$> optional) jsonHeaders)] ∧
  effects (APIService.predictConflicts fetch this state)
    = [HttpFetch (APIService.baseUrl this +:+ "/predict")
         (RequestInit.mk (Some "POST") (Some (StatePayload state)) jsonHeaders)] ∧
  effects (APIService.optimizeSchedule fetch this state otpTolerance)
    = [HttpFetch
         (APIService.baseUrl this +:+ "/schedule?otp_tolerance=" +:+ show_number otpTolerance)
         (RequestInit.mk (Some "POST") (Some (StatePayload state)) jsonHeaders)] ∧
  effects (APIService.resolveConflicts fetch this state predicted solver otpTolerance)
    = [HttpFetch
         (APIService.baseUrl this +:+ "/resolve?solver=" +:+ solver
          +:+ "&otp_tolerance=" +:+ show_number otpTolerance)
         (RequestInit.mk (Some "POST") (Some (ResolvePayload state predicted))
            jsonHeaders)] ∧
  effects (APIService.whatIfAnalysis fetch this state otpTolerance)
    = [HttpFetch
         (APIService.baseUrl this +:+ "/whatif?otp_tolerance=" +:+ show_number otpTolerance)
         (RequestInit.mk (Some "POST") (Some (StatePayload state)) jsonHeaders)] ∧
  effects (APIService.getKPIs fetch this state otpTolerance)
    = [HttpFetch
         (APIService.baseUrl this +:+ "/kpis?otp_tolerance=" +:+ show_number otpTolerance)
         (RequestInit.mk (Some "POST") (Some (StatePayload state)) jsonHeaders)].
Proof.
  intros _ _.
  unfold APIService.getDemo, APIService.getLiveSnapshot, APIService.predictConflicts,
    APIService.optimizeSchedule, APIService.resolveConflicts,
    APIService.whatIfAnalysis, APIService.getKPIs.
  rewrite !request_effects. repeat split.
Qed.

(** *** The error toast *)

(** X19. When something throws inside [fetchLiveData], then at its end,
    whatever other callbacks did while it was suspended, the hook is
    disconnected and [error] is the message of the thrown [Error], or
    "Failed to connect to backend" for another value. The error toast of
    the dashboard for that error carries this text and is not shown when
    the text is empty: an [Error] without message disconnects the hook
    without any toast. When nothing throws, the hook is connected at the
    end; [error] is null, and no toast is due, if no other callback wrote
    in between. *)
Theorem error_toast_after_fetch w useLive others s :
  (∀ err, fetchThrows w useLive = Some err →
     HookState.isConnected (runAmid (fetchLiveData w useLive) others s) = false ∧
     HookState.error (runAmid (fetchLiveData w useLive) others s)
       = Some (messageOr err "Failed to connect to backend") ∧
     (messageOr err "Failed to connect to backend" ≠ "" →
        TrafficDashboard.errorToast
          (HookState.error (runAmid (fetchLiveData w useLive) others s))
          = Some (Toast.mk "Connection Error"
                    (messageOr err "Failed to connect to backend")
                    (Some "destructive"))) ∧
     (messageOr err "Failed to connect to backend" = "" →
        TrafficDashboard.errorToast
          (HookState.error (runAmid (fetchLiveData w useLive) others s)) = None)) ∧
  (∀ name, fetchThrows w useLive = Some (ErrorObject (mkError name "")) →
     HookState.isConnected (runAmid (fetchLiveData w useLive) others s) = false ∧
     TrafficDashboard.errorToast
       (HookState.error (runAmid (fetchLiveData w useLive) others s)) = None) ∧
  (∀ v, fetchThrows w useLive = Some (OtherValue v) →
     TrafficDashboard.errorToast
       (HookState.error (runAmid (fetchLiveData w useLive) others s))
       = Some (Toast.mk "Connection Error" "Failed to connect to backend"
                 (Some "destructive"))) ∧
  (fetchThrows w useLive = None →
     HookState.isConnected (runAmid (fetchLiveData w useLive) others s) = true ∧
     HookState.error (run (fetchLiveData w useLive) s) = None ∧
     TrafficDashboard.errorToast (HookState.error (run (fetchLiveData w useLive) s))
       = None).
Proof.
  assert (∀ message,
            (message ≠ "" →
               TrafficDashboard.errorToast (Some message)
                 = Some (Toast.mk "Connection Error" message (Some "destructive"))) ∧
            (message = "" → TrafficDashboard.errorToast (Some message) = None)) as Htoast.
  { intros [|c message]; split; done. }
  assert (∀ err, fetchThrows w useLive = Some err →
            HookState.isConnected (runAmid (fetchLiveData w useLive) others s) = false ∧
            HookState.error (runAmid (fetchLiveData w useLive) others s)
              = Some (messageOr err "Failed to connect to backend")) as Hfailed.
  { intros err. destruct (fetchLiveData_runAmid w useLive others s) as (s1 & s2 & ->).
    unfold fetchThrows.
    destruct (completion (snapshotCall w useLive)) as [backendState|e];
      [|by intros [= ->]].
    destruct (transformBackendToFrontend (World.dateNow w) backendState) as [frontend|e];
      [|by intros [= ->]].
    destruct (completion (predictCall w backendState)) as [predictions|e];
      [done|by intros [= ->]]. }
  split; [|split; [|split]].
  - intros err Hthrows. destruct (Hfailed err Hthrows) as [Hconnected Herror].
    split; [done|]. split; [done|]. rewrite Herror. apply Htoast.
  - intros name Hthrows. destruct (Hfailed _ Hthrows) as [Hconnected Herror].
    split; [done|]. by rewrite Herror.
  - intros v Hthrows. destruct (Hfailed _ Hthrows) as [_ Herror]. by rewrite Herror.
  - destruct (fetchLiveData_runAmid w useLive others s) as (s1 & s2 & ->).
    rewrite fetchLiveData_run. unfold fetchThrows.
    destruct (completion (snapshotCall w useLive)) as [backendState|e]; [|done].
    destruct (transformBackendToFrontend (World.dateNow w) backendState) as [frontend|e];
      [|done].
    by destruct (completion (predictCall w backendState)) as [predictions|e].
Qed.

(** *** Sample runs *)

Lemma connectedState_reachable : reachable (λ _, NaN) connectedState.
Proof.
  apply (reachable_step _ (HookState.initial 0) (CallFetchLiveData false onlineWorld)).
  - apply reachable_initial.
  - apply step_react.
Defined.

Lemma heldState_reachable : reachable (λ _, NaN) heldState.
Proof.
  apply (reachable_step _ connectedState (CallHandleTrainAction "T1" "hold" offlineWorld)).
  - apply connectedState_reachable.
  - apply step_react.
Defined.

Lemma heldState_trains : HookState.trains heldState = [heldTrain].
Proof. reflexivity. Defined.

Lemma loading_is_reset_sample :
  reachable (λ _, NaN) heldState ∧ HookState.loading heldState = false.
Proof.
  split; [exact heldState_reachable|].
  exact (proj2 (loading_is_reset (λ _, NaN)) heldState heldState_reachable).
Defined.

Lemma hook_trains_invariant_sample :
  reachable (λ _, NaN) heldState ∧
  heldTrain ∈ HookState.trains heldState ∧
  Train.name heldTrain = "Train T1" ∧
  TrafficDashboard.conflictTrains (HookState.trains heldState) = 0%nat ∧
  TrafficDashboard.activeTrainsCard (HookState.trains heldState) = 1%nat ∧
  TrafficDashboard.onTimeTrains (HookState.trains heldState) = 0%nat ∧
  TrafficDashboard.delayedTrains (HookState.trains heldState) = 0%nat.
Proof.
  assert (heldTrain ∈ HookState.trains heldState) as Hin
    by (rewrite heldState_trains; apply list_elem_of_here).
  split; [exact heldState_reachable|]. split; [exact Hin|].
  destruct (hook_trains_invariant (λ _, NaN) heldState heldState_reachable)
    as (Heach & Hcount & _).
  split; [exact (proj1 (Heach heldTrain Hin))|]. split; [exact Hcount|].
  repeat split.
Defined.

Lemma conflict_ids_distinct_sample :
  reachable (λ _, NaN) connectedState ∧
  NoDup (Conflict.id <$> HookState.conflicts connectedState) ∧
  ∃ c, HookState.conflicts connectedState !! 0%nat = Some c ∧
       Conflict.id c = "conflict-0".
Proof.
  split; [exact connectedState_reachable|].
  destruct (conflict_ids_distinct (λ _, NaN) connectedState connectedState_reachable)
    as [Hnodup Heach].
  split; [exact Hnodup|].
  eexists. split; [reflexivity|]. exact (proj1 (Heach 0%nat _ eq_refl)).
Defined.

Lemma hook_requests_sample :
  HttpFetch "http://localhost:8000/predict"
    (postOf (StatePayload (rebuilt (λ _, NaN) sampleTrains resolvingWorld)))
    ∈ requests (react (λ _, NaN) (withTrains (HookState.initial 0) sampleTrains)
                  (CallResolveConflicts resolvingWorld onlineWorld)) ∧
  length (requests (react (λ _, NaN) (withTrains (HookState.initial 0) sampleTrains)
                      (CallResolveConflicts resolvingWorld onlineWorld))) = 4%nat ∧
  (length (requests (react (λ _, NaN) (withTrains (HookState.initial 0) sampleTrains)
                       (CallResolveConflicts resolvingWorld onlineWorld))) ≤ 4)%nat ∧
  ∃ path, "http://localhost:8000/predict" = API_BASE_URL +:+ path.
Proof.
  assert (HttpFetch "http://localhost:8000/predict"
            (postOf (StatePayload (rebuilt (λ _, NaN) sampleTrains resolvingWorld)))
          ∈ requests (react (λ _, NaN) (withTrains (HookState.initial 0) sampleTrains)
                        (CallResolveConflicts resolvingWorld onlineWorld))) as Hin
    by apply list_elem_of_here.
  destruct (hook_requests (λ _, NaN) (withTrains (HookState.initial 0) sampleTrains)
              (CallResolveConflicts resolvingWorld onlineWorld)) as [Hshape Hcount].
  split; [exact Hin|]. split; [reflexivity|]. split; [exact Hcount|].
  destruct (Hshape _ Hin) as (url & init & Heq & _ & _ & path & Hpath).
  injection Heq as <- _. exists path. exact Hpath.
Defined.



Lemma optimise_and_resolve_always_report_success_sample :
  completion (scheduleCall (λ _, NaN) sampleTrains offlineWorld) = Throw networkError ∧
  HookState.error (run (optimizeSchedule (λ _, NaN) sampleTrains offlineWorld)
                       (HookState.initial 0)) = Some "Failed to fetch" ∧
  last (uiEffects (TrafficDashboard.handleOptimize (λ _, NaN) sampleTrains offlineWorld))
    = Some (ShowToast (Toast.mk "Schedule Optimized"
                         "Train schedule has been optimized for efficiency" None)).
Proof.
  destruct (optimise_and_resolve_always_report_success (λ _, NaN) sampleTrains
              offlineWorld offlineWorld (HookState.initial 0))
    as (Heff & _ & Herr & _).
  split; [reflexivity|]. split; [exact (Herr networkError eq_refl)|].
  rewrite Heff. apply last_snoc.
Defined.

Lemma connect_never_falls_back_sample :
  HookState.isConnected (run (fetchLiveData offlineWorld true) (HookState.initial 0))
    = false ∧
  last (uiEffects (TrafficDashboard.handleConnectBackend offlineWorld onlineWorld))
    = Some (ShowToast (Toast.mk "Connected Successfully"
                         "Connected to backend and loaded live data" None)).
Proof.
  split; [reflexivity|].
  rewrite (proj1 (connect_never_falls_back offlineWorld onlineWorld)).
  apply last_snoc.
Defined.

Lemma counters_of_a_snapshot_sample :
  transformBackendToFrontend sampleClock sampleState = Normal sampleProjection ∧
  TrafficDashboard.onTimeTrains (FrontendState.trains sampleProjection) = 0%nat ∧
  TrafficDashboard.delayedTrains (FrontendState.trains sampleProjection) = 1%nat ∧
  TrafficDashboard.activeTrainsCard (FrontendState.trains sampleProjection) = 1%nat ∧
  TrafficDashboard.conflictTrains (FrontendState.trains sampleProjection) = 0%nat ∧
  TrafficDashboard.conflictsCard
    (imap toFrontendConflict (PredictionResponse.predicted_conflicts samplePrediction))
    = 1%nat.
Proof.
  destruct (counters_of_a_snapshot sampleClock sampleState sampleProjection
              samplePrediction eq_refl) as (Hactive & _ & Hnone & Hconflicts).
  split; [reflexivity|]. split; [reflexivity|]. split; [reflexivity|].
  split; [exact Hactive|]. split; [exact Hnone|exact Hconflicts].
Defined.

Lemma time_to_conflict_label_sample :
  ConflictAlert.formatTimeToConflict (Num 12) = "12m" ∧
  ConflictAlert.formatTimeToConflict (Num 135) = "2h 15m" ∧
  (∃ hours minutes,
     ConflictAlert.formatTimeToConflict (Num 135)
       = pretty hours +:+ "h " +:+ pretty minutes +:+ "m" ∧
     1 ≤ hours ∧ 0 ≤ minutes < 60 ∧ 135 = hours * 60 + minutes) ∧
  ¬ ConflictAlert.formatTimeToConflict (Num 12) = "Imminent".
Proof.
  destruct (time_to_conflict_label 12) as (Himminent & Hshort & _ & _).
  destruct (time_to_conflict_label 135) as (_ & _ & Hlong & _).
  assert (1 ≤ 12 < 60) as H12 by lia.
  assert (60 ≤ 135 ≤ MAX_SAFE_INTEGER) as H135 by (unfold MAX_SAFE_INTEGER; lia).
  split; [exact (Hshort H12)|]. split; [reflexivity|]. split; [exact (Hlong H135)|].
  intros Heq. apply Himminent in Heq. lia.
Defined.

Lemma views_of_hook_trains_sample :
  reachable (λ _, NaN) heldState ∧ heldTrain ∈ HookState.trains heldState ∧
  optimisticStatus (Train.status heldTrain) ∧
  TrainStatus.getStatusBadge "held" (Num 7) = Badge.mk (Some "secondary") None "Unknown" ∧
  TrainStatus.progressBarClass heldTrain = "bg-destructive animate-pulse" ∧
  TimeDistanceGraph.legendBadge heldTrain
    = Badge.mk (Some "destructive") (Some "text-xs") "Conflict".
Proof.
  assert (heldTrain ∈ HookState.trains heldState) as Hin
    by (rewrite heldState_trains; apply list_elem_of_here).
  assert (optimisticStatus (Train.status heldTrain)) as Hopt by (left; reflexivity).
  split; [exact heldState_reachable|]. split; [exact Hin|]. split; [exact Hopt|].
  destruct (views_of_hook_trains (λ _, NaN) heldState heldTrain heldState_reachable Hin)
    as (_ & _ & Hviews & _).
  destruct (Hviews Hopt) as (Hbadge & _ & _ & _ & _ & Hbar & _ & Hlegend & _).
  split; [exact Hbadge|]. split; [exact Hbar|exact Hlegend].
Defined.

Lemma track_occupancy_sample :
  TrackLayout.someIn trackTrains "AB" = true ∧
  (∃ t, TrackLayout.getTrainInSection trackTrains "AB" = Some t) ∧
  (∃ t, TrackLayout.getTrainInSection trackTrains "DE" = Some t ∧
        contains (Train.currentLocation t) "DE") ∧
  TrackLayout.occupied (TrackLayout.mkSection "DE" "Section D-E" false) = false.
Proof.
  destruct (track_occupancy trackTrains) as (Hsome & Hfind & Hfirst & Hsections).
  assert (TrackLayout.someIn trackTrains "AB" = true) as Hab.
  { apply Hsome. eexists. split; [apply list_elem_of_here|].
    by exists "Section ", "". }
  split; [exact Hab|]. split; [exact (proj1 (Hfind "AB") Hab)|]. split.
  - eexists. split; [reflexivity|].
    destruct (Hfirst "DE" _ eq_refl) as (i & _ & Hc & _). exact Hc.
  - apply (Hsections (TrackLayout.mkSection "DE" "Section D-E" false)); [|reflexivity].
    do 3 apply list_elem_of_further. apply list_elem_of_here.
Defined.

Lemma track_layout_of_hook_trains_sample :
  reachable (λ _, NaN) heldState ∧
  TrackLayout.getSectionColor None (HookState.trains heldState) "S1" true
    ≠ "hsl(var(--destructive))".
Proof.
  split; [exact heldState_reachable|].
  exact (proj1 (track_layout_of_hook_trains (λ _, NaN) heldState None "S1" true
                  heldState_reachable)).
Defined.

Lemma panel_dispatch_sample :
  ControlPanel.handleTrainAction "T2" true sampleTrains "expedite"
    = Some (ControlPanel.onTrainAction "T2" "expedite") ∧
  ControlPanel.handleTrainAction "T2" false sampleTrains "expedite"
    = Some (ControlPanel.onTrainUpdate "T2"
              (ControlPanel.mkUpdates None None None None (Some (Num 0)) None None)) ∧
  ∃ i train changes,
    ControlPanel.onTrainUpdate "T2"
      (ControlPanel.mkUpdates None None None None (Some (Num 0)) None None)
      = ControlPanel.onTrainUpdate "T2" changes ∧
    sampleTrains !! i = Some train ∧ Train.id train = "T2".
Proof.
  destruct (panel_dispatch "T2" true sampleTrains "expedite") as (_ & Hdelegate & _).
  destruct (panel_dispatch "T2" false sampleTrains "expedite") as (_ & _ & Hlocal & _).
  assert ("T2" ≠ "") as Hsel by discriminate.
  split; [exact (Hdelegate Hsel eq_refl)|]. split; [reflexivity|].
  destruct (Hlocal eq_refl _ eq_refl) as (i & train & changes & Hc & Hi & Hid & _).
  exists i, train, changes. split; [exact Hc|]. split; [exact Hi|exact Hid].
Defined.

Lemma request_passes_on_network_failure_sample :
  (unreachable : Fetch BackendState.t) "http://localhost:8000/demo"
      (APIService.requestInit RequestInit.empty) = Throw networkError ∧
  completion (APIService.request (unreachable : Fetch BackendState.t) apiService "/demo"
                RequestInit.empty) = Throw networkError.
Proof.
  split; [reflexivity|].
  exact (proj2 (request_passes_on_network_failure unreachable apiService "/demo"
                  RequestInit.empty networkError eq_refl)).
Defined.

Lemma safe_50 : safe (Num 50).
Proof. unfold safe, safeInteger, MAX_SAFE_INTEGER. lia. Defined.

Lemma safe_300 : safe (Num 300).
Proof. unfold safe, safeInteger, MAX_SAFE_INTEGER. lia. Defined.

Lemma endpoint_requests_sample :
  safe (Num 50) ∧ safe (Num 300) ∧
  effects (APIService.getLiveSnapshot (unreachable : Fetch BackendState.t) apiService
             true (Num 50) None)
    = [HttpFetch "http://localhost:8000/live/snapshot?use_live=true&max_trains=50"
         (RequestInit.mk (Some "POST") None jsonHeaders)] ∧
  effects (APIService.getKPIs (unreachable : Fetch BackendState.t) apiService
             sampleState (Num 300))
    = [HttpFetch "http://localhost:8000/kpis?otp_tolerance=300"
         (RequestInit.mk (Some "POST") (Some (StatePayload sampleState)) jsonHeaders)].
Proof.
  destruct (endpoint_requests (unreachable : Fetch BackendState.t) apiService true
              (Num 50) (Num 300) "milp" sampleState None [] safe_50 safe_300)
    as (_ & Hsnapshot & _ & _ & _ & _ & Hkpis).
  split; [exact safe_50|]. split; [exact safe_300|].
  split; [exact Hsnapshot|exact Hkpis].
Defined.

Lemma error_toast_after_fetch_sample :
  (fetchThrows offlineWorld false = Some networkError ∧
   HookState.error
     (runAmid (fetchLiveData offlineWorld false) [[SetError None; SetIsConnected true]]
        connectedState)
     = Some "Failed to fetch" ∧
   TrafficDashboard.errorToast
     (HookState.error
        (runAmid (fetchLiveData offlineWorld false) [[SetError None; SetIsConnected true]]
           connectedState))
     = Some (Toast.mk "Connection Error" "Failed to fetch" (Some "destructive"))) ∧
  (fetchThrows silentWorld false = Some (ErrorObject (mkError "Error" "")) ∧
   HookState.isConnected (runAmid (fetchLiveData silentWorld false) [] connectedState)
     = false ∧
   TrafficDashboard.errorToast
     (HookState.error (runAmid (fetchLiveData silentWorld false) [] connectedState))
     = None).
Proof.
  destruct (error_toast_after_fetch offlineWorld false
              [[SetError None; SetIsConnected true]] connectedState)
    as (Hmessage & _).
  destruct (error_toast_after_fetch silentWorld false [] connectedState)
    as (_ & Hsilent & _).
  assert ("Failed to fetch" ≠ "") as Hne by discriminate.
  split.
  - split; [reflexivity|].
    destruct (Hmessage networkError eq_refl) as (_ & Herror & Htoast & _).
    split; [exact Herror|exact (Htoast Hne)].
  - split; [reflexivity|]. exact (Hsilent "Error" eq_refl).
Defined.
